(** * lib-copilot-framework: a shallow embedding of the tool factories

    The development follows the TypeScript sources:
    - [core/fuzzy-matching]        (module [FuzzyMatching]),
    - [core/response-helpers]      (module [ResponseHelpers]),
    - [core/agentic-framework]     (module [AgenticFramework]),
    - [core/copilot-crud-framework] (module [CrudFramework]),
    - [services/modification.service] (module [ModificationService]).

    JavaScript strings are sequences of UTF-16 code units; asynchronous
    calls into the integrator's closures (entity store, hooks, handlers,
    the Prisma client) are state transformers over an explicit world. *)

From stdpp Require Import base gmap list strings.

Local Open Scope Z_scope.

(* ================================================================== *)
(** * JavaScript strings *)
(* ================================================================== *)

Module JsString.

(** A string value: its UTF-16 code units. *)
Definition jsstring : Type := list N.

(** An ASCII literal as a JavaScript string. *)
Fixpoint str (s : string) : jsstring :=
  match s with
  | EmptyString => []
  | String c r => Ascii.N_of_ascii c :: str r
  end.

Arguments str : simpl never.

(** U+2705 and U+274C, the two prefixes of the outcome lines. *)
Definition check_mark : jsstring := [9989%N].
Definition cross_mark : jsstring := [10060%N].

(** [String.prototype.startsWith], with the default position 0. *)
Fixpoint startsWith (s p : jsstring) : bool :=
  match p, s with
  | [], _ => true
  | _ :: _, [] => false
  | c :: p', d :: s' => (c =? d)%N && startsWith s' p'
  end.

(** [String.prototype.includes], with the default position 0. *)
Fixpoint includes (s p : jsstring) : bool :=
  startsWith s p ||
  match s with
  | [] => false
  | _ :: s' => includes s' p
  end.

(** [===] on two strings. *)
Definition strictEquals (s p : jsstring) : bool := bool_decide (s = p).

(** The code units ECMAScript calls WhiteSpace or LineTerminator. *)
Definition isWhiteSpace (c : N) : bool :=
  ((9 <=? c) && (c <=? 13) || (c =? 32) || (c =? 160) || (c =? 5760)
   || (8192 <=? c) && (c <=? 8202) || (c =? 8232) || (c =? 8233)
   || (c =? 8239) || (c =? 8287) || (c =? 12288) || (c =? 65279))%N.

Fixpoint trimStart (s : jsstring) : jsstring :=
  match s with
  | [] => []
  | c :: r => if isWhiteSpace c then trimStart r else s
  end.

Definition trimEnd (s : jsstring) : jsstring := rev (trimStart (rev s)).

(** [String.prototype.trim]. *)
Definition trim (s : jsstring) : jsstring := trimEnd (trimStart s).

(** [Array.prototype.join]. *)
Fixpoint join (sep : jsstring) (l : list jsstring) : jsstring :=
  match l with
  | [] => []
  | [s] => s
  | s :: r => s ++ sep ++ join sep r
  end.

Definition newline : jsstring := [10%N].

(** A non-negative integer inside a template literal. *)
Fixpoint digits (u : Decimal.uint) : jsstring :=
  match u with
  | Decimal.Nil => []
  | Decimal.D0 r => 48%N :: digits r
  | Decimal.D1 r => 49%N :: digits r
  | Decimal.D2 r => 50%N :: digits r
  | Decimal.D3 r => 51%N :: digits r
  | Decimal.D4 r => 52%N :: digits r
  | Decimal.D5 r => 53%N :: digits r
  | Decimal.D6 r => 54%N :: digits r
  | Decimal.D7 r => 55%N :: digits r
  | Decimal.D8 r => 56%N :: digits r
  | Decimal.D9 r => 57%N :: digits r
  end.

Definition ofNat (n : nat) : jsstring := digits (Nat.to_uint n).

(** The Basic Latin part of [String.prototype.toLowerCase]: the units
    of A..Z move to a..z, every other unit below 128 stays. *)
Definition lowerLatinUnit (c : N) : N :=
  if ((65 <=? c) && (c <=? 90))%N then (c + 32)%N else c.

Definition lowerLatin (s : jsstring) : jsstring := map lowerLatinUnit s.

Definition isBasicLatin (s : jsstring) : Prop := Forall (λ c, (c < 128)%N) s.

(** What is assumed of the engine's [toLowerCase]: on Basic Latin
    strings it is [lowerLatin].  Outside that block (special casing,
    surrogate pairs) nothing is fixed. *)
Definition LowerCaseOnLatin (toLowerCase : jsstring → jsstring) : Prop :=
  ∀ s, isBasicLatin s → toLowerCase s = lowerLatin s.

End JsString.

Import JsString.

(* ================================================================== *)
(** * JavaScript arrays *)
(* ================================================================== *)

Module JsArray.

(** [Array.prototype.findIndex], counting from [i]. *)
Fixpoint findIndexFrom {A} (p : A → bool) (l : list A) (i : Z) : Z :=
  match l with
  | [] => -1
  | x :: r => if p x then i else findIndexFrom p r (i + 1)
  end.

Definition findIndex {A} (p : A → bool) (l : list A) : Z := findIndexFrom p l 0.

End JsArray.

Import JsArray.

(* ================================================================== *)
(** * core/fuzzy-matching *)
(* ================================================================== *)

Module FuzzyMatching.

Section WithEngine.

(** The engine's numbers, and its [String.prototype.toLowerCase]. *)
Context {Number : Type}.
Variable toLowerCase : jsstring → jsstring.

(** [FuzzyMatchOptions]: every field is optional. *)
Record FuzzyMatchOptions : Type := {
  exact : option bool;
  startsWith : option bool;
  minScore : option Number
}.

(** The default argument [{}]. *)
Definition noOptions : FuzzyMatchOptions :=
  {| exact := None; startsWith := None; minScore := None |}.

(** What a field of an item can hold. *)
Inductive JsValue : Type :=
| VUndefined
| VNull
| VBoolean (b : bool)
| VNumber (x : Number)
| VString (s : jsstring)
| VObject.

(** [typeof v === 'string'], with the string when it is one. *)
Definition asString (v : JsValue) : option jsstring :=
  match v with
  | VString s => Some s
  | _ => None
  end.

(** An item, [Record<string, unknown>]. *)
Definition Item : Type := gmap jsstring JsValue.

(** [item[nameField]]: an absent property reads as [undefined]. *)
Definition getField (item : Item) (nameField : jsstring) : JsValue :=
  default VUndefined (item !! nameField).

Definition fuzzyMatch (target searchTerm : jsstring)
           (options : FuzzyMatchOptions) : bool :=
  let exact := default false (exact options) in
  let startsWith_ := default false (startsWith options) in
  let normalizedTarget := trim (toLowerCase target) in
  let normalizedSearch := trim (toLowerCase searchTerm) in
  if exact then strictEquals normalizedTarget normalizedSearch
  else if startsWith_ then JsString.startsWith normalizedTarget normalizedSearch
  else includes normalizedTarget normalizedSearch.

(** The callback handed to [findIndex]. *)
Definition fieldMatches (nameField searchTerm : jsstring)
           (options : FuzzyMatchOptions) (item : Item) : bool :=
  match asString (getField item nameField) with
  | None => false
  | Some fieldValue => fuzzyMatch fieldValue searchTerm options
  end.

Definition fuzzyFindIndex (items : list Item) (nameField searchTerm : jsstring)
           (options : FuzzyMatchOptions) : Z :=
  findIndex (fieldMatches nameField searchTerm options) items.

(** [index >= 0 ? items[index] : undefined] *)
Definition fuzzyFind (items : list Item) (nameField searchTerm : jsstring)
           (options : FuzzyMatchOptions) : option Item :=
  let index := fuzzyFindIndex items nameField searchTerm options in
  if 0 <=? index then items !! Z.to_nat index else None.

Definition fuzzyFindAll (items : list Item) (nameField searchTerm : jsstring)
           (options : FuzzyMatchOptions) : list Item :=
  List.filter (fieldMatches nameField searchTerm options) items.

End WithEngine.

Arguments FuzzyMatchOptions : clear implicits.
Arguments JsValue : clear implicits.
Arguments Item : clear implicits.

End FuzzyMatching.

(* ================================================================== *)
(** * Exceptions and effects *)
(* ================================================================== *)

Module Effects.

(** A thrown value: an [Error] with its message, or anything else with
    what [String(...)] makes of it. *)
Inductive Thrown : Type :=
| ThrownError (message : jsstring)
| ThrownOther (rendered : jsstring).

(** [error instanceof Error ? error.message : String(error)] *)
Definition messageOf (t : Thrown) : jsstring :=
  match t with
  | ThrownError message => message
  | ThrownOther rendered => rendered
  end.

(** How a call ends: it returns, or it throws (a promise rejects). *)
Inductive Completion (A : Type) : Type :=
| Normal (a : A)
| Abrupt (t : Thrown).
Arguments Normal {A} a.
Arguments Abrupt {A} t.

(** A computation over a state [S] that may throw. *)
Definition Eff (S A : Type) : Type := S → S * Completion A.

Definition ret {S A} (a : A) : Eff S A := λ s, (s, Normal a).

Definition throw {S A} (t : Thrown) : Eff S A := λ s, (s, Abrupt t).

Definition bind {S A B} (m : Eff S A) (k : A → Eff S B) : Eff S B :=
  λ s, match m s with
       | (s', Normal a) => k a s'
       | (s', Abrupt t) => (s', Abrupt t)
       end.

(** [try { m } catch (error) { h error }] *)
Definition tryCatch {S A} (m : Eff S A) (h : Thrown → Eff S A) : Eff S A :=
  λ s, match m s with
       | (s', Normal a) => (s', Normal a)
       | (s', Abrupt t) => h t s'
       end.

Declare Scope eff_scope.
Delimit Scope eff_scope with eff.
Notation "'let*' x ':=' m 'in' k" := (bind m (λ x, k))
  (at level 10, x name, m at level 100, k at level 200) : eff_scope.

Definition returned {S A} (r : S * Completion A) : Prop :=
  ∃ a, r.2 = Normal a.

End Effects.

Import Effects.

(* ================================================================== *)
(** * core/response-helpers *)
(* ================================================================== *)

Module ResponseHelpers.

Record ModificationResult (T : Type) : Type := {
  success : bool;
  message : jsstring;
  updated : option T;
  affectedCount : option nat;
  error : option jsstring
}.
Arguments success {T} _.
Arguments message {T} _.
Arguments updated {T} _.
Arguments affectedCount {T} _.
Arguments error {T} _.

Definition successResult {T} (message : jsstring) (updated : option T)
           (affectedCount : option nat) : ModificationResult T :=
  {| success := true;
     message := message;
     updated := updated;
     affectedCount := affectedCount;
     error := None |}.

(** The argument of [errorResult]: [string | Error]. *)
Inductive ErrorArg : Type :=
| ErrString (s : jsstring)
| ErrObject (message : jsstring).

Definition errorResult {T} (error : ErrorArg) : ModificationResult T :=
  {| success := false;
     message := str "Modification failed";
     updated := None;
     affectedCount := None;
     error := Some match error with
                   | ErrString s => s
                   | ErrObject message => message
                   end |}.

(** [error instanceof Error ? error : String(error)] *)
Definition errorArgOf (thrown : Thrown) : ErrorArg :=
  match thrown with
  | ThrownError message => ErrObject message
  | ThrownOther rendered => ErrString rendered
  end.

(** [try { return await operation() } catch (error) { ... }] *)
Definition safeExecute {S T} (operation : Eff S (ModificationResult T))
  : Eff S (ModificationResult T) :=
  tryCatch operation (λ error, ret (errorResult (errorArgOf error))).

End ResponseHelpers.

Import ResponseHelpers.

(* ================================================================== *)
(** * core/agentic-framework *)
(* ================================================================== *)

Module AgenticFramework.

(** [ToBoolean] on the values carried as target, changes and newData:
    what a condition makes of a value that is there ([false] for
    [null], [0], [NaN], the empty string and [false]; an object is
    always [true]). *)
Class ToBoolean (Payload : Type) : Type := toBoolean : Payload → bool.

Section Framework.

(** [TEntity], the integrator's world behind the asynchronous calls,
    [McpContext], and the values carried as target, changes and
    newData. *)
Context {Entity World McpContext Payload : Type} `{!ToBoolean Payload}.

(** [schema.safeParse(value)]: a result object, unless the schema
    itself throws. *)
Inductive SafeParseReturn : Type :=
| ParseSuccess (data : option Payload)
| ParseFailure (errorMessage : jsstring).

Definition ZodSchema : Type := option Payload → Completion SafeParseReturn.

Record ExecuteParams : Type := {
  p_target : option Payload;
  p_changes : option Payload;
  p_newData : option Payload
}.

(** One run of a handler: the world after it, the entity object it
    was given as its in-place mutations left it, and what it
    returned ([None] for [undefined] or [null]) or threw. *)
Record HandlerRun : Type := {
  worldAfter : World;
  entityAfter : Entity;
  completion : Completion (option Entity)
}.

Record AgenticActionHandler : Type := {
  h_description : jsstring;
  targetSchema : ZodSchema;
  changesSchema : option ZodSchema;
  newDataSchema : option ZodSchema;
  h_execute : Entity → ExecuteParams → McpContext → World → HandlerRun
}.

(** [validateEntity] returns [boolean | string]. *)
Inductive Verdict : Type :=
| VerdictBoolean (b : bool)
| VerdictString (s : jsstring).

Record AgenticToolConfig : Type := {
  name : jsstring;
  domain : jsstring;
  description : jsstring;
  entityIdField : jsstring;
  resolveEntity : jsstring → McpContext → Eff World (option Entity);
  saveEntity : jsstring → Entity → McpContext → Eff World unit;
  actions : gmap jsstring AgenticActionHandler;
  batchSupported : option bool;
  beforeSave : option (Entity → McpContext → Eff World Entity);
  afterSave : option (Entity → McpContext → Eff World unit);
  validateEntity : option (Entity → Eff World Verdict)
}.

Record ModificationItem : Type := {
  action : jsstring;
  target : option Payload;
  changes : option Payload;
  newData : option Payload
}.

(** The arguments as [execute] reads them: [args[entityIdField]],
    [args.action], [args.target], [args.changes], [args.newData] and
    [args.batch]. *)
Record ToolArgs : Type := {
  a_entityId : jsstring;
  a_action : option jsstring;
  a_target : option Payload;
  a_changes : option Payload;
  a_newData : option Payload;
  a_batch : option (list ModificationItem)
}.

(** The calls [execute] makes into the configuration, in order. *)
Inductive Call : Type :=
| CallResolveEntity (id : jsstring)
| CallValidateEntity (entity : Entity)
| CallExecute (action : jsstring) (entity : Entity) (params : ExecuteParams)
| CallBeforeSave (entity : Entity)
| CallSaveEntity (id : jsstring) (entity : Entity)
| CallAfterSave (entity : Entity).

Record Machine : Type := {
  world : World;
  calls : list Call
}.

(** A call into a closure of the configuration, recorded. *)
Definition call {A} (c : Call) (f : Eff World A) : Eff Machine A :=
  λ m, let '(w, r) := f (world m) in
       ({| world := w; calls := calls m ++ [c] |}, r).

(** The [updated] payload of the aggregate result. *)
Record Summary : Type := {
  s_entityId : jsstring;
  modificationsApplied : nat;
  errors : nat
}.

(** ** [actions[mod.action]] *)

(** The members every object literal inherits from
    [Object.prototype]: reading one of them through [actions[...]]
    yields a value that is not [undefined]. *)
Definition objectPrototypeMembers : list jsstring :=
  [ str "constructor"; str "__proto__"; str "hasOwnProperty";
    str "isPrototypeOf"; str "propertyIsEnumerable";
    str "toLocaleString"; str "toString"; str "valueOf";
    str "__defineGetter__"; str "__defineSetter__";
    str "__lookupGetter__"; str "__lookupSetter__" ].

Inductive Lookup : Type :=
| Registered (handler : AgenticActionHandler)
| Inherited
| Absent.

Definition lookupAction (actions : gmap jsstring AgenticActionHandler)
           (name : jsstring) : Lookup :=
  match actions !! name with
  | Some handler => Registered handler
  | None =>
      if bool_decide (name ∈ objectPrototypeMembers) then Inherited
      else Absent
  end.

(** The [TypeError] of [handler.targetSchema.safeParse] when
    [handler] is an inherited member: its [targetSchema] is
    [undefined]. *)
Definition noTargetSchema : Thrown :=
  ThrownError
    (str "Cannot read properties of undefined (reading 'safeParse')").

(** ** The outcome lines *)

Definition unknownActionLine (action : jsstring) : jsstring :=
  cross_mark ++ str " Unknown action: " ++ action.

Definition invalidTargetLine (action msg : jsstring) : jsstring :=
  cross_mark ++ str " Invalid target for " ++ action ++ str ": " ++ msg.

Definition invalidChangesLine (action msg : jsstring) : jsstring :=
  cross_mark ++ str " Invalid changes for " ++ action ++ str ": " ++ msg.

Definition completedLine (action : jsstring) : jsstring :=
  check_mark ++ str " " ++ action ++ str " completed".

Definition failedLine (action : jsstring) (error : Thrown) : jsstring :=
  cross_mark ++ str " " ++ action ++ str " failed: " ++ messageOf error.

(** ** Step 4: the loop over the modifications *)

(** [currentEntity], [results] and the machine between two items. *)
Record LoopState : Type := {
  machine : Machine;
  currentEntity : Entity;
  results : list jsstring
}.

(** [results.push(line)], then on to the next item. *)
Definition push (st : LoopState) (line : jsstring) : LoopState :=
  {| machine := machine st;
     currentEntity := currentEntity st;
     results := results st ++ [line] |}.

(** A value in a condition: [undefined] is false, a value that is
    there is what [ToBoolean] makes of it. *)
Definition truthyValue (v : option Payload) : bool :=
  match v with
  | Some c => toBoolean c
  | None => false
  end.

(** The validation of [mod.changes], run when the handler has a
    [changesSchema] and [mod.changes] is truthy: [inl] the message
    of a failed parse, [inr] the value handed to the handler (the
    parsed data, or [mod.changes] as it came when nothing was
    parsed). *)
Definition parseChanges (handler : AgenticActionHandler) (item : ModificationItem)
  : Completion (jsstring + option Payload) :=
  match changesSchema handler with
  | Some schema =>
      if truthyValue (changes item)
      then match schema (changes item) with
           | Abrupt t => Abrupt t
           | Normal (ParseFailure msg) => Normal (inl msg)
           | Normal (ParseSuccess data) => Normal (inr data)
           end
      else Normal (inr (changes item))
  | None => Normal (inr (changes item))
  end.

(** [await handler.execute(currentEntity, {...}, context)] and the
    lines after it, with the [catch] of the enclosing [try]. *)
Definition runHandler (context : McpContext) (handler : AgenticActionHandler)
           (item : ModificationItem) (params : ExecuteParams)
           (st : LoopState) : LoopState :=
  let run := h_execute handler (currentEntity st) params context
                       (world (machine st)) in
  let m := {| world := worldAfter run;
              calls := calls (machine st)
                       ++ [CallExecute (action item) (currentEntity st) params] |} in
  match completion run with
  | Normal result =>
      {| machine := m;
         currentEntity := default (entityAfter run) result;
         results := results st ++ [completedLine (action item)] |}
  | Abrupt error =>
      {| machine := m;
         currentEntity := entityAfter run;
         results := results st ++ [failedLine (action item) error] |}
  end.

(** The body of [for (const mod of modifications)]. *)
Definition processItem (cfg : AgenticToolConfig) (context : McpContext)
           (st : LoopState) (item : ModificationItem) : LoopState :=
  match lookupAction (actions cfg) (action item) with
  | Absent => push st (unknownActionLine (action item))
  | Inherited => push st (failedLine (action item) noTargetSchema)
  | Registered handler =>
      match targetSchema handler (target item) with
      | Abrupt error => push st (failedLine (action item) error)
      | Normal (ParseFailure msg) =>
          push st (invalidTargetLine (action item) msg)
      | Normal (ParseSuccess targetData) =>
          match parseChanges handler item with
          | Abrupt error => push st (failedLine (action item) error)
          | Normal (inl msg) =>
              push st (invalidChangesLine (action item) msg)
          | Normal (inr changesParsed) =>
              runHandler context handler item
                {| p_target := targetData;
                   p_changes := changesParsed;
                   p_newData := newData item |} st
          end
      end
  end.

Definition applyModifications (cfg : AgenticToolConfig) (context : McpContext)
           (modifications : list ModificationItem) (st : LoopState) : LoopState :=
  fold_left (processItem cfg context) modifications st.

(** ** Step 3: the list of modifications *)

(** A string in a condition: true unless it is empty. *)
Definition truthy (s : option jsstring) : bool :=
  match s with
  | Some (_ :: _) => true
  | _ => false
  end.

Definition buildModifications (args : ToolArgs) : list ModificationItem :=
  match a_batch args with
  | Some (first :: rest) => first :: rest
  | _ =>
      match a_action args with
      | Some a =>
          if truthy (Some a)
          then [ {| action := a;
                    target := a_target args;
                    changes := a_changes args;
                    newData := a_newData args |} ]
          else []
      | None => []
      end
  end.

(** ** Steps 5 to 8 *)

Definition countPrefixed (mark : jsstring) (results : list jsstring) : nat :=
  length (filter (λ r, startsWith r mark = true) results).

Definition finish (cfg : AgenticToolConfig) (context : McpContext)
           (entityId : jsstring) (entity : Entity) (results : list jsstring)
  : Eff Machine (ModificationResult Summary) :=
  (let* currentEntity :=
     match beforeSave cfg with
     | Some hook => call (CallBeforeSave entity) (hook entity context)
     | None => ret entity
     end in
   let* saved :=
     tryCatch
       (let* _ := call (CallSaveEntity entityId currentEntity)
                       (saveEntity cfg entityId currentEntity context) in
        ret None)
       (λ error, ret (Some error)) in
   match saved with
   | Some error =>
       ret (errorResult (ErrString (str "Save failed: " ++ messageOf error)))
   | None =>
       let* _ :=
         match afterSave cfg with
         | Some hook => call (CallAfterSave currentEntity) (hook currentEntity context)
         | None => ret tt
         end in
       let successCount := countPrefixed check_mark results in
       let errorCount := countPrefixed cross_mark results in
       ret (successResult (join newline results)
              (Some {| s_entityId := entityId;
                       modificationsApplied := successCount;
                       errors := errorCount |})
              None)
   end)%eff.

(** ** The [execute] of the tool [createAgenticTool] returns *)

Definition execute (cfg : AgenticToolConfig) (args : ToolArgs)
           (context : McpContext) : Eff Machine (ModificationResult Summary) :=
  (let entityId := a_entityId args in
   let* resolved := call (CallResolveEntity entityId)
                         (resolveEntity cfg entityId context) in
   match resolved with
   | None =>
       ret (errorResult
              (ErrString (domain cfg ++ str " entity with ID " ++ entityId
                          ++ str " not found")))
   | Some entity =>
       let* validation :=
         match validateEntity cfg with
         | Some validate => call (CallValidateEntity entity) (validate entity)
         | None => ret (VerdictBoolean true)
         end in
       match validation with
       | VerdictString reason => ret (errorResult (ErrString reason))
       | VerdictBoolean false =>
           ret (errorResult (ErrString (str "Entity validation failed")))
       | VerdictBoolean true =>
           match buildModifications args with
           | [] =>
               ret (errorResult
                      (ErrString (str "No modification specified. Provide action+target or batch array.")))
           | modifications =>
               λ m,
                 let st := applyModifications cfg context modifications
                             {| machine := m;
                                currentEntity := entity;
                                results := [] |} in
                 finish cfg context entityId (currentEntity st) (results st)
                        (machine st)
           end
       end
   end)%eff.

End Framework.

Arguments AgenticToolConfig : clear implicits.
Arguments AgenticActionHandler : clear implicits.
Arguments ModificationItem : clear implicits.
Arguments ToolArgs : clear implicits.
Arguments Call : clear implicits.
Arguments Machine : clear implicits.
Arguments LoopState : clear implicits.
Arguments HandlerRun : clear implicits.
Arguments ExecuteParams : clear implicits.
Arguments SafeParseReturn : clear implicits.

End AgenticFramework.

(* ================================================================== *)
(** * core/copilot-crud-framework *)
(* ================================================================== *)

Module CrudFramework.

(** [CrudOperation], the members of [CrudOperations]. *)
Inductive CrudOperation : Type := create | read | update | delete.

(** The operation inside a template literal. *)
Definition operationName (op : CrudOperation) : jsstring :=
  match op with
  | create => str "create"
  | read => str "read"
  | update => str "update"
  | delete => str "delete"
  end.

Section Framework.

(** The world behind the handlers, [McpContext], the values of an
    argument object and the [updated] payload of a handler. *)
Context {World McpContext Value Updated : Type}.

(** An argument object, [Record<string, unknown>]. *)
Abbreviation JsRecord := (gmap jsstring Value).

(** What [execute] can hand back in [updated]: the [{ results }] of a
    batch, or whatever a handler put there. *)
Inductive CrudUpdated : Type :=
| BatchResults (results : list jsstring)
| HandlerUpdated (u : Updated).

Definition CrudHandler : Type :=
  JsRecord → McpContext → Eff World (ModificationResult Updated).

Record BatchOperationItem : Type := {
  operation : CrudOperation;
  target : option JsRecord;
  data : option JsRecord
}.

Record CrudToolConfig : Type := {
  name : jsstring;
  domain : jsstring;
  description : jsstring;
  operations : list CrudOperation;
  batchSupported : option bool;
  handlers : CrudOperation → option CrudHandler
}.

(** The arguments as [execute] reads them: [args.operation],
    [args.batch], and the whole object, which the handler of a
    single operation receives. *)
Record CrudArgs : Type := {
  a_operation : CrudOperation;
  a_batch : option (list BatchOperationItem);
  a_all : JsRecord
}.

(** The handler invocations, in order. *)
Record Machine : Type := {
  world : World;
  calls : list (CrudOperation * JsRecord)
}.

Definition call {A : Type} (op : CrudOperation) (args : JsRecord) (f : Eff World A)
  : Eff Machine A :=
  λ m, let '(w, r) := f (world m) in
       ({| world := w; calls := calls m ++ [(op, args)] |}, r).

(** [{ ...item.target, ...item.data }]: the later spread wins. *)
Definition spread (item : BatchOperationItem) : JsRecord :=
  default ∅ (data item) ∪ default ∅ (target item).

(** [`${result.error}`] *)
Definition renderError (e : option jsstring) : jsstring :=
  default (str "undefined") e.

(** A handler result seen as a result of [execute]. *)
Definition ofHandler (r : ModificationResult Updated)
  : ModificationResult CrudUpdated :=
  {| success := success r;
     message := message r;
     updated := HandlerUpdated <$> updated r;
     affectedCount := affectedCount r;
     error := error r |}.

(** [for (const item of batch)] with the [return] after it; [size]
    is [batch.length]. *)
Fixpoint batchLoop (cfg : CrudToolConfig) (context : McpContext) (size : nat)
         (items : list BatchOperationItem) (results : list jsstring)
  : Eff Machine (ModificationResult CrudUpdated) :=
  match items with
  | [] =>
      ret (successResult
             (str "Batch completed: " ++ ofNat size ++ str " operations")
             (Some (BatchResults results)) None)
  | item :: rest =>
      match handlers cfg (operation item) with
      | None =>
          ret (errorResult
                 (ErrString (str "Unknown operation in batch: "
                             ++ operationName (operation item))))
      | Some handler =>
          (let* result := call (operation item) (spread item)
                               (handler (spread item) context) in
           if negb (success result)
           then ret (errorResult
                       (ErrString (str "Batch failed at operation "
                                   ++ operationName (operation item)
                                   ++ str ": " ++ renderError (error result))))
           else batchLoop cfg context size rest (results ++ [message result]))%eff
      end
  end.

(** [errorResult(error instanceof Error ? error : String(error))] *)
Definition ofThrown (t : Thrown) : ErrorArg :=
  match t with
  | ThrownError message => ErrObject message
  | ThrownOther rendered => ErrString rendered
  end.

(** The [execute] of the tool [createCrudTool] returns. *)
Definition execute (cfg : CrudToolConfig) (args : CrudArgs) (context : McpContext)
  : Eff Machine (ModificationResult CrudUpdated) :=
  let operation := a_operation args in
  match a_batch args with
  | Some (first :: others) =>
      if negb (default false (batchSupported cfg))
      then ret (errorResult
                  (ErrString (str "Batch operations not supported for this domain")))
      else batchLoop cfg context (length (first :: others)) (first :: others) []
  | _ =>
      match handlers cfg operation with
      | None =>
          ret (errorResult
                 (ErrString (str "Unknown operation: " ++ operationName operation)))
      | Some handler =>
          tryCatch
            (let* result := call operation (a_all args)
                                 (handler (a_all args) context) in
             ret (ofHandler result))%eff
            (λ error, ret (errorResult (ofThrown error)))
      end
  end.

End Framework.

Arguments CrudToolConfig : clear implicits.
Arguments BatchOperationItem : clear implicits.
Arguments CrudArgs : clear implicits.
Arguments Machine : clear implicits.
Arguments CrudUpdated : clear implicits.
Arguments CrudHandler : clear implicits.

End CrudFramework.

(* ================================================================== *)
(** * services/modification.service *)
(* ================================================================== *)

Module ModificationService.

(** A number inside a template literal (integers only). *)
Definition ofZ (z : Z) : jsstring :=
  if z <? 0 then str "-" ++ ofNat (Z.abs_nat z) else ofNat (Z.abs_nat z).

Section Service.

(** The values of the JSON and scalar columns, and of the parts of a
    plan or program this service only passes along. *)
Context {Json : Type}.

(** ** The tables behind [prisma] *)

(** A row of [nutrition_plans]; its [id] is the key of the table. *)
Record NutritionPlanRow : Type := {
  np_userId : option jsstring;
  np_version : Z;
  np_name : Json;
  np_description : Json;
  np_goals : Json;
  np_durationWeeks : Json;
  np_targetMacros : Json;
  np_weeks : Json;
  np_restrictions : Json;
  np_preferences : Json;
  np_status : Json;
  np_metadata : Json
}.

(** A row of [nutrition_plan_versions]; its [id] is the key. *)
Record NutritionPlanVersionRow : Type := {
  npv_planId : jsstring;
  npv_version : Z;
  npv_name : Json;
  npv_description : Json;
  npv_goals : Json;
  npv_durationWeeks : Json;
  npv_targetMacros : Json;
  npv_weeks : Json;
  npv_restrictions : Json;
  npv_preferences : Json;
  npv_status : Json;
  npv_metadata : Json;
  npv_createdBy : jsstring
}.

(** A row of [workout_programs]. *)
Record WorkoutProgramRow : Type := {
  wp_userId : option jsstring;
  wp_version : Z;
  wp_name : Json;
  wp_description : Json;
  wp_difficulty : Json;
  wp_durationWeeks : Json;
  wp_goals : Json;
  wp_status : Json;
  wp_weeks : Json;
  wp_metadata : Json
}.

(** A row of [workout_program_versions]. *)
Record WorkoutProgramVersionRow : Type := {
  wpv_programId : jsstring;
  wpv_version : Z;
  wpv_name : Json;
  wpv_description : Json;
  wpv_difficulty : Json;
  wpv_durationWeeks : Json;
  wpv_goals : Json;
  wpv_status : Json;
  wpv_weeks : Json;
  wpv_metadata : Json;
  wpv_createdBy : jsstring
}.

(** A write: one [create] or [update] on a table. *)
Inductive DbWrite : Type :=
| CreatedPlanVersion (id : jsstring)
| UpdatedPlan (id : jsstring)
| CreatedProgramVersion (id : jsstring)
| UpdatedProgram (id : jsstring).

(** The database: four tables keyed by [id], the writes that took
    effect, oldest first, and the writes the server does not carry
    out, each with the error the client throws for it (a lost
    connection, a deadlock, a timeout); a write it refuses changes
    nothing. *)
Record Db : Type := {
  nutrition_plans : gmap jsstring NutritionPlanRow;
  nutrition_plan_versions : gmap jsstring NutritionPlanVersionRow;
  workout_programs : gmap jsstring WorkoutProgramRow;
  workout_program_versions : gmap jsstring WorkoutProgramVersionRow;
  journal : list DbWrite;
  refusals : DbWrite → option Thrown
}.

(** [new Error(message)], thrown. *)
Definition throwError {S A} (message : jsstring) : Eff S A :=
  throw (ThrownError message).

(** A collaborator that computes without touching the database. *)
Definition pure {A} (c : Completion A) : Eff Db A := λ db, (db, c).

(** A collaborator that reads the database. *)
Definition reading {A} (f : Db → Completion A) : Eff Db A := λ db, (db, f db).

(** [prisma.$transaction(async (tx) => body)]: the writes of [body]
    take effect together when it returns; when it throws, none of
    them does and the error is thrown on. *)
Definition transaction {A} (body : Eff Db A) : Eff Db A :=
  λ db, match body db with
        | (db', Normal a) => (db', Normal a)
        | (_, Abrupt t) => (db, Abrupt t)
        end.

(** [nutrition_plans.findUnique({ where: { id } })] *)
Definition findNutritionPlan (id : jsstring) : Eff Db (option NutritionPlanRow) :=
  λ db, (db, Normal (nutrition_plans db !! id)).

(** [workout_programs.findUnique({ where: { id } })] *)
Definition findWorkoutProgram (id : jsstring) : Eff Db (option WorkoutProgramRow) :=
  λ db, (db, Normal (workout_programs db !! id)).

(** [tx.nutrition_plan_versions.create({ data })]: it throws when
    the server refuses the write and when the primary key is
    taken. *)
Definition createNutritionPlanVersion (id : jsstring)
           (data : NutritionPlanVersionRow) : Eff Db unit :=
  λ db, match refusals db (CreatedPlanVersion id) with
        | Some refusal => (db, Abrupt refusal)
        | None =>
            match nutrition_plan_versions db !! id with
            | Some _ =>
                (db, Abrupt (ThrownError (str "Unique constraint failed on the fields: (`id`)")))
            | None =>
                ({| nutrition_plans := nutrition_plans db;
                    nutrition_plan_versions :=
                      <[id := data]> (nutrition_plan_versions db);
                    workout_programs := workout_programs db;
                    workout_program_versions := workout_program_versions db;
                    journal := journal db ++ [CreatedPlanVersion id];
                    refusals := refusals db |},
                 Normal tt)
            end
        end.

(** The [data] of the update of a plan, [version] apart. *)
Record NutritionPlanUpdate : Type := {
  npu_name : Json;
  npu_description : Json;
  npu_goals : Json;
  npu_durationWeeks : Json;
  npu_targetMacros : Json;
  npu_weeks : Json;
  npu_restrictions : Json;
  npu_preferences : Json;
  npu_status : Json;
  npu_metadata : Json
}.

(** The row after [update({ data: { ..., version: { increment: 1 } } })]. *)
Definition updatedNutritionPlanRow (old : NutritionPlanRow)
           (data : NutritionPlanUpdate) : NutritionPlanRow :=
  {| np_userId := np_userId old;
     np_version := np_version old + 1;
     np_name := npu_name data;
     np_description := npu_description data;
     np_goals := npu_goals data;
     np_durationWeeks := npu_durationWeeks data;
     np_targetMacros := npu_targetMacros data;
     np_weeks := npu_weeks data;
     np_restrictions := npu_restrictions data;
     np_preferences := npu_preferences data;
     np_status := npu_status data;
     np_metadata := npu_metadata data |}.

(** [tx.nutrition_plans.update({ where: { id }, data })]: it throws
    when the server refuses the write and when there is no such
    row. *)
Definition updateNutritionPlan (id : jsstring) (data : NutritionPlanUpdate)
  : Eff Db unit :=
  λ db, match refusals db (UpdatedPlan id) with
        | Some refusal => (db, Abrupt refusal)
        | None =>
            match nutrition_plans db !! id with
            | None =>
                (db, Abrupt (ThrownError (str "Record to update not found.")))
            | Some old =>
                ({| nutrition_plans :=
                      <[id := updatedNutritionPlanRow old data]>
                        (nutrition_plans db);
                    nutrition_plan_versions := nutrition_plan_versions db;
                    workout_programs := workout_programs db;
                    workout_program_versions := workout_program_versions db;
                    journal := journal db ++ [UpdatedPlan id];
                    refusals := refusals db |},
                 Normal tt)
            end
        end.

(** [tx.workout_program_versions.create({ data })] *)
Definition createWorkoutProgramVersion (id : jsstring)
           (data : WorkoutProgramVersionRow) : Eff Db unit :=
  λ db, match refusals db (CreatedProgramVersion id) with
        | Some refusal => (db, Abrupt refusal)
        | None =>
            match workout_program_versions db !! id with
            | Some _ =>
                (db, Abrupt (ThrownError (str "Unique constraint failed on the fields: (`id`)")))
            | None =>
                ({| nutrition_plans := nutrition_plans db;
                    nutrition_plan_versions := nutrition_plan_versions db;
                    workout_programs := workout_programs db;
                    workout_program_versions :=
                      <[id := data]> (workout_program_versions db);
                    journal := journal db ++ [CreatedProgramVersion id];
                    refusals := refusals db |},
                 Normal tt)
            end
        end.

(** The [data] of the update of a program, [version] apart. *)
Record WorkoutProgramUpdate : Type := {
  wpu_name : Json;
  wpu_description : Json;
  wpu_difficulty : Json;
  wpu_durationWeeks : Json;
  wpu_goals : Json;
  wpu_weeks : Json;
  wpu_status : Json;
  wpu_metadata : Json
}.

Definition updatedWorkoutProgramRow (old : WorkoutProgramRow)
           (data : WorkoutProgramUpdate) : WorkoutProgramRow :=
  {| wp_userId := wp_userId old;
     wp_version := wp_version old + 1;
     wp_name := wpu_name data;
     wp_description := wpu_description data;
     wp_difficulty := wpu_difficulty data;
     wp_durationWeeks := wpu_durationWeeks data;
     wp_goals := wpu_goals data;
     wp_status := wpu_status data;
     wp_weeks := wpu_weeks data;
     wp_metadata := wpu_metadata data |}.

(** [tx.workout_programs.update({ where: { id }, data })] *)
Definition updateWorkoutProgram (id : jsstring) (data : WorkoutProgramUpdate)
  : Eff Db unit :=
  λ db, match refusals db (UpdatedProgram id) with
        | Some refusal => (db, Abrupt refusal)
        | None =>
            match workout_programs db !! id with
            | None =>
                (db, Abrupt (ThrownError (str "Record to update not found.")))
            | Some old =>
                ({| nutrition_plans := nutrition_plans db;
                    nutrition_plan_versions := nutrition_plan_versions db;
                    workout_programs :=
                      <[id := updatedWorkoutProgramRow old data]>
                        (workout_programs db);
                    workout_program_versions := workout_program_versions db;
                    journal := journal db ++ [UpdatedProgram id];
                    refusals := refusals db |},
                 Normal tt)
            end
        end.

(** ** The normalized shapes *)

Record NutritionDay : Type := {
  dayNumber : Z;
  dayBody : Json
}.

Record NutritionWeek : Type := {
  nw_weekNumber : Z;
  nw_days : option (list NutritionDay);
  nw_other : Json
}.

Record NutritionPlan : Type := {
  n_name : Json;
  n_description : Json;
  n_goals : Json;
  n_durationWeeks : Json;
  n_targetMacros : Json;
  n_weeks : list NutritionWeek;
  n_restrictions : option Json;
  n_preferences : option Json;
  n_updatedAt : option jsstring;
  n_other : Json
}.

(** [tempPlanData]: the plan's header around the one modified day. *)
Record TempPlanData : Type := {
  t_name : Json;
  t_description : Json;
  t_goals : Json;
  t_durationWeeks : Json;
  t_targetMacros : Json;
  t_weekNumber : Z;
  t_day : Json;
  t_restrictions : Json;
  t_preferences : Json
}.

(** What [preparePlanForPersistence] returns. *)
Record PlanPersistence : Type := {
  pp_name : Json;
  pp_description : Json;
  pp_goals : Json;
  pp_durationWeeks : Json;
  pp_targetMacros : Json;
  pp_weeks : Json;
  pp_restrictions : Json;
  pp_preferences : Json;
  pp_status : Json;
  pp_metadata : Json
}.

Record WorkoutWeek : Type := {
  weekNumber : Z;
  weekBody : Json
}.

Record WorkoutProgram : Type := {
  w_name : Json;
  w_description : Json;
  w_difficulty : Json;
  w_durationWeeks : Json;
  w_goals : option Json;
  w_weeks : list WorkoutWeek;
  w_status : Json;
  w_updatedAt : option jsstring;
  w_other : Json
}.

(** [tempProgramData]: the program's header around the one week. *)
Record TempProgramData : Type := {
  tp_name : Json;
  tp_description : Json;
  tp_difficulty : Json;
  tp_durationWeeks : Json;
  tp_goals : Json;
  tp_week : WorkoutWeek;
  tp_status : Json
}.

(** What [prepareProgramForPersistence] returns. *)
Record ProgramPersistence : Type := {
  wpp_name : Json;
  wpp_description : Json;
  wpp_difficulty : Json;
  wpp_durationWeeks : Json;
  wpp_goals : Json;
  wpp_weeks : Json;
  wpp_status : Json;
  wpp_metadata : Json
}.

(** ** What the service imports from the other packages *)

Record Imports : Type := {
  emptyArray : Json;
  toPrismaJsonValue : Json → Json;
  toNullablePrismaJsonValue : Json → Json;
  normalizeNutritionPlan : NutritionPlanRow → Completion NutritionPlan;
  getNutritionPlanTotalDays : NutritionPlan → Z;
  getNutritionPlanDay : NutritionPlan → Z → option NutritionDay;
  normalizeAgentPayload : TempPlanData → NutritionPlan → Completion NutritionPlan;
  preparePlanForPersistence : NutritionPlan → Completion PlanPersistence;
  normalizeWorkoutProgram : WorkoutProgramRow → Completion WorkoutProgram;
  normalizeAgentWorkoutPayload :
    TempProgramData → WorkoutProgram → Db → Completion WorkoutProgram;
  calculateWeightsInProgram :
    jsstring → WorkoutProgram → Db → Completion WorkoutProgram;
  prepareProgramForPersistence : WorkoutProgram → Completion ProgramPersistence
}.

Record ModifyNutritionDayParams : Type := {
  planId : jsstring;
  p_dayNumber : Z;
  modifiedDayData : Json;
  n_userId : jsstring
}.

Record ModifyWorkoutWeekParams : Type := {
  programId : jsstring;
  p_weekNumber : Z;
  modifiedWeekData : WorkoutWeek;
  w_userId : jsstring
}.

(** ** [modifyNutritionDay] *)

(** The loop that finds the week holding day [dayNumber]. *)
Fixpoint findWeekNumber (weeks : list NutritionWeek) (dayNumber : Z)
         (weekNum dayCounter : Z) : Z :=
  match weeks with
  | [] => weekNum
  | week :: rest =>
      let daysInWeek :=
        match nw_days week with
        | Some ds => Z.of_nat (length ds)
        | None => 0
        end in
      if dayNumber <=? dayCounter + daysInWeek
      then nw_weekNumber week
      else findWeekNumber rest dayNumber (weekNum + 1) (dayCounter + daysInWeek)
  end.

(** [normalizedPlanToUpdate.weeks.map(...)] *)
Definition replaceDay (weeks : list NutritionWeek) (weekNum dayNum : Z)
           (modifiedDay : NutritionDay) : list NutritionWeek :=
  map (λ week,
         if bool_decide (nw_weekNumber week = weekNum)
         then {| nw_weekNumber := nw_weekNumber week;
                 nw_days :=
                   Some match nw_days week with
                        | Some ds =>
                            map (λ d, if bool_decide (dayNumber d = dayNum)
                                      then modifiedDay else d) ds
                        | None => []
                        end;
                 nw_other := nw_other week |}
         else week)
      weeks.

(** [{ ...plan, weeks }] *)
Definition planWithWeeks (plan : NutritionPlan) (weeks : list NutritionWeek)
  : NutritionPlan :=
  {| n_name := n_name plan;
     n_description := n_description plan;
     n_goals := n_goals plan;
     n_durationWeeks := n_durationWeeks plan;
     n_targetMacros := n_targetMacros plan;
     n_weeks := weeks;
     n_restrictions := n_restrictions plan;
     n_preferences := n_preferences plan;
     n_updatedAt := n_updatedAt plan;
     n_other := n_other plan |}.

(** [{ ...plan, updatedAt }] *)
Definition planWithUpdatedAt (plan : NutritionPlan) (now : jsstring)
  : NutritionPlan :=
  {| n_name := n_name plan;
     n_description := n_description plan;
     n_goals := n_goals plan;
     n_durationWeeks := n_durationWeeks plan;
     n_targetMacros := n_targetMacros plan;
     n_weeks := n_weeks plan;
     n_restrictions := n_restrictions plan;
     n_preferences := n_preferences plan;
     n_updatedAt := Some now;
     n_other := n_other plan |}.

(** [normalizedTempPlan.weeks[0]?.days?.[0]] *)
Definition firstDay (plan : NutritionPlan) : option NutritionDay :=
  match n_weeks plan with
  | week :: _ =>
      match nw_days week with
      | Some (day :: _) => Some day
      | _ => None
      end
  | [] => None
  end.

(** The snapshot of a plan row, as the transaction writes it. *)
Definition planSnapshot (imp : Imports) (planId userId : jsstring)
           (planToUpdate : NutritionPlanRow) : NutritionPlanVersionRow :=
  {| npv_planId := planId;
     npv_version := np_version planToUpdate;
     npv_name := np_name planToUpdate;
     npv_description := np_description planToUpdate;
     npv_goals := np_goals planToUpdate;
     npv_durationWeeks := np_durationWeeks planToUpdate;
     npv_targetMacros := toPrismaJsonValue imp (np_targetMacros planToUpdate);
     npv_weeks := toPrismaJsonValue imp (np_weeks planToUpdate);
     npv_restrictions := np_restrictions planToUpdate;
     npv_preferences := np_preferences planToUpdate;
     npv_status := np_status planToUpdate;
     npv_metadata := toNullablePrismaJsonValue imp (np_metadata planToUpdate);
     npv_createdBy := userId |}.

(** The [data] of the update of the live plan. *)
Definition planUpdate (imp : Imports) (persistenceData : PlanPersistence)
  : NutritionPlanUpdate :=
  {| npu_name := pp_name persistenceData;
     npu_description := pp_description persistenceData;
     npu_goals := pp_goals persistenceData;
     npu_durationWeeks := pp_durationWeeks persistenceData;
     npu_targetMacros := toPrismaJsonValue imp (pp_targetMacros persistenceData);
     npu_weeks := toPrismaJsonValue imp (pp_weeks persistenceData);
     npu_restrictions := pp_restrictions persistenceData;
     npu_preferences := pp_preferences persistenceData;
     npu_status := pp_status persistenceData;
     npu_metadata := toNullablePrismaJsonValue imp (pp_metadata persistenceData) |}.

(** [createId] is what [createId()] returns in this call and [now]
    what [new Date().toISOString()] does. *)
Definition modifyNutritionDay (imp : Imports) (params : ModifyNutritionDayParams)
           (createId now : jsstring) : Eff Db NutritionPlan :=
  (let planId := planId params in
   let dayNumber := p_dayNumber params in
   let modifiedDayData := modifiedDayData params in
   let userId := n_userId params in
   let* found := findNutritionPlan planId in
   match found with
   | None => throwError (str "Plan not found")
   | Some planToUpdate =>
       if negb (bool_decide (np_userId planToUpdate = Some userId))
       then throwError (str "Unauthorized: Plan does not belong to user")
       else
         let* normalizedPlanToUpdate :=
           pure (normalizeNutritionPlan imp planToUpdate) in
         let totalDays := getNutritionPlanTotalDays imp normalizedPlanToUpdate in
         if (dayNumber <? 1) || (totalDays <? dayNumber)
         then throwError (str "Invalid day number: " ++ ofZ dayNumber
                          ++ str ". Plan has " ++ ofZ totalDays ++ str " day(s)")
         else
           match getNutritionPlanDay imp normalizedPlanToUpdate dayNumber with
           | None =>
               throwError (str "Day " ++ ofZ dayNumber ++ str " not found in plan")
           | Some dayToModify =>
               let weekNum :=
                 findWeekNumber (n_weeks normalizedPlanToUpdate) dayNumber 1 0 in
               let tempPlanData :=
                 {| t_name := n_name normalizedPlanToUpdate;
                    t_description := n_description normalizedPlanToUpdate;
                    t_goals := n_goals normalizedPlanToUpdate;
                    t_durationWeeks := n_durationWeeks normalizedPlanToUpdate;
                    t_targetMacros := n_targetMacros normalizedPlanToUpdate;
                    t_weekNumber := weekNum;
                    t_day := modifiedDayData;
                    t_restrictions :=
                      default (emptyArray imp) (n_restrictions normalizedPlanToUpdate);
                    t_preferences :=
                      default (emptyArray imp) (n_preferences normalizedPlanToUpdate) |} in
               let* normalizedTempPlan :=
                 pure (normalizeAgentPayload imp tempPlanData
                         (planWithUpdatedAt normalizedPlanToUpdate now)) in
               match firstDay normalizedTempPlan with
               | None => throwError (str "Failed to normalize modified day")
               | Some modifiedDay =>
                   let updatedWeeks :=
                     replaceDay (n_weeks normalizedPlanToUpdate) weekNum dayNumber
                                modifiedDay in
                   let planWithModifiedDay :=
                     planWithWeeks normalizedPlanToUpdate updatedWeeks in
                   let* persistenceData :=
                     pure (preparePlanForPersistence imp planWithModifiedDay) in
                   let* _ :=
                     transaction
                       (let* _ := createNutritionPlanVersion createId
                                    (planSnapshot imp planId userId planToUpdate) in
                        updateNutritionPlan planId (planUpdate imp persistenceData)) in
                   let* reloaded := findNutritionPlan planId in
                   match reloaded with
                   | None => throwError (str "Failed to load updated plan")
                   | Some updatedPlan =>
                       pure (normalizeNutritionPlan imp updatedPlan)
                   end
               end
           end
   end)%eff.

(** ** [modifyWorkoutWeek] *)

(** The snapshot of a program row, as the transaction writes it. *)
Definition programSnapshot (imp : Imports) (programId userId : jsstring)
           (programToUpdate : WorkoutProgramRow) : WorkoutProgramVersionRow :=
  {| wpv_programId := programId;
     wpv_version := wp_version programToUpdate;
     wpv_name := wp_name programToUpdate;
     wpv_description := wp_description programToUpdate;
     wpv_difficulty := wp_difficulty programToUpdate;
     wpv_durationWeeks := wp_durationWeeks programToUpdate;
     wpv_goals := wp_goals programToUpdate;
     wpv_status := wp_status programToUpdate;
     wpv_weeks := toPrismaJsonValue imp (wp_weeks programToUpdate);
     wpv_metadata := toNullablePrismaJsonValue imp (wp_metadata programToUpdate);
     wpv_createdBy := userId |}.

(** The [data] of the update of the live program. *)
Definition programUpdate (imp : Imports) (persistenceData : ProgramPersistence)
  : WorkoutProgramUpdate :=
  {| wpu_name := wpp_name persistenceData;
     wpu_description := wpp_description persistenceData;
     wpu_difficulty := wpp_difficulty persistenceData;
     wpu_durationWeeks := wpp_durationWeeks persistenceData;
     wpu_goals := wpp_goals persistenceData;
     wpu_weeks := toPrismaJsonValue imp (wpp_weeks persistenceData);
     wpu_status := wpp_status persistenceData;
     wpu_metadata := toNullablePrismaJsonValue imp (wpp_metadata persistenceData) |}.

(** [{ ...program, weeks }] *)
Definition withWeeks (program : WorkoutProgram) (weeks : list WorkoutWeek)
  : WorkoutProgram :=
  {| w_name := w_name program;
     w_description := w_description program;
     w_difficulty := w_difficulty program;
     w_durationWeeks := w_durationWeeks program;
     w_goals := w_goals program;
     w_weeks := weeks;
     w_status := w_status program;
     w_updatedAt := w_updatedAt program;
     w_other := w_other program |}.

(** [{ ...program, updatedAt }] *)
Definition withUpdatedAt (program : WorkoutProgram) (now : jsstring)
  : WorkoutProgram :=
  {| w_name := w_name program;
     w_description := w_description program;
     w_difficulty := w_difficulty program;
     w_durationWeeks := w_durationWeeks program;
     w_goals := w_goals program;
     w_weeks := w_weeks program;
     w_status := w_status program;
     w_updatedAt := Some now;
     w_other := w_other program |}.

Definition modifyWorkoutWeek (imp : Imports) (params : ModifyWorkoutWeekParams)
           (createId now : jsstring) : Eff Db WorkoutProgram :=
  (let programId := programId params in
   let weekNumber_ := p_weekNumber params in
   let modifiedWeekData := modifiedWeekData params in
   let userId := w_userId params in
   let* found := findWorkoutProgram programId in
   match found with
   | None => throwError (str "Program not found")
   | Some programToUpdate =>
       if negb (bool_decide (wp_userId programToUpdate = Some userId))
       then throwError (str "Unauthorized: Program does not belong to user")
       else
         let* normalizedProgramToUpdate :=
           pure (normalizeWorkoutProgram imp programToUpdate) in
         let weekCount :=
           Z.of_nat (length (w_weeks normalizedProgramToUpdate)) in
         if (weekNumber_ <? 1) || (weekCount <? weekNumber_)
         then throwError (str "Invalid week number: " ++ ofZ weekNumber_
                          ++ str ". Program has " ++ ofZ weekCount
                          ++ str " week(s)")
         else
           let tempProgramData :=
             {| tp_name := w_name normalizedProgramToUpdate;
                tp_description := w_description normalizedProgramToUpdate;
                tp_difficulty := w_difficulty normalizedProgramToUpdate;
                tp_durationWeeks := w_durationWeeks normalizedProgramToUpdate;
                tp_goals :=
                  default (emptyArray imp) (w_goals normalizedProgramToUpdate);
                tp_week := modifiedWeekData;
                tp_status := w_status normalizedProgramToUpdate |} in
           let* normalizedTempProgram :=
             reading (normalizeAgentWorkoutPayload imp tempProgramData
                        (withUpdatedAt normalizedProgramToUpdate now)) in
           match head (w_weeks normalizedTempProgram) with
           | None => throwError (str "Failed to normalize modified week")
           | Some modifiedWeek =>
               let weeks := w_weeks normalizedProgramToUpdate in
               let weekIndex :=
                 findIndex (λ w, bool_decide (weekNumber w = weekNumber_)) weeks in
               if weekIndex <? 0
               then throwError (str "Week " ++ ofZ weekNumber_
                                ++ str " not found in program")
               else
                 let updatedWeeks := <[Z.to_nat weekIndex := modifiedWeek]> weeks in
                 let programWithModifiedWeek :=
                   withWeeks normalizedProgramToUpdate updatedWeeks in
                 let* programWithSyncedWeights :=
                   reading (calculateWeightsInProgram imp userId
                              programWithModifiedWeek) in
                 let* persistenceData :=
                   pure (prepareProgramForPersistence imp programWithSyncedWeights) in
                 let* _ :=
                   transaction
                     (let* _ := createWorkoutProgramVersion createId
                                  (programSnapshot imp programId userId
                                                   programToUpdate) in
                      updateWorkoutProgram programId
                                           (programUpdate imp persistenceData)) in
                 let* reloaded := findWorkoutProgram programId in
                 match reloaded with
                 | None => throwError (str "Failed to load updated program")
                 | Some updatedProgram =>
                     pure (normalizeWorkoutProgram imp updatedProgram)
                 end
           end
   end)%eff.

End Service.

Arguments NutritionPlanRow : clear implicits.
Arguments NutritionPlanVersionRow : clear implicits.
Arguments WorkoutProgramRow : clear implicits.
Arguments WorkoutProgramVersionRow : clear implicits.
Arguments NutritionPlanUpdate : clear implicits.
Arguments WorkoutProgramUpdate : clear implicits.
Arguments Db : clear implicits.
Arguments Imports : clear implicits.
Arguments NutritionPlan : clear implicits.
Arguments NutritionWeek : clear implicits.
Arguments NutritionDay : clear implicits.
Arguments WorkoutProgram : clear implicits.
Arguments WorkoutWeek : clear implicits.
Arguments PlanPersistence : clear implicits.
Arguments ProgramPersistence : clear implicits.
Arguments TempPlanData : clear implicits.
Arguments TempProgramData : clear implicits.
Arguments ModifyNutritionDayParams : clear implicits.
Arguments ModifyWorkoutWeekParams : clear implicits.

End ModificationService.

(* ================================================================== *)
(** * Schema builders ([schema-builders.ts]) *)
(* ================================================================== *)

Module SchemaBuilders.

Section Builders.

(** The schemas callers pass in. *)
Context {Given : Type}.

(** A Zod schema, as the chain of calls that builds it. *)
Inductive ZodSchema : Type :=
| ZNumber
| ZString
| ZInt (inner : ZodSchema)
| ZMin (bound : Z) (inner : ZodSchema)
| ZOptional (inner : ZodSchema)
| ZDescribe (description : jsstring) (inner : ZodSchema)
| ZGiven (schema : Given).

(** A raw shape: the fields of an object schema.  [z.object(shape)]
    is identified with its shape. *)
Local Abbreviation ZodRawShape := (gmap jsstring ZodSchema).

Record TargetSchemaOptions : Type := {
  week : option bool;
  day : option bool;
  itemField : option jsstring;
  subItemField : option jsstring;
  customFields : option ZodRawShape
}.

(** [z.number().int().min(0).optional().describe(description)] *)
Definition indexSchema (description : jsstring) : ZodSchema :=
  ZDescribe description (ZOptional (ZMin 0 (ZInt ZNumber))).

(** [z.string().optional().describe(description)] *)
Definition nameSchema (description : jsstring) : ZodSchema :=
  ZDescribe description (ZOptional ZString).

(** A string in a condition: itself unless absent or empty. *)
Definition whenNonEmpty (s : option jsstring) : option jsstring :=
  match s with
  | Some (c :: r) => Some (c :: r)
  | _ => None
  end.

Definition createTargetSchema (options : TargetSchemaOptions) : ZodRawShape :=
  let shape : ZodRawShape := ∅ in
  let shape :=
    if default false (week options)
    then <[str "weekIndex" := indexSchema (str "Week index (0-based)")]> shape
    else shape in
  let shape :=
    if default false (day options)
    then <[str "dayIndex" := indexSchema (str "Day index (0-based)")]> shape
    else shape in
  let shape :=
    match whenNonEmpty (itemField options) with
    | Some field =>
        <[field ++ str "Name" := nameSchema (field ++ str " name for fuzzy matching")]>
          (<[field ++ str "Index" := indexSchema (field ++ str " index (0-based)")]>
             shape)
    | None => shape
    end in
  let shape :=
    match whenNonEmpty (subItemField options) with
    | Some field =>
        <[field ++ str "Index" := indexSchema (field ++ str " index (0-based)")]>
          shape
    | None => shape
    end in
  (* Object.assign(shape, options.customFields) *)
  match customFields options with
  | Some custom => custom ∪ shape
  | None => shape
  end.

End Builders.

Arguments ZodSchema : clear implicits.
Arguments TargetSchemaOptions : clear implicits.

End SchemaBuilders.

(* ================================================================== *)
(** * Vocabulary of the statements *)
(* ================================================================== *)

(** ** Fuzzy matching *)

(** The string [fuzzyMatch] compares: lower-cased, then trimmed. *)
Definition normalized (toLowerCase : jsstring → jsstring) (s : jsstring)
  : jsstring := trim (toLowerCase s).

Section FuzzyVocabulary.

Import FuzzyMatching.

Context {Number : Type}.

(** The options [{exact: true}] and [{startsWith: true}]. *)
Definition exactOnly : FuzzyMatchOptions Number :=
  {| exact := Some true; startsWith := None; minScore := None |}.

Definition startsWithOnly : FuzzyMatchOptions Number :=
  {| exact := None; startsWith := Some true; minScore := None |}.

(** An item qualifies when its field is a string that matches. *)
Definition qualifies (toLowerCase : jsstring → jsstring)
           (nameField searchTerm : jsstring)
           (options : FuzzyMatchOptions Number) (item : Item Number) : Prop :=
  ∃ s, item !! nameField = Some (VString s)
       ∧ fuzzyMatch toLowerCase s searchTerm options = true.

End FuzzyVocabulary.

(** The two meals of the documentation around an item whose name is a
    number. *)
Definition meals : list (FuzzyMatching.Item Z) :=
  [ {[ str "name" := FuzzyMatching.VString (str "Colazione") ]};
    {[ str "name" := FuzzyMatching.VNumber 3 ]};
    {[ str "name" := FuzzyMatching.VString (str "Pranzo") ]} ].

(** ** The agentic engine *)

Section AgenticVocabulary.

Import AgenticFramework.

Context {Entity World McpContext Payload : Type} `{!ToBoolean Payload}.

Local Abbreviation Config := (AgenticToolConfig Entity World McpContext Payload).
Local Abbreviation Item := (ModificationItem Payload).
Local Abbreviation Machine := (Machine Entity World Payload).
Local Abbreviation LoopState := (LoopState Entity World Payload).
Local Abbreviation Call := (Call Entity Payload).

(** The five shapes of an outcome line for an item naming [action]. *)
Inductive outcomeLine (action : jsstring) : jsstring → Prop :=
| UnknownOutcome : outcomeLine action (unknownActionLine action)
| InvalidTargetOutcome msg : outcomeLine action (invalidTargetLine action msg)
| InvalidChangesOutcome msg : outcomeLine action (invalidChangesLine action msg)
| FailedOutcome error : outcomeLine action (failedLine action error)
| CompletedOutcome : outcomeLine action (completedLine action).

(** The run of the handler of [item] from the state [st], when the
    loop gets as far as invoking it. *)
Definition handlerRun (cfg : Config) (context : McpContext) (st : LoopState)
           (item : Item) : option (HandlerRun Entity World) :=
  match lookupAction (actions cfg) (action item) with
  | Registered handler =>
      match targetSchema handler (target item) with
      | Normal (ParseSuccess targetData) =>
          match parseChanges handler item with
          | Normal (inr changesParsed) =>
              Some (h_execute handler (currentEntity st)
                      {| p_target := targetData;
                         p_changes := changesParsed;
                         p_newData := newData item |}
                      context (world (machine st)))
          | _ => None
          end
      | _ => None
      end
  | _ => None
  end.

(** The item succeeds: its handler is invoked and returns. *)
Definition succeedsb (cfg : Config) (context : McpContext) (st : LoopState)
           (item : Item) : bool :=
  match handlerRun cfg context st item with
  | Some run =>
      match completion run with
      | Normal _ => true
      | Abrupt _ => false
      end
  | None => false
  end.

(** The handler of the item is invoked and throws [error]. *)
Definition handlerThrows (cfg : Config) (context : McpContext) (st : LoopState)
           (item : Item) (error : Thrown) : Prop :=
  ∃ run, handlerRun cfg context st item = Some run
         ∧ completion run = Abrupt error.

(** How many items of a batch succeed when it runs from [st]. *)
Fixpoint successes (cfg : Config) (context : McpContext)
         (modifications : list Item) (st : LoopState) : nat :=
  match modifications with
  | [] => 0
  | item :: rest =>
      (if succeedsb cfg context st item then 1 else 0)
      + successes cfg context rest (processItem cfg context st item)
  end%nat.

(** The state in which the loop starts. *)
Definition loopStart (m : Machine) (entity : Entity) : LoopState :=
  {| machine := m; currentEntity := entity; results := [] |}.

(** From [m], the entity resolves to [entity] and passes validation,
    which leaves the machine [m']. *)
Definition resolvesAndValidates (cfg : Config) (args : ToolArgs Payload)
           (context : McpContext) (m : Machine) (entity : Entity)
           (m' : Machine) : Prop :=
  ∃ w1, resolveEntity cfg (a_entityId args) context (world m)
        = (w1, Normal (Some entity))
        ∧ let m1 := {| world := w1;
                       calls := calls m ++ [CallResolveEntity (a_entityId args)] |} in
          match validateEntity cfg with
          | None => m' = m1
          | Some validate =>
              ∃ w2, validate entity w1 = (w2, Normal (VerdictBoolean true))
                    ∧ m' = {| world := w2;
                              calls := calls m1 ++ [CallValidateEntity entity] |}
          end.

(** Step 5 alone: the [beforeSave] hook, when there is one. *)
Definition runBeforeSave (cfg : Config) (context : McpContext) (entity : Entity)
  : Eff Machine Entity :=
  match beforeSave cfg with
  | Some hook => call (CallBeforeSave entity) (hook entity context)
  | None => ret entity
  end.

(** Step 7 alone: the [afterSave] hook, when there is one. *)
Definition runAfterSave (cfg : Config) (context : McpContext) (entity : Entity)
  : Eff Machine unit :=
  match afterSave cfg with
  | Some hook => call (CallAfterSave entity) (hook entity context)
  | None => ret tt
  end.

(** From [m1], saving [prepared] succeeds and so does the [afterSave]
    hook, which leaves the machine [mf]. *)
Definition persists (cfg : Config) (context : McpContext) (entityId : jsstring)
           (prepared : Entity) (m1 mf : Machine) : Prop :=
  ∃ w2, saveEntity cfg entityId prepared context (world m1) = (w2, Normal tt)
        ∧ runAfterSave cfg context prepared
            {| world := w2;
               calls := calls m1 ++ [CallSaveEntity entityId prepared] |}
          = (mf, Normal tt).

(** The invocations of [saveEntity] among the calls. *)
Definition saveCalls (cs : list Call) : list (jsstring * Entity) :=
  omap (λ c, match c with
             | CallSaveEntity id entity => Some (id, entity)
             | _ => None
             end) cs.

(** The invocations of handlers among the calls. *)
Definition handlerCalls (cs : list Call) : list jsstring :=
  omap (λ c, match c with
             | CallExecute action _ _ => Some action
             | _ => None
             end) cs.

(** A closure that returns whatever the state it is called in. *)
Definition neverThrows {S A} (f : Eff S A) : Prop :=
  ∀ s, ∃ a, (f s).2 = Normal a.

(** The closures [execute] calls outside any [try]. *)
Definition unguardedCallsReturn (cfg : Config) (context : McpContext) : Prop :=
  (∀ id, neverThrows (resolveEntity cfg id context))
  ∧ (∀ validate entity, validateEntity cfg = Some validate →
       neverThrows (validate entity))
  ∧ (∀ hook entity, beforeSave cfg = Some hook →
       neverThrows (hook entity context))
  ∧ (∀ hook entity, afterSave cfg = Some hook →
       neverThrows (hook entity context)).

(** The aggregate result of step 8. *)
Definition aggregate (entityId : jsstring) (lines : list jsstring)
           (succeeded failed : nat) : ModificationResult Summary :=
  successResult (join newline lines)
    (Some {| s_entityId := entityId;
             modificationsApplied := succeeded;
             errors := failed |})
    None.

(** The result of a failed [saveEntity]. *)
Definition saveFailed (error : Thrown) : ModificationResult Summary :=
  errorResult (ErrString (str "Save failed: " ++ messageOf error)).

Definition noModification : ModificationResult Summary :=
  errorResult
    (ErrString (str "No modification specified. Provide action+target or batch array.")).

End AgenticVocabulary.

(** The payloads of the sample tool are numbers: [0] is the one that
    counts as false. *)
#[global] Instance toBoolean_number : AgenticFramework.ToBoolean Z :=
  λ z, negb (z =? 0).

(** ** A sample tool: the weights of the sets of a program *)

Module WeightsTool.

Import AgenticFramework.

(** The entity is the list of weights, the world the log of what was
    saved, a target is a position and a change the new weight. *)
Definition Weights : Type := list Z.
Definition Saved : Type := list (jsstring * Weights).

Definition positionSchema : @ZodSchema Z :=
  λ v, match v with
       | Some i => if 0 <=? i then Normal (ParseSuccess (Some i))
                   else Normal (ParseFailure (str "Too small"))
       | None => Normal (ParseFailure (str "Required"))
       end.

Definition weightSchema : @ZodSchema Z :=
  λ v, Normal (ParseSuccess v).

Definition badWeight : Thrown := ThrownError (str "bad weight").

(** [set_weight] writes the weight in place and returns nothing; a
    negative weight makes it throw. *)
Definition set_weight : AgenticActionHandler Weights Saved unit Z :=
  {| h_description := str "Set the weight of a set";
     targetSchema := positionSchema;
     changesSchema := Some weightSchema;
     newDataSchema := None;
     h_execute := λ entity params _ w,
       match p_target params, p_changes params with
       | Some i, Some x =>
           if x <? 0
           then {| worldAfter := w; entityAfter := entity;
                   completion := Abrupt badWeight |}
           else {| worldAfter := w;
                   entityAfter := <[Z.to_nat i := x]> entity;
                   completion := Normal None |}
       | _, _ =>
           {| worldAfter := w; entityAfter := entity;
              completion := Abrupt (ThrownError (str "nothing to set")) |}
       end |}.

Definition tool (resolve : jsstring → unit → Eff Saved (option Weights))
           (save : jsstring → Weights → unit → Eff Saved unit)
           (before : option (Weights → unit → Eff Saved Weights))
           (after : option (Weights → unit → Eff Saved unit))
  : AgenticToolConfig Weights Saved unit Z :=
  {| name := str "workout_apply_modification";
     domain := str "workout";
     description := str "Applies modifications to workout programs";
     entityIdField := str "programId";
     resolveEntity := resolve;
     saveEntity := save;
     actions := {[ str "set_weight" := set_weight ]};
     batchSupported := None;
     beforeSave := before;
     afterSave := after;
     validateEntity := None |}.

Definition resolveKnown : jsstring → unit → Eff Saved (option Weights) :=
  λ id _, ret (if bool_decide (id = str "p1") then Some [60; 80; 100] else None).

Definition resolveBroken : jsstring → unit → Eff Saved (option Weights) :=
  λ _ _, throw (ThrownError (str "connection lost")).

Definition saveToLog : jsstring → Weights → unit → Eff Saved unit :=
  λ id entity _ w, (w ++ [(id, entity)], Normal tt).

Definition saveBroken : jsstring → Weights → unit → Eff Saved unit :=
  λ _ _ _, throw (ThrownError (str "disk full")).

Definition beforeBroken : Weights → unit → Eff Saved Weights :=
  λ _ _, throw (ThrownError (str "hook failed")).

Definition setWeight (i x : Z) : ModificationItem Z :=
  {| action := str "set_weight"; target := Some i; changes := Some x;
     newData := None |}.

Definition unknown (a : string) : ModificationItem Z :=
  {| action := str a; target := None; changes := None; newData := None |}.

Definition batchOf (items : list (ModificationItem Z)) : ToolArgs Z :=
  {| a_entityId := str "p1"; a_action := None; a_target := None;
     a_changes := None; a_newData := None; a_batch := Some items |}.

Definition afterBroken : Weights → unit → Eff Saved unit :=
  λ _ _, throw (ThrownError (str "notification failed")).

Definition working := tool resolveKnown saveToLog None None.
Definition unreachable := tool resolveBroken saveToLog None None.
Definition readOnly := tool resolveKnown saveBroken None None.
Definition brokenBefore := tool resolveKnown saveToLog (Some beforeBroken) None.
Definition brokenAfter := tool resolveKnown saveToLog None (Some afterBroken).

(** Two good weights around a negative one. *)
Definition threeWeights : ToolArgs Z :=
  batchOf [setWeight 0 65; setWeight 1 (-5); setWeight 2 105].

(** An unknown action and a negative weight: nothing succeeds. *)
Definition twoFailures : ToolArgs Z :=
  batchOf [unknown "explode"; setWeight 0 (-1)].


Definition nothing : ToolArgs Z :=
  {| a_entityId := str "p1"; a_action := None; a_target := None;
     a_changes := None; a_newData := None; a_batch := Some [] |}.

Definition start : Machine Weights Saved Z := {| world := []; calls := [] |}.

Definition afterResolve : Machine Weights Saved Z :=
  {| world := []; calls := [CallResolveEntity (str "p1")] |}.

End WeightsTool.

(** ** A tool whose only action changes the entity in place, then throws *)

Module AppendTool.

Import AgenticFramework WeightsTool.

(** [add_set] puts the new weight in front of the list it was given
    and then throws. *)
Definition add_set : AgenticActionHandler Weights Saved unit Z :=
  {| h_description := str "Add a set in front";
     targetSchema := λ v, Normal (ParseSuccess v);
     changesSchema := None;
     newDataSchema := None;
     h_execute := λ entity params _ w,
       {| worldAfter := w;
          entityAfter := default 0 (p_newData params) :: entity;
          completion := Abrupt (ThrownError (str "too many sets")) |} |}.

Definition tool : AgenticToolConfig Weights Saved unit Z :=
  {| name := name working;
     domain := domain working;
     description := description working;
     entityIdField := entityIdField working;
     resolveEntity := resolveKnown;
     saveEntity := saveToLog;
     actions := {[ str "add_set" := add_set ]};
     batchSupported := None;
     beforeSave := None;
     afterSave := None;
     validateEntity := None |}.


End AppendTool.

(** ** The CRUD tool *)

Section CrudVocabulary.

Import CrudFramework.

Context {World McpContext Value Updated : Type}.

Local Abbreviation Config := (CrudToolConfig World McpContext Value Updated).
Local Abbreviation Item := (BatchOperationItem Value).
Local Abbreviation Machine := (Machine World Value).

(** Every item of [items], run in order from [m], has a handler that
    returns [success = true]: the machine after the last of them, and
    their messages. *)
Fixpoint allSucceed (cfg : Config) (context : McpContext) (items : list Item)
         (m : Machine) : option (Machine * list jsstring) :=
  match items with
  | [] => Some (m, [])
  | item :: rest =>
      match handlers cfg (operation item) with
      | None => None
      | Some handler =>
          match call (operation item) (spread item)
                     (handler (spread item) context) m with
          | (m1, Normal r) =>
              if success r
              then match allSucceed cfg context rest m1 with
                   | Some (m2, messages) => Some (m2, message r :: messages)
                   | None => None
                   end
              else None
          | (_, Abrupt _) => None
          end
      end
  end.

(** The handler invocations a list of items stands for. *)
Definition invocations (items : list Item) : list (CrudOperation * gmap jsstring Value) :=
  map (λ item, (operation item, spread item)) items.

Definition unknownInBatch (item : Item) : ModificationResult (CrudUpdated Updated) :=
  errorResult (ErrString (str "Unknown operation in batch: "
                          ++ operationName (operation item))).

Definition batchFailedAt (item : Item) (r : ModificationResult Updated)
  : ModificationResult (CrudUpdated Updated) :=
  errorResult (ErrString (str "Batch failed at operation "
                          ++ operationName (operation item)
                          ++ str ": " ++ renderError (error r))).

Definition batchCompleted (size : nat) (messages : list jsstring)
  : ModificationResult (CrudUpdated Updated) :=
  successResult (str "Batch completed: " ++ ofNat size ++ str " operations")
                (Some (BatchResults messages)) None.

End CrudVocabulary.

(** ** A sample CRUD tool: notes *)

Module NotesTool.

Import CrudFramework.

(** The world counts the notes; [update] always reports a stale note
    and there is no [delete]. *)
Definition handlersOf (op : CrudOperation) : option (CrudHandler nat unit Z unit) :=
  match op with
  | create => Some (λ _ _ n, (S n, Normal (successResult (str "Created") None None)))
  | read => Some (λ _ _ n, (n, Normal (successResult (str "Read") None None)))
  | update => Some (λ _ _ n, (n, Normal (errorResult (ErrString (str "stale")))))
  | delete => None
  end.

Definition notes : CrudToolConfig nat unit Z unit :=
  {| name := str "notes_crud";
     domain := str "notes";
     description := str "Notes";
     operations := [create; read; update];
     batchSupported := Some true;
     handlers := handlersOf |}.

Definition op (o : CrudOperation) : BatchOperationItem Z :=
  {| operation := o; target := None; data := None |}.

Definition batchOf (items : list (BatchOperationItem Z)) : CrudArgs Z :=
  {| a_operation := read; a_batch := Some items; a_all := ∅ |}.

Definition start : Machine nat Z := {| world := 0%nat; calls := [] |}.

End NotesTool.

(** ** The modification service *)

Section ServiceVocabulary.

Import ModificationService.

Context {Json : Type}.

Local Abbreviation Db := (Db Json).
Local Abbreviation Imports := (Imports Json).

(** The database after the two writes of the transaction of
    [modifyNutritionDay] have taken effect on [db]. *)
Definition planCommit (imp : Imports) (planId userId createId : jsstring)
           (row : NutritionPlanRow Json) (data : NutritionPlanUpdate Json)
           (db : Db) : Db :=
  {| nutrition_plans :=
       <[planId := updatedNutritionPlanRow row data]> (nutrition_plans db);
     nutrition_plan_versions :=
       <[createId := planSnapshot imp planId userId row]>
         (nutrition_plan_versions db);
     workout_programs := workout_programs db;
     workout_program_versions := workout_program_versions db;
     journal := journal db ++ [CreatedPlanVersion createId; UpdatedPlan planId];
     refusals := refusals db |}.

(** [db'] is [db] after one commit of [modifyNutritionDay]: the row
    read from [db] is snapshot under the fresh key [createId] and
    then updated. *)
Definition planCommitted (imp : Imports) (params : ModifyNutritionDayParams Json)
           (createId : jsstring) (db db' : Db) : Prop :=
  ∃ row data,
    nutrition_plans db !! planId params = Some row
    ∧ nutrition_plan_versions db !! createId = None
    ∧ db' = planCommit imp (planId params) (n_userId params) createId row data db.

Definition programCommit (imp : Imports) (programId userId createId : jsstring)
           (row : WorkoutProgramRow Json) (data : WorkoutProgramUpdate Json)
           (db : Db) : Db :=
  {| nutrition_plans := nutrition_plans db;
     nutrition_plan_versions := nutrition_plan_versions db;
     workout_programs :=
       <[programId := updatedWorkoutProgramRow row data]> (workout_programs db);
     workout_program_versions :=
       <[createId := programSnapshot imp programId userId row]>
         (workout_program_versions db);
     journal := journal db
                ++ [CreatedProgramVersion createId; UpdatedProgram programId];
     refusals := refusals db |}.

Definition programCommitted (imp : Imports) (params : ModifyWorkoutWeekParams Json)
           (createId : jsstring) (db db' : Db) : Prop :=
  ∃ row data,
    workout_programs db !! programId params = Some row
    ∧ workout_program_versions db !! createId = None
    ∧ db' = programCommit imp (programId params) (w_userId params) createId
                          row data db.

(** The call returned a value. *)
Definition isNormal {A} (c : Completion A) : Prop := ∃ a, c = Normal a.

End ServiceVocabulary.

(** ** A sample store: one plan, one program *)

Module SampleStore.

Import ModificationService.

(** JSON values are numbers here; a plan has one week of one day and a
    program one week, their bodies kept in the [weeks] column. *)
Definition imports : Imports Z :=
  {| emptyArray := 0;
     toPrismaJsonValue := λ j, j;
     toNullablePrismaJsonValue := λ j, j;
     normalizeNutritionPlan := λ row,
       Normal {| n_name := np_name row;
                 n_description := np_description row;
                 n_goals := np_goals row;
                 n_durationWeeks := np_durationWeeks row;
                 n_targetMacros := np_targetMacros row;
                 n_weeks := [ {| nw_weekNumber := 1;
                                 nw_days := Some [ {| dayNumber := 1;
                                                      dayBody := np_weeks row |} ];
                                 nw_other := 0 |} ];
                 n_restrictions := Some (np_restrictions row);
                 n_preferences := None;
                 n_updatedAt := None;
                 n_other := np_status row |};
     getNutritionPlanTotalDays := λ plan,
       Z.of_nat (length (flat_map (λ w, default [] (nw_days w)) (n_weeks plan)));
     getNutritionPlanDay := λ plan n,
       head (filter (λ d, dayNumber d = n)
                    (flat_map (λ w, default [] (nw_days w)) (n_weeks plan)));
     normalizeAgentPayload := λ temp plan,
       Normal (planWithWeeks plan
                 [ {| nw_weekNumber := t_weekNumber temp;
                      nw_days := Some [ {| dayNumber := 1; dayBody := t_day temp |} ];
                      nw_other := 0 |} ]);
     preparePlanForPersistence := λ plan,
       Normal {| pp_name := n_name plan;
                 pp_description := n_description plan;
                 pp_goals := n_goals plan;
                 pp_durationWeeks := n_durationWeeks plan;
                 pp_targetMacros := n_targetMacros plan;
                 pp_weeks := default 0 (dayBody <$> firstDay plan);
                 pp_restrictions := default 0 (n_restrictions plan);
                 pp_preferences := default 0 (n_preferences plan);
                 pp_status := n_other plan;
                 pp_metadata := 0 |};
     normalizeWorkoutProgram := λ row,
       Normal {| w_name := wp_name row;
                 w_description := wp_description row;
                 w_difficulty := wp_difficulty row;
                 w_durationWeeks := wp_durationWeeks row;
                 w_goals := None;
                 w_weeks := [ {| weekNumber := 1; weekBody := wp_weeks row |} ];
                 w_status := wp_status row;
                 w_updatedAt := None;
                 w_other := 0 |};
     normalizeAgentWorkoutPayload := λ temp program _,
       Normal (withWeeks program [tp_week temp]);
     calculateWeightsInProgram := λ _ program _, Normal program;
     prepareProgramForPersistence := λ program,
       Normal {| wpp_name := w_name program;
                 wpp_description := w_description program;
                 wpp_difficulty := w_difficulty program;
                 wpp_durationWeeks := w_durationWeeks program;
                 wpp_goals := default 0 (w_goals program);
                 wpp_weeks := default 0 (weekBody <$> head (w_weeks program));
                 wpp_status := w_status program;
                 wpp_metadata := 0 |} |}.

Definition plan1 : NutritionPlanRow Z :=
  {| np_userId := Some (str "u1"); np_version := 3; np_name := 10;
     np_description := 11; np_goals := 12; np_durationWeeks := 1;
     np_targetMacros := 13; np_weeks := 100; np_restrictions := 14;
     np_preferences := 15; np_status := 16; np_metadata := 17 |}.

Definition prog1 : WorkoutProgramRow Z :=
  {| wp_userId := Some (str "u1"); wp_version := 7; wp_name := 20;
     wp_description := 21; wp_difficulty := 22; wp_durationWeeks := 1;
     wp_goals := 23; wp_status := 24; wp_weeks := 200; wp_metadata := 25 |}.

Definition store : Db Z :=
  {| nutrition_plans := {[ str "plan1" := plan1 ]};
     nutrition_plan_versions := ∅;
     workout_programs := {[ str "prog1" := prog1 ]};
     workout_program_versions := ∅;
     journal := [];
     refusals := λ _, None |}.

(** The same store behind a server that refuses every update of a
    live row. *)
Definition updatesRefused : Db Z :=
  {| nutrition_plans := nutrition_plans store;
     nutrition_plan_versions := nutrition_plan_versions store;
     workout_programs := workout_programs store;
     workout_program_versions := workout_program_versions store;
     journal := journal store;
     refusals := λ write,
       match write with
       | UpdatedPlan _ | UpdatedProgram _ =>
           Some (ThrownError (str "connection lost"))
       | _ => None
       end |}.

Definition editDay : ModifyNutritionDayParams Z :=
  {| planId := str "plan1"; p_dayNumber := 1; modifiedDayData := 150;
     n_userId := str "u1" |}.

Definition editWeek : ModifyWorkoutWeekParams Z :=
  {| programId := str "prog1"; p_weekNumber := 1;
     modifiedWeekData := {| weekNumber := 1; weekBody := 250 |};
     w_userId := str "u1" |}.

End SampleStore.

(** ** A second CRUD tool: a log whose [delete] handler throws *)

Module LogTool.

Import CrudFramework.

Definition handlersOf (op : CrudOperation) : option (CrudHandler nat unit Z unit) :=
  match op with
  | create => Some (λ _ _ n, (S n, Normal (successResult (str "Created") None None)))
  | read => Some (λ _ _ n, (n, Normal (successResult (str "Read") None None)))
  | update => None
  | delete => Some (λ _ _ n, (n, Abrupt (ThrownError (str "locked"))))
  end.

Definition log (batches : option bool) : CrudToolConfig nat unit Z unit :=
  {| name := str "log_crud";
     domain := str "log";
     description := str "Log";
     operations := [create; read; delete];
     batchSupported := batches;
     handlers := handlersOf |}.

Definition single (o : CrudOperation) : CrudArgs Z :=
  {| a_operation := o; a_batch := None; a_all := {[ str "id" := 7 ]} |}.

Definition op (o : CrudOperation) : BatchOperationItem Z :=
  {| operation := o; target := None; data := None |}.

Definition batchOf (items : list (BatchOperationItem Z)) : CrudArgs Z :=
  {| a_operation := read; a_batch := Some items; a_all := ∅ |}.

Definition start : Machine nat Z := {| world := 0%nat; calls := [] |}.

End LogTool.

(** ** More vocabulary for the agentic engine *)

Section AgenticExtraVocabulary.

Import AgenticFramework.

Context {Entity World McpContext Payload : Type} `{!ToBoolean Payload}.

Local Abbreviation Config := (AgenticToolConfig Entity World McpContext Payload).
Local Abbreviation Handler := (AgenticActionHandler Entity World McpContext Payload).
Local Abbreviation Item := (ModificationItem Payload).
Local Abbreviation LoopState := (LoopState Entity World Payload).

(** The actions of the items whose handler the loop invokes when a
    batch runs from [st], in order. *)
Fixpoint invokedActions (cfg : Config) (context : McpContext)
         (modifications : list Item) (st : LoopState) : list jsstring :=
  match modifications with
  | [] => []
  | item :: rest =>
      match handlerRun cfg context st item with
      | Some _ => [action item]
      | None => []
      end ++ invokedActions cfg context rest (processItem cfg context st item)
  end.

(** The same handler with another [newDataSchema]. *)
Definition withNewDataSchema (f : option (@ZodSchema Payload) → option (@ZodSchema Payload))
           (handler : Handler) : Handler :=
  {| h_description := h_description handler;
     targetSchema := targetSchema handler;
     changesSchema := changesSchema handler;
     newDataSchema := f (newDataSchema handler);
     h_execute := h_execute handler |}.

(** The same tool with the [newDataSchema] of every action changed. *)
Definition withNewDataSchemas (f : option (@ZodSchema Payload) → option (@ZodSchema Payload))
           (cfg : Config) : Config :=
  {| name := name cfg;
     domain := domain cfg;
     description := description cfg;
     entityIdField := entityIdField cfg;
     resolveEntity := resolveEntity cfg;
     saveEntity := saveEntity cfg;
     actions := withNewDataSchema f <$> actions cfg;
     batchSupported := batchSupported cfg;
     beforeSave := beforeSave cfg;
     afterSave := afterSave cfg;
     validateEntity := validateEntity cfg |}.

(** The request for the single action [a] of [args], written as a
    batch of one item. *)
Definition asBatch (args : ToolArgs Payload) (a : jsstring) : ToolArgs Payload :=
  {| a_entityId := a_entityId args;
     a_action := None;
     a_target := None;
     a_changes := None;
     a_newData := None;
     a_batch := Some [ {| action := a;
                          target := a_target args;
                          changes := a_changes args;
                          newData := a_newData args |} ] |}.

End AgenticExtraVocabulary.

(** ** More requests for the weights tool *)

Module WeightsRequests.

Import AgenticFramework WeightsTool.

(** A single [set_weight], and the same with a stray batch beside it. *)
Definition oneWeight : ToolArgs Z :=
  {| a_entityId := str "p1"; a_action := Some (str "set_weight");
     a_target := Some 1; a_changes := Some 85; a_newData := None;
     a_batch := None |}.

Definition strayAction : ToolArgs Z :=
  {| a_entityId := str "p1"; a_action := Some (str "explode");
     a_target := Some 9; a_changes := None; a_newData := None;
     a_batch := Some [setWeight 0 65; setWeight 1 (-5); setWeight 2 105] |}.

Definition missing : ToolArgs Z :=
  {| a_entityId := str "p9"; a_action := Some (str "set_weight");
     a_target := Some 1; a_changes := Some 85; a_newData := None;
     a_batch := None |}.

(** A batch in which only the first and the third item reach their
    handler. *)
Definition mixed : ToolArgs Z :=
  batchOf [setWeight 0 65; unknown "explode"; setWeight 1 (-5);
           {| action := str "set_weight"; target := None; changes := Some 1;
              newData := None |}].

(** The tool with a store that refuses the save and an [afterSave]
    hook. *)
Definition notifying : AgenticToolConfig Weights Saved unit Z :=
  tool resolveKnown saveBroken None (Some afterBroken).

End WeightsRequests.

(** ** The sample tool with a schema that wants a positive weight *)

Module StrictWeights.

Import AgenticFramework WeightsTool.

Definition positiveSchema : @ZodSchema Z :=
  λ v, match v with
       | Some x => if 0 <? x then Normal (ParseSuccess (Some x))
                   else Normal (ParseFailure (str "Too small"))
       | None => Normal (ParseFailure (str "Required"))
       end.

Definition set_weight : AgenticActionHandler Weights Saved unit Z :=
  {| h_description := h_description WeightsTool.set_weight;
     targetSchema := positionSchema;
     changesSchema := Some positiveSchema;
     newDataSchema := None;
     h_execute := h_execute WeightsTool.set_weight |}.

Definition tool : AgenticToolConfig Weights Saved unit Z :=
  {| name := name working;
     domain := domain working;
     description := description working;
     entityIdField := entityIdField working;
     resolveEntity := resolveKnown;
     saveEntity := saveToLog;
     actions := {[ str "set_weight" := set_weight ]};
     batchSupported := None;
     beforeSave := None;
     afterSave := None;
     validateEntity := None |}.

(** A weight of zero, which no condition takes for a value, and a
    negative one. *)
Definition zeroAndNegative : ToolArgs Z :=
  batchOf [setWeight 0 0; setWeight 1 (-5)].

End StrictWeights.

(** ** More vocabulary for the modification service *)

Section ServiceExtraVocabulary.

Import ModificationService.

Context {Json : Type}.

(** [week.days?.length || 0] *)
Definition dayCount (week : NutritionWeek Json) : Z :=
  match nw_days week with
  | Some ds => Z.of_nat (length ds)
  | None => 0
  end.

(** The days of a run of weeks, counted. *)
Definition daysIn (weeks : list (NutritionWeek Json)) : Z :=
  foldr (λ week n, dayCount week + n) 0 weeks.

End ServiceExtraVocabulary.

(** ** More requests on the sample store *)

Module StoreEdits.

Import ModificationService.

Definition timestamp : jsstring := str "2026-01-01T00:00:00.000Z".

(** A plan that is not there, a user who does not own the plan, and a
    day the plan does not have. *)
Definition missingPlan : ModifyNutritionDayParams Z :=
  {| planId := str "plan9"; p_dayNumber := 1; modifiedDayData := 150;
     n_userId := str "u1" |}.

Definition strangerDay : ModifyNutritionDayParams Z :=
  {| planId := str "plan1"; p_dayNumber := 1; modifiedDayData := 150;
     n_userId := str "u2" |}.

Definition dayOutOfRange : ModifyNutritionDayParams Z :=
  {| planId := str "plan1"; p_dayNumber := 2; modifiedDayData := 150;
     n_userId := str "u1" |}.

(** A second edit of the same day. *)
Definition editDayAgain : ModifyNutritionDayParams Z :=
  {| planId := str "plan1"; p_dayNumber := 1; modifiedDayData := 175;
     n_userId := str "u1" |}.

(** The sample store after the first edit. *)
Definition afterFirstEdit : Db Z :=
  (modifyNutritionDay SampleStore.imports SampleStore.editDay (str "v1")
                      timestamp SampleStore.store).1.

Definition afterSecondEdit : Db Z :=
  (modifyNutritionDay SampleStore.imports editDayAgain (str "v2")
                      timestamp afterFirstEdit).1.

(** The sample store with the snapshot key [v1] taken. *)
Definition keyTaken : Db Z :=
  {| nutrition_plans := nutrition_plans SampleStore.store;
     nutrition_plan_versions :=
       {[ str "v1" := planSnapshot SampleStore.imports (str "plan1") (str "u0")
                                   SampleStore.plan1 ]};
     workout_programs := workout_programs SampleStore.store;
     workout_program_versions := workout_program_versions SampleStore.store;
     journal := [];
     refusals := refusals SampleStore.store |}.

(** The collaborators of the sample store, with a normaliser that
    numbers the only week of a program 2. *)
Definition renumbering : Imports Z :=
  {| emptyArray := emptyArray SampleStore.imports;
     toPrismaJsonValue := toPrismaJsonValue SampleStore.imports;
     toNullablePrismaJsonValue := toNullablePrismaJsonValue SampleStore.imports;
     normalizeNutritionPlan := normalizeNutritionPlan SampleStore.imports;
     getNutritionPlanTotalDays := getNutritionPlanTotalDays SampleStore.imports;
     getNutritionPlanDay := getNutritionPlanDay SampleStore.imports;
     normalizeAgentPayload := normalizeAgentPayload SampleStore.imports;
     preparePlanForPersistence := preparePlanForPersistence SampleStore.imports;
     normalizeWorkoutProgram := λ row,
       Normal {| w_name := wp_name row;
                 w_description := wp_description row;
                 w_difficulty := wp_difficulty row;
                 w_durationWeeks := wp_durationWeeks row;
                 w_goals := None;
                 w_weeks := [ {| weekNumber := 2; weekBody := wp_weeks row |} ];
                 w_status := wp_status row;
                 w_updatedAt := None;
                 w_other := 0 |};
     normalizeAgentWorkoutPayload :=
       normalizeAgentWorkoutPayload SampleStore.imports;
     calculateWeightsInProgram := calculateWeightsInProgram SampleStore.imports;
     prepareProgramForPersistence :=
       prepareProgramForPersistence SampleStore.imports |}.

(** Plans of two weeks, the first without days. *)
Definition day (n body : Z) : NutritionDay Z := {| dayNumber := n; dayBody := body |}.

Definition emptyWeek : NutritionWeek Z :=
  {| nw_weekNumber := 1; nw_days := None; nw_other := 0 |}.

Definition fullWeek : NutritionWeek Z :=
  {| nw_weekNumber := 5; nw_days := Some [day 1 10; day 2 20; day 3 30];
     nw_other := 0 |}.

End StoreEdits.

(** ** Vocabulary for the schema builders *)

Section SchemaVocabulary.

Import SchemaBuilders.

Context {Given : Type}.

(** The field names [createTargetSchema] makes up from its options. *)
Definition builtInFields (options : TargetSchemaOptions Given) : list jsstring :=
  (if default false (week options) then [str "weekIndex"] else [])
  ++ (if default false (day options) then [str "dayIndex"] else [])
  ++ match whenNonEmpty (itemField options) with
     | Some field => [field ++ str "Index"; field ++ str "Name"]
     | None => []
     end
  ++ match whenNonEmpty (subItemField options) with
     | Some field => [field ++ str "Index"]
     | None => []
     end.

(** The custom fields, none when the option is absent. *)
Definition customOf (options : TargetSchemaOptions Given) : gmap jsstring (ZodSchema Given) :=
  default ∅ (customFields options).

(** A field that may be left out, with a description. *)
Definition describedOptional (schema : ZodSchema Given) : Prop :=
  ∃ description inner, schema = ZDescribe description (ZOptional inner).

End SchemaVocabulary.

(** A target schema for workouts whose custom [weekIndex] is required. *)
Module WorkoutTarget.

Import SchemaBuilders.

Definition options : TargetSchemaOptions unit :=
  {| week := Some true; day := Some true; itemField := Some (str "exercise");
     subItemField := Some (str "");
     customFields := Some {[ str "weekIndex" := ZInt ZNumber ]} |}.

End WorkoutTarget.

(* ================================================================== *)
(** * Properties of the fuzzy target resolver *)
(* ================================================================== *)

Section StringFacts.

Lemma startsWith_prefix (s p : jsstring) :
  startsWith s p = true ↔ ∃ rest, s = p ++ rest.
Proof.
  revert s. induction p as [|c p IH]; intros s; simpl.
  - split; [intros _; exists s; reflexivity | intros _; destruct s; reflexivity].
  - destruct s as [|d s]; simpl.
    + split; [discriminate | intros [rest H]; discriminate].
    + rewrite andb_true_iff, N.eqb_eq, IH. split.
      * intros [-> [rest ->]]. eauto.
      * intros [rest H]. injection H as -> ->. eauto.
Qed.

Lemma includes_infix (s p : jsstring) :
  includes s p = true ↔ ∃ before after, s = before ++ p ++ after.
Proof.
  induction s as [|d s IH]; cbn [includes].
  - rewrite orb_false_r, startsWith_prefix. split.
    + intros [rest H]. exists [], rest. exact H.
    + intros (before & after & H).
      destruct before; [eauto | discriminate].
  - rewrite orb_true_iff, startsWith_prefix, IH. split.
    + intros [[rest H] | (before & after & ->)].
      * exists [], rest. exact H.
      * exists (d :: before), after. reflexivity.
    + intros (before & after & H). destruct before as [|b before].
      * left. eauto.
      * right. simpl in H. injection H as _ ->. eauto.
Qed.

Lemma strictEquals_eq (s p : jsstring) : strictEquals s p = true ↔ s = p.
Proof. unfold strictEquals. apply bool_decide_eq_true. Qed.

Lemma startsWith_empty (s : jsstring) : startsWith s [] = true.
Proof. destruct s; reflexivity. Qed.

Lemma includes_empty (s : jsstring) : includes s [] = true.
Proof. destruct s; reflexivity. Qed.

End StringFacts.

Ltac basic_latin := repeat (constructor; [reflexivity |]); constructor.

Section FuzzyMatchingFacts.

Import FuzzyMatching.

Context {Number : Type}.
Variable toLowerCase : jsstring → jsstring.

Implicit Types (options : FuzzyMatchOptions Number) (item : Item Number).

Local Abbreviation normalized := (normalized toLowerCase).
Local Abbreviation qualifies := (qualifies (Number := Number) toLowerCase).

Lemma fuzzyMatch_exact target term options :
  default false (exact options) = true →
  fuzzyMatch toLowerCase target term options = true
  ↔ normalized target = normalized term.
Proof.
  intros H. unfold fuzzyMatch. rewrite H. apply strictEquals_eq.
Qed.

Lemma fuzzyMatch_startsWith target term options :
  default false (exact options) = false →
  default false (startsWith options) = true →
  fuzzyMatch toLowerCase target term options = true
  ↔ ∃ rest, normalized target = normalized term ++ rest.
Proof.
  intros H1 H2. unfold fuzzyMatch. rewrite H1, H2. apply startsWith_prefix.
Qed.

Lemma fuzzyMatch_default target term options :
  default false (exact options) = false →
  default false (startsWith options) = false →
  fuzzyMatch toLowerCase target term options = true
  ↔ ∃ before after, normalized target = before ++ normalized term ++ after.
Proof.
  intros H1 H2. unfold fuzzyMatch. rewrite H1, H2. apply includes_infix.
Qed.

Lemma fuzzyMatch_minScore target term e sw (score score' : option Number) :
  fuzzyMatch toLowerCase target term
    {| exact := e; startsWith := sw; minScore := score |}
  = fuzzyMatch toLowerCase target term
      {| exact := e; startsWith := sw; minScore := score' |}.
Proof. reflexivity. Qed.

Lemma fieldMatches_qualifies nameField term options item :
  fieldMatches toLowerCase nameField term options item = true
  ↔ qualifies nameField term options item.
Proof.
  unfold fieldMatches, qualifies, getField. split.
  - destruct (item !! nameField) as [[]|] eqn:E; simpl; try discriminate.
    intros H. eauto.
  - intros (s & -> & H). exact H.
Qed.

Lemma findIndexFrom_spec {A} (p : A → bool) (l : list A) (base : Z) :
  (findIndexFrom p l base = -1 ∧ ∀ x, x ∈ l → p x = false)
  ∨ (∃ (i : nat) x, findIndexFrom p l base = base + Z.of_nat i
       ∧ l !! i = Some x ∧ p x = true
       ∧ ∀ (j : nat) y, (j < i)%nat → l !! j = Some y → p y = false).
Proof.
  revert base. induction l as [|x l IH]; intros base; simpl.
  - left. split; [reflexivity | intros x H; inversion H].
  - destruct (p x) eqn:Hx.
    + right. exists 0%nat, x. repeat split.
      * lia.
      * exact Hx.
      * intros j y Hj. lia.
    + destruct (IH (base + 1)) as [[H1 H2] | (i & y & H1 & H2 & H3 & H4)].
      * left. split; [exact H1 |].
        intros z Hz. apply elem_of_cons in Hz as [-> | Hz]; auto.
      * right. exists (S i), y. repeat split.
        -- rewrite H1. lia.
        -- exact H2.
        -- exact H3.
        -- intros [|j] z Hj Hz; simpl in Hz.
           ++ congruence.
           ++ apply (H4 j); [lia | exact Hz].
Qed.

End FuzzyMatchingFacts.

Section FuzzyMatchingClaims.

Import FuzzyMatching.

Context {Number : Type}.
Variable toLowerCase : jsstring → jsstring.

Local Abbreviation fuzzyMatch := (fuzzyMatch (Number := Number) toLowerCase).
Local Abbreviation fuzzyFindIndex := (fuzzyFindIndex (Number := Number) toLowerCase).
Local Abbreviation fieldMatches := (fieldMatches (Number := Number) toLowerCase).
Local Abbreviation qualifies := (qualifies (Number := Number) toLowerCase).
Local Abbreviation normalized := (normalized toLowerCase).



(** C8. [fuzzyMatch] has three modes on the lower-cased, trimmed
    strings: equality under [exact], prefix under [startsWith],
    containment otherwise; the four sample calls of the specification
    evaluate as stated, and the empty search term matches every target in
    the prefix and containment modes. *)
Theorem fuzzyMatch_three_modes :
  LowerCaseOnLatin toLowerCase →
  (∀ target term (options : FuzzyMatchOptions Number),
      (default false (exact options) = true →
       fuzzyMatch target term options = true
       ↔ normalized target = normalized term)
    ∧ (default false (exact options) = false →
       default false (startsWith options) = true →
       fuzzyMatch target term options = true
       ↔ ∃ rest, normalized target
                 = normalized term ++ rest)
    ∧ (default false (exact options) = false →
       default false (startsWith options) = false →
       fuzzyMatch target term options = true
       ↔ ∃ before after, normalized target
                         = before ++ normalized term ++ after))
  ∧ fuzzyMatch (str "  Colazione ") (str "cola")
      noOptions = true
  ∧ fuzzyMatch (str "Pranzo") (str "cena")
      noOptions = false
  ∧ fuzzyMatch (str "Design") (str "design")
      exactOnly = true
  ∧ fuzzyMatch (str "Designs") (str "design")
      exactOnly = false
  ∧ (∀ target,
       fuzzyMatch target [] noOptions = true
       ∧ fuzzyMatch target [] startsWithOnly = true).
Proof.
  intros Hlow. split; [| repeat split].
  - intros target term options. repeat split.
    + apply fuzzyMatch_exact; assumption.
    + apply fuzzyMatch_exact; assumption.
    + apply fuzzyMatch_startsWith; assumption.
    + apply fuzzyMatch_startsWith; assumption.
    + apply fuzzyMatch_default; assumption.
    + apply fuzzyMatch_default; assumption.
  - unfold fuzzyMatch. rewrite !Hlow by (simpl; basic_latin).
    reflexivity.
  - unfold fuzzyMatch. rewrite !Hlow by (simpl; basic_latin).
    reflexivity.
  - unfold fuzzyMatch. rewrite !Hlow by (simpl; basic_latin).
    reflexivity.
  - unfold fuzzyMatch. rewrite !Hlow by (simpl; basic_latin).
    reflexivity.
  - unfold fuzzyMatch. rewrite (Hlow []) by constructor.
    simpl. apply includes_empty.
  - unfold fuzzyMatch. rewrite (Hlow []) by constructor.
    simpl. apply startsWith_empty.
Qed.

(** C9. [fuzzyFindIndex] returns the position of the first item, in list
    order, whose field is a string accepted by [fuzzyMatch], and [-1]
    when there is none; an item whose field is not a string is passed
    over, and [minScore] has no influence on the answer. *)
Theorem fuzzyFindIndex_first_qualifying
        (items : list (Item Number)) (nameField searchTerm : jsstring)
        (options : FuzzyMatchOptions Number) :
  let found :=
    fuzzyFindIndex items nameField searchTerm options in
  ((found = -1
    ∧ ∀ item, item ∈ items →
              ¬ qualifies nameField searchTerm options item)
   ∨ (∃ (i : nat) item,
        found = Z.of_nat i
        ∧ items !! i = Some item
        ∧ qualifies nameField searchTerm options item
        ∧ ∀ (j : nat) other, (j < i)%nat → items !! j = Some other →
            ¬ qualifies nameField searchTerm options other))
  ∧ (∀ item, (∀ s, getField item nameField ≠ VString s) →
       fieldMatches nameField searchTerm options item
       = false)
  ∧ (∀ score,
       fuzzyFindIndex items nameField searchTerm
         {| exact := exact options;
            startsWith := startsWith options;
            minScore := score |}
       = found).
Proof.
  intros found. split; [| split].
  - subst found. unfold fuzzyFindIndex, findIndex.
    destruct (findIndexFrom_spec
                (FuzzyMatching.fieldMatches toLowerCase nameField searchTerm options)
                items 0)
      as [[H1 H2] | (i & x & H1 & H2 & H3 & H4)].
    + left. split; [exact H1 |].
      intros item Hin Hq. apply fieldMatches_qualifies in Hq.
      rewrite (H2 item Hin) in Hq. discriminate.
    + right. exists i, x. repeat split.
      * rewrite H1. lia.
      * exact H2.
      * apply fieldMatches_qualifies. exact H3.
      * intros j other Hj Hl Hq. apply fieldMatches_qualifies in Hq.
        rewrite (H4 j other Hj Hl) in Hq. discriminate.
  - intros item Hns. unfold fieldMatches.
    destruct (getField item nameField) eqn:E; try reflexivity.
    exfalso. eapply Hns. reflexivity.
  - intros score. reflexivity.
Qed.

End FuzzyMatchingClaims.

Lemma lowerLatin_on_latin : LowerCaseOnLatin lowerLatin.
Proof. intros s _. reflexivity. Qed.

Lemma fuzzyMatch_three_modes_witness :
  LowerCaseOnLatin lowerLatin
  ∧ FuzzyMatching.fuzzyMatch (Number := Z) lowerLatin (str "  Colazione ")
      (str "cola") FuzzyMatching.noOptions = true
  ∧ FuzzyMatching.fuzzyMatch (Number := Z) lowerLatin (str "Designs")
      (str "design") exactOnly = false.
Proof.
  split; [exact lowerLatin_on_latin |].
  pose proof (fuzzyMatch_three_modes (Number := Z) lowerLatin lowerLatin_on_latin)
    as (_ & H1 & _ & _ & H4 & _).
  split; [exact H1 | exact H4].
Defined.

Example fuzzyFindIndex_meals :
  FuzzyMatching.fuzzyFindIndex lowerLatin meals (str "name") (str "pran")
    FuzzyMatching.noOptions = 2
  ∧ FuzzyMatching.fuzzyFindIndex lowerLatin meals (str "name") (str "cena")
      FuzzyMatching.noOptions = -1
  ∧ FuzzyMatching.fuzzyFindIndex lowerLatin meals (str "title") (str "pran")
      FuzzyMatching.noOptions = -1.
Proof. repeat split; vm_compute; reflexivity. Qed.

(* ================================================================== *)
(** * Properties of the agentic engine *)
(* ================================================================== *)

Section AgenticFacts.

Import AgenticFramework.

Context {Entity World McpContext Payload : Type} `{!ToBoolean Payload}.

Local Abbreviation Config := (AgenticToolConfig Entity World McpContext Payload).
Local Abbreviation Item := (ModificationItem Payload).
Local Abbreviation Machine := (Machine Entity World Payload).
Local Abbreviation LoopState := (LoopState Entity World Payload).

Implicit Types (cfg : Config) (context : McpContext) (st : LoopState)
         (item : Item) (m : Machine).

(** *** The two marks tell success from failure *)

Lemma completedLine_marks a :
  startsWith (completedLine a) check_mark = true
  ∧ startsWith (completedLine a) cross_mark = false.
Proof. split; reflexivity. Qed.

Lemma failure_marks (rest : jsstring) :
  startsWith (cross_mark ++ rest) check_mark = false
  ∧ startsWith (cross_mark ++ rest) cross_mark = true.
Proof. split; [reflexivity | destruct rest; reflexivity]. Qed.

Lemma countPrefixed_app mark (l1 l2 : list jsstring) :
  countPrefixed mark (l1 ++ l2)
  = (countPrefixed mark l1 + countPrefixed mark l2)%nat.
Proof. unfold countPrefixed. rewrite filter_app, length_app. reflexivity. Qed.

Lemma countPrefixed_one mark (line : jsstring) :
  countPrefixed mark [line] = if startsWith line mark then 1%nat else 0%nat.
Proof.
  unfold countPrefixed. rewrite filter_cons, filter_nil.
  destruct (decide (startsWith line mark = true)) as [->|H]; [reflexivity |].
  apply not_true_is_false in H. rewrite H. reflexivity.
Qed.

Lemma includes_app_r (pre s p : jsstring) :
  includes s p = true → includes (pre ++ s) p = true.
Proof.
  rewrite !includes_infix. intros (before & after & ->).
  exists (pre ++ before), after. rewrite <- app_assoc. reflexivity.
Qed.

Lemma includes_app_l (s post p : jsstring) :
  includes s p = true → includes (s ++ post) p = true.
Proof.
  rewrite !includes_infix. intros (before & after & ->).
  exists before, (after ++ post). rewrite <- !app_assoc. reflexivity.
Qed.

Lemma failedLine_contains (a : jsstring) (error : Thrown) :
  includes (failedLine a error) (messageOf error) = true.
Proof.
  apply includes_infix.
  exists (cross_mark ++ str " " ++ a ++ str " failed: "), [].
  unfold failedLine. rewrite <- !app_assoc, app_nil_r. reflexivity.
Qed.

(** *** One item *)

(** Whatever happens to an item, the loop goes on with one more line,
    and the mark of that line tells whether the item succeeded. *)
Lemma processItem_one_line cfg context st item :
  ∃ line,
    results (processItem cfg context st item) = results st ++ [line]
    ∧ outcomeLine (action item) line
    ∧ startsWith line check_mark = succeedsb cfg context st item
    ∧ startsWith line cross_mark = negb (succeedsb cfg context st item).
Proof.
  unfold processItem, succeedsb, handlerRun, runHandler.
  destruct (lookupAction (actions cfg) (action item)) as [handler| |].
  - destruct (targetSchema handler (target item)) as [[targetData|msg]|error].
    + destruct (parseChanges handler item) as [[msg|changesParsed]|error].
      * eexists. repeat split. constructor.
      * destruct (completion _) as [result|error]; eexists;
          (repeat split; [constructor]).
      * eexists. repeat split. constructor.
    + eexists. repeat split. constructor.
    + eexists. repeat split. constructor.
  - eexists. repeat split. constructor.
  - eexists. repeat split. constructor.
Qed.

(** An item that does not succeed leaves its mark without a handler
    having replaced the entity. *)
Lemma processItem_not_invoked cfg context st item :
  handlerRun cfg context st item = None →
  machine (processItem cfg context st item) = machine st
  ∧ currentEntity (processItem cfg context st item) = currentEntity st.
Proof.
  unfold processItem, handlerRun.
  destruct (lookupAction (actions cfg) (action item)) as [handler| |];
    [| split; reflexivity | split; reflexivity].
  destruct (targetSchema handler (target item)) as [[targetData|msg]|error];
    [| split; reflexivity | split; reflexivity].
  destruct (parseChanges handler item) as [[msg|changesParsed]|error];
    [split; reflexivity | discriminate | split; reflexivity].
Qed.

Lemma processItem_invoked cfg context st item run :
  handlerRun cfg context st item = Some run →
  ∃ params,
    processItem cfg context st item
    = {| machine :=
           {| world := worldAfter run;
              calls := calls (machine st)
                       ++ [CallExecute (action item) (currentEntity st) params] |};
         currentEntity :=
           match completion run with
           | Normal result => default (entityAfter run) result
           | Abrupt _ => entityAfter run
           end;
         results :=
           results st
           ++ [match completion run with
               | Normal _ => completedLine (action item)
               | Abrupt error => failedLine (action item) error
               end] |}.
Proof.
  unfold processItem, handlerRun, runHandler.
  destruct (lookupAction (actions cfg) (action item)) as [handler| |];
    [| discriminate | discriminate].
  destruct (targetSchema handler (target item)) as [[targetData|msg]|error];
    [| discriminate | discriminate].
  destruct (parseChanges handler item) as [[msg|changesParsed]|error];
    [discriminate | | discriminate].
  intros [= <-]. eexists.
  destruct (completion _); reflexivity.
Qed.

(** *** The loop *)

Lemma applyModifications_cons cfg context item rest st :
  applyModifications cfg context (item :: rest) st
  = applyModifications cfg context rest (processItem cfg context st item).
Proof. reflexivity. Qed.

Lemma applyModifications_app cfg context before after st :
  applyModifications cfg context (before ++ after) st
  = applyModifications cfg context after
      (applyModifications cfg context before st).
Proof. unfold applyModifications. apply fold_left_app. Qed.

Lemma applyModifications_lines cfg context modifications st :
  ∃ lines,
    results (applyModifications cfg context modifications st)
    = results st ++ lines
    ∧ Forall2 (λ item line, outcomeLine (action item) line) modifications lines
    ∧ countPrefixed check_mark lines = successes cfg context modifications st
    ∧ (countPrefixed check_mark lines + countPrefixed cross_mark lines
       = length modifications)%nat.
Proof.
  revert st. induction modifications as [|item rest IH]; intros st.
  - exists []. rewrite app_nil_r. repeat split. constructor.
  - rewrite applyModifications_cons.
    destruct (processItem_one_line cfg context st item)
      as (line & Hres & Hline & Hcheck & Hcross).
    destruct (IH (processItem cfg context st item))
      as (lines & Hres' & Hall & Hsucc & Hsum).
    exists (line :: lines). split; [| split; [| split]].
    + rewrite Hres', Hres, <- app_assoc. reflexivity.
    + constructor; assumption.
    + change (line :: lines) with ([line] ++ lines).
      rewrite countPrefixed_app, countPrefixed_one, Hcheck, Hsucc.
      reflexivity.
    + change (line :: lines) with ([line] ++ lines).
      rewrite !countPrefixed_app, !countPrefixed_one, Hcheck, Hcross.
      simpl length. destruct (succeedsb cfg context st item); simpl; lia.
Qed.

(** *** From [execute] to the loop and on to the save *)

Lemma execute_enters_loop cfg (args : ToolArgs Payload) context m entity m'
      first rest :
  resolvesAndValidates cfg args context m entity m' →
  buildModifications args = first :: rest →
  execute cfg args context m
  = let st := applyModifications cfg context (first :: rest)
                (loopStart m' entity) in
    finish cfg context (a_entityId args) (currentEntity st) (results st)
           (machine st).
Proof.
  intros (w1 & Hres & Hval) Hmods.
  unfold execute, bind, call. simpl. rewrite Hres. simpl.
  destruct (validateEntity cfg) as [validate|].
  - destruct Hval as (w2 & Hv & ->). simpl. rewrite Hv. simpl.
    rewrite Hmods. reflexivity.
  - cbv zeta in Hval. subst m'. simpl. rewrite Hmods. reflexivity.
Qed.

Lemma finish_steps cfg context entityId entity (lines : list jsstring) m :
  finish cfg context entityId entity lines m
  = match runBeforeSave cfg context entity m with
    | (m1, Abrupt t) => (m1, Abrupt t)
    | (m1, Normal prepared) =>
        let m2 := {| world := (saveEntity cfg entityId prepared context (world m1)).1;
                     calls := calls m1 ++ [CallSaveEntity entityId prepared] |} in
        match (saveEntity cfg entityId prepared context (world m1)).2 with
        | Abrupt error => (m2, Normal (saveFailed error))
        | Normal _ =>
            match runAfterSave cfg context prepared m2 with
            | (m3, Abrupt t) => (m3, Abrupt t)
            | (m3, Normal _) =>
                (m3, Normal (aggregate entityId lines
                               (countPrefixed check_mark lines)
                               (countPrefixed cross_mark lines)))
            end
        end
    end.
Proof.
  unfold finish, bind, tryCatch. fold (runBeforeSave cfg context entity).
  destruct (runBeforeSave cfg context entity m) as [m1 [prepared|t]];
    [| reflexivity].
  unfold call at 1.
  destruct (saveEntity cfg entityId prepared context (world m1))
    as [w2 [[]|error]]; simpl; [| reflexivity].
  fold (runAfterSave cfg context prepared).
  destruct (runAfterSave cfg context prepared _) as [m3 [[]|t]]; reflexivity.
Qed.

End AgenticFacts.

Section AgenticCalls.

Import AgenticFramework.

Context {Entity World McpContext Payload : Type} `{!ToBoolean Payload}.

Local Abbreviation Config := (AgenticToolConfig Entity World McpContext Payload).
Local Abbreviation Item := (ModificationItem Payload).
Local Abbreviation Machine := (Machine Entity World Payload).
Local Abbreviation LoopState := (LoopState Entity World Payload).
Local Abbreviation Call := (Call Entity Payload).

Implicit Types (cfg : Config) (context : McpContext) (st : LoopState)
         (item : Item) (m : Machine) (cs : list Call).

Lemma saveCalls_app cs1 cs2 :
  saveCalls (cs1 ++ cs2) = saveCalls cs1 ++ saveCalls cs2.
Proof. apply omap_app. Qed.

Lemma handlerCalls_app cs1 cs2 :
  handlerCalls (cs1 ++ cs2) = handlerCalls cs1 ++ handlerCalls cs2.
Proof. apply omap_app. Qed.

Lemma processItem_saveCalls cfg context st item :
  saveCalls (calls (machine (processItem cfg context st item)))
  = saveCalls (calls (machine st)).
Proof.
  destruct (handlerRun cfg context st item) as [run|] eqn:E.
  - destruct (processItem_invoked cfg context st item run E) as [params ->].
    simpl. rewrite saveCalls_app. simpl. apply app_nil_r.
  - destruct (processItem_not_invoked cfg context st item E) as [-> _].
    reflexivity.
Qed.

Lemma applyModifications_saveCalls cfg context modifications st :
  saveCalls (calls (machine (applyModifications cfg context modifications st)))
  = saveCalls (calls (machine st)).
Proof.
  revert st. induction modifications as [|item rest IH]; intros st;
    [reflexivity |].
  rewrite applyModifications_cons, IH. apply processItem_saveCalls.
Qed.

Lemma runBeforeSave_saveCalls cfg context entity m m1 r :
  runBeforeSave cfg context entity m = (m1, r) →
  saveCalls (calls m1) = saveCalls (calls m).
Proof.
  unfold runBeforeSave, call, ret.
  destruct (beforeSave cfg) as [hook|].
  - destruct (hook entity context (world m)) as [w c]. intros [= <- _].
    simpl. rewrite saveCalls_app. simpl. apply app_nil_r.
  - intros [= <- _]. reflexivity.
Qed.

Lemma runAfterSave_saveCalls cfg context entity m m1 r :
  runAfterSave cfg context entity m = (m1, r) →
  saveCalls (calls m1) = saveCalls (calls m).
Proof.
  unfold runAfterSave, call, ret.
  destruct (afterSave cfg) as [hook|].
  - destruct (hook entity context (world m)) as [w c]. intros [= <- _].
    simpl. rewrite saveCalls_app. simpl. apply app_nil_r.
  - intros [= <- _]. reflexivity.
Qed.

Lemma resolvesAndValidates_calls cfg (args : ToolArgs Payload) context m entity m' :
  resolvesAndValidates cfg args context m entity m' →
  saveCalls (calls m') = saveCalls (calls m)
  ∧ handlerCalls (calls m') = handlerCalls (calls m)
  ∧ (calls m' = calls m ++ [CallResolveEntity (a_entityId args)]
     ∨ calls m' = calls m ++ [CallResolveEntity (a_entityId args);
                              CallValidateEntity entity]).
Proof.
  intros (w1 & _ & Hval). cbv zeta in Hval.
  destruct (validateEntity cfg) as [validate|].
  - destruct Hval as (w2 & _ & ->). simpl.
    rewrite <- !app_assoc, !saveCalls_app, !handlerCalls_app. simpl.
    rewrite !app_nil_r. auto.
  - subst m'. simpl. rewrite saveCalls_app, handlerCalls_app. simpl.
    rewrite !app_nil_r. auto.
Qed.

(** Once the [beforeSave] step has returned, [saveEntity] is invoked,
    once, whatever the lines say. *)
Lemma finish_saves_once cfg context entityId entity (lines : list jsstring)
      m m1 prepared :
  runBeforeSave cfg context entity m = (m1, Normal prepared) →
  saveCalls (calls (finish cfg context entityId entity lines m).1)
  = saveCalls (calls m) ++ [(entityId, prepared)].
Proof.
  intros Hb. rewrite finish_steps, Hb. cbv zeta.
  rewrite <- (runBeforeSave_saveCalls _ _ _ _ _ _ Hb).
  destruct (saveEntity cfg entityId prepared context (world m1)) as [w2 [[]|error]];
    simpl.
  - destruct (runAfterSave cfg context prepared _) as [m3 [[]|t]] eqn:Ha; simpl;
      rewrite (runAfterSave_saveCalls _ _ _ _ _ _ Ha); simpl;
      rewrite saveCalls_app; reflexivity.
  - rewrite saveCalls_app. reflexivity.
Qed.

Lemma finish_persists cfg context entityId entity (lines : list jsstring)
      m m1 prepared mf :
  runBeforeSave cfg context entity m = (m1, Normal prepared) →
  persists cfg context entityId prepared m1 mf →
  finish cfg context entityId entity lines m
  = (mf, Normal (aggregate entityId lines (countPrefixed check_mark lines)
                           (countPrefixed cross_mark lines))).
Proof.
  intros Hb (w2 & Hs & Ha). rewrite finish_steps, Hb. cbv zeta.
  rewrite Hs. simpl. rewrite Ha. reflexivity.
Qed.



End AgenticCalls.

Section AgenticClaims.

Import AgenticFramework.

Context {Entity World McpContext Payload : Type} `{!ToBoolean Payload}.

Local Abbreviation Config := (AgenticToolConfig Entity World McpContext Payload).
Local Abbreviation Item := (ModificationItem Payload).
Local Abbreviation Machine := (Machine Entity World Payload).
Local Abbreviation LoopState := (LoopState Entity World Payload).

Implicit Types (cfg : Config) (context : McpContext) (st : LoopState)
         (item : Item) (m : Machine) (args : ToolArgs Payload).

(** C1. Once the entity has resolved and passed validation, a
    non-empty list of N modifications leaves exactly N outcome lines,
    the i-th line being the outcome of the i-th item: whether the
    action is unknown, the target or the changes are rejected, the
    handler throws or the handler returns, each item appends one line
    and none is dropped. *)
Theorem one_outcome_line_per_item cfg args context m entity m' first rest :
  resolvesAndValidates cfg args context m entity m' →
  buildModifications args = first :: rest →
  let st := applyModifications cfg context (first :: rest)
              (loopStart m' entity) in
  execute cfg args context m
  = finish cfg context (a_entityId args) (currentEntity st) (results st)
           (machine st)
  ∧ length (results st) = length (first :: rest)
  ∧ Forall2 (λ item line, outcomeLine (action item) line)
            (first :: rest) (results st)
  ∧ (∀ st' item, ∃ line,
       results (processItem cfg context st' item) = results st' ++ [line]
       ∧ outcomeLine (action item) line).
Proof.
  intros Hrv Hmods st. split; [| split; [| split]].
  - apply (execute_enters_loop cfg args context m entity m' first rest Hrv Hmods).
  - destruct (applyModifications_lines cfg context (first :: rest)
                (loopStart m' entity)) as (lines & Hres & Hall & _).
    subst st. rewrite Hres. simpl. symmetry. apply (Forall2_length _ _ _ Hall).
  - destruct (applyModifications_lines cfg context (first :: rest)
                (loopStart m' entity)) as (lines & Hres & Hall & _).
    subst st. rewrite Hres. exact Hall.
  - intros st' item.
    destruct (processItem_one_line cfg context st' item) as (line & H1 & H2 & _).
    eauto.
Qed.

(** C2. A failed item never stops the loop: the items after it are
    processed from the state it leaves, a failed item leaves a line
    with the cross mark (the message of the exception when the handler
    threw), [saveEntity] is invoked once the loop is over, and in a
    batch of three where one handler throws "bad weight" and the two
    others return, the result counts 2 successes and 1 failure and its
    message contains "bad weight". *)
Theorem item_failure_does_not_abort cfg context :
  (∀ before item after st,
     applyModifications cfg context (before ++ item :: after) st
     = applyModifications cfg context after
         (processItem cfg context
            (applyModifications cfg context before st) item))
  ∧ (∀ st item,
       succeedsb cfg context st item = false →
       ∃ line,
         results (processItem cfg context st item) = results st ++ [line]
         ∧ startsWith line cross_mark = true
         ∧ (handlerRun cfg context st item = None →
            currentEntity (processItem cfg context st item) = currentEntity st)
         ∧ (∀ error, handlerThrows cfg context st item error →
              line = failedLine (action item) error))
  ∧ (∀ args m entity m' first rest m1 prepared,
       resolvesAndValidates cfg args context m entity m' →
       buildModifications args = first :: rest →
       let st := applyModifications cfg context (first :: rest)
                   (loopStart m' entity) in
       runBeforeSave cfg context (currentEntity st) (machine st)
       = (m1, Normal prepared) →
       saveCalls (calls (execute cfg args context m).1)
       = saveCalls (calls m) ++ [(a_entityId args, prepared)])
  ∧ (∀ args m entity m' a b c error m1 prepared mf,
       resolvesAndValidates cfg args context m entity m' →
       buildModifications args = [a; b; c] →
       let s0 := loopStart m' entity in
       let s1 := processItem cfg context s0 a in
       let s2 := processItem cfg context s1 b in
       let s3 := processItem cfg context s2 c in
       messageOf error = str "bad weight" →
       (handlerThrows cfg context s0 a error
        ∧ succeedsb cfg context s1 b = true
        ∧ succeedsb cfg context s2 c = true)
       ∨ (succeedsb cfg context s0 a = true
          ∧ handlerThrows cfg context s1 b error
          ∧ succeedsb cfg context s2 c = true)
       ∨ (succeedsb cfg context s0 a = true
          ∧ succeedsb cfg context s1 b = true
          ∧ handlerThrows cfg context s2 c error) →
       runBeforeSave cfg context (currentEntity s3) (machine s3)
       = (m1, Normal prepared) →
       persists cfg context (a_entityId args) prepared m1 mf →
       ∃ r, execute cfg args context m = (mf, Normal r)
            ∧ success r = true
            ∧ updated r = Some {| s_entityId := a_entityId args;
                                  modificationsApplied := 2;
                                  errors := 1 |}
            ∧ includes (message r) (str "bad weight") = true
            ∧ saveCalls (calls mf)
              = saveCalls (calls m) ++ [(a_entityId args, prepared)]).
Proof.
  split; [| split; [| split]].
  - intros before item after st.
    rewrite applyModifications_app, applyModifications_cons. reflexivity.
  - intros st item Hfail.
    destruct (processItem_one_line cfg context st item)
      as (line & Hres & _ & _ & Hcross).
    rewrite Hfail in Hcross. exists line. split; [exact Hres |].
    split; [exact Hcross |]. split.
    + intros Hnone. apply (processItem_not_invoked cfg context st item Hnone).
    + intros error (run & Hrun & Hthrow).
      destruct (processItem_invoked cfg context st item run Hrun) as [params Hp].
      rewrite Hp in Hres. simpl in Hres. rewrite Hthrow in Hres.
      apply app_inv_head in Hres. injection Hres as <-. reflexivity.
  - intros args m entity m' first rest m1 prepared Hrv Hmods st Hb.
    rewrite (execute_enters_loop cfg args context m entity m' first rest Hrv Hmods).
    cbv zeta. fold st.
    rewrite (finish_saves_once cfg context _ _ _ _ m1 prepared Hb).
    subst st. rewrite applyModifications_saveCalls. simpl.
    destruct (resolvesAndValidates_calls cfg args context m entity m' Hrv) as [-> _].
    reflexivity.
  - intros args m entity m' a b c error m1 prepared mf Hrv Hmods s0 s1 s2 s3
           Hmsg Hcases Hb Hp.
    rewrite (execute_enters_loop cfg args context m entity m' a [b; c] Hrv Hmods).
    cbv zeta. change (applyModifications cfg context [a; b; c] (loopStart m' entity))
      with s3.
    rewrite (finish_persists cfg context _ _ _ _ m1 prepared mf Hb Hp).
    eexists. split; [reflexivity |]. split; [reflexivity |].
    assert (Hsave : saveCalls (calls mf)
                    = saveCalls (calls m) ++ [(a_entityId args, prepared)]).
    { pose proof (finish_saves_once cfg context (a_entityId args)
                    (currentEntity s3) (results s3) (machine s3) m1 prepared Hb)
        as Hs.
      rewrite (finish_persists cfg context _ _ _ _ m1 prepared mf Hb Hp) in Hs.
      simpl in Hs. rewrite Hs.
      change s3 with (applyModifications cfg context [a; b; c] s0).
      rewrite applyModifications_saveCalls. simpl.
      destruct (resolvesAndValidates_calls cfg args context m entity m' Hrv)
        as [-> _].
      reflexivity. }
    destruct (processItem_one_line cfg context s0 a) as (la & Ha & _ & Hca & Hxa).
    destruct (processItem_one_line cfg context s1 b) as (lb & Hb' & _ & Hcb & Hxb).
    destruct (processItem_one_line cfg context s2 c) as (lc & Hc & _ & Hcc & Hxc).
    assert (Hlines : results s3 = [la; lb; lc]).
    { unfold s3. rewrite Hc. unfold s2. rewrite Hb'. unfold s1. rewrite Ha.
      reflexivity. }
    assert (Hthrown : ∀ st item line,
               results (processItem cfg context st item) = results st ++ [line] →
               handlerThrows cfg context st item error →
               succeedsb cfg context st item = false
               ∧ line = failedLine (action item) error).
    { intros st item line Hres (run & Hrun & Hthrow). split.
      - unfold succeedsb. rewrite Hrun, Hthrow. reflexivity.
      - destruct (processItem_invoked cfg context st item run Hrun) as [params Hq].
        rewrite Hq in Hres. simpl in Hres. rewrite Hthrow in Hres.
        apply app_inv_head in Hres. injection Hres as <-. reflexivity. }
    unfold aggregate, successResult. cbn [updated message]. rewrite Hlines.
    change (join newline [la; lb; lc])
      with (la ++ newline ++ lb ++ newline ++ lc).
    change [la; lb; lc] with ([la] ++ [lb] ++ [lc]).
    rewrite !countPrefixed_app, !countPrefixed_one.
    rewrite Hca, Hcb, Hcc, Hxa, Hxb, Hxc.
    destruct Hcases as [(Ht & Hs1 & Hs2) | [(Hs0 & Ht & Hs2) | (Hs0 & Hs1 & Ht)]].
    + destruct (Hthrown s0 a la Ha Ht) as [Hf ->].
      rewrite Hf, Hs1, Hs2. split; [reflexivity |]. split; [| exact Hsave].
      rewrite <- Hmsg. apply includes_app_l, failedLine_contains.
    + destruct (Hthrown s1 b lb Hb' Ht) as [Hf ->].
      rewrite Hf, Hs0, Hs2. split; [reflexivity |]. split; [| exact Hsave].
      rewrite <- Hmsg. do 2 apply includes_app_r.
      apply includes_app_l, failedLine_contains.
    + destruct (Hthrown s2 c lc Hc Ht) as [Hf ->].
      rewrite Hf, Hs0, Hs1. split; [reflexivity |]. split; [| exact Hsave].
      rewrite <- Hmsg. do 4 apply includes_app_r.
      apply failedLine_contains.
Qed.

(** The lines of a run, counted by their marks. *)
Lemma loop_counts cfg context (batch : list Item) m' entity :
  let st := applyModifications cfg context batch (loopStart m' entity) in
  countPrefixed check_mark (results st)
  = successes cfg context batch (loopStart m' entity)
  ∧ countPrefixed cross_mark (results st)
    = (length batch - successes cfg context batch (loopStart m' entity))%nat.
Proof.
  intros st.
  destruct (applyModifications_lines cfg context batch (loopStart m' entity))
    as (lines & Hres & _ & Hsucc & Hsum).
  subst st. rewrite Hres. simpl. split; [exact Hsucc | lia].
Qed.

(** A result with [success = true] only comes out of a run that
    resolved and validated the entity and had something to apply. *)
Lemma success_only_after_loop cfg args context m mf r :
  execute cfg args context m = (mf, Normal r) →
  success r = true →
  ∃ entity m' first rest,
    resolvesAndValidates cfg args context m entity m'
    ∧ buildModifications args = first :: rest.
Proof.
  intros Hrun Hok. unfold execute, bind, call in Hrun. simpl in Hrun.
  destruct (resolveEntity cfg (a_entityId args) context (world m))
    as [w1 [[entity|]|t]] eqn:Hr; simpl in Hrun;
    [| injection Hrun as _ <-; discriminate | discriminate].
  destruct (validateEntity cfg) as [validate|] eqn:Ev; simpl in Hrun.
  - destruct (validate entity w1) as [w2 [verdict|t]] eqn:Hv; simpl in Hrun;
      [| discriminate].
    destruct verdict as [[|]|reason];
      [| injection Hrun as _ <-; discriminate
       | injection Hrun as _ <-; discriminate].
    destruct (buildModifications args) as [|first rest] eqn:Hm;
      [injection Hrun as _ <-; discriminate |].
    exists entity,
           {| world := w2;
              calls := (calls m ++ [CallResolveEntity (a_entityId args)])
                       ++ [CallValidateEntity entity] |},
           first, rest.
    split; [| reflexivity].
    exists w1. split; [exact Hr |]. cbv zeta. rewrite Ev.
    exists w2. split; [exact Hv | reflexivity].
  - destruct (buildModifications args) as [|first rest] eqn:Hm;
      [injection Hrun as _ <-; discriminate |].
    exists entity,
           {| world := w1;
              calls := calls m ++ [CallResolveEntity (a_entityId args)] |},
           first, rest.
    split; [| reflexivity].
    exists w1. split; [exact Hr |]. cbv zeta. rewrite Ev. reflexivity.
Qed.

(** C4. Of the result a run returns: [success = true] only comes out
    of a run that reached the loop, and there, exactly when
    [saveEntity] returned; a throwing [saveEntity] gives the error
    result that carries the save error and none of the lines; a
    returning one gives the joined lines with the numbers of succeeded
    and of failed items, however many items failed. *)
Theorem success_exactly_when_saved cfg args context m mf r :
  execute cfg args context m = (mf, Normal r) →
  (success r = true →
   ∃ entity m' first rest,
     resolvesAndValidates cfg args context m entity m'
     ∧ buildModifications args = first :: rest)
  ∧ (∀ entity m' first rest,
       resolvesAndValidates cfg args context m entity m' →
       buildModifications args = first :: rest →
       let batch := first :: rest in
       let st := applyModifications cfg context batch (loopStart m' entity) in
       let succeeded := successes cfg context batch (loopStart m' entity) in
       ∃ m1 prepared,
         runBeforeSave cfg context (currentEntity st) (machine st)
         = (m1, Normal prepared)
         ∧ let saved :=
             (saveEntity cfg (a_entityId args) prepared context (world m1)).2 in
           (success r = true ↔ ∃ u, saved = Normal u)
           ∧ (∀ thrown, saved = Abrupt thrown →
                r = saveFailed thrown
                ∧ success r = false
                ∧ error r = Some (str "Save failed: " ++ messageOf thrown)
                ∧ updated r = None)
           ∧ ((∃ u, saved = Normal u) →
                r = aggregate (a_entityId args) (results st) succeeded
                              (length batch - succeeded)
                ∧ success r = true
                ∧ message r = join newline (results st))).
Proof.
  intros Hrun. split.
  { apply (success_only_after_loop cfg args context m mf r Hrun). }
  intros entity m' first rest Hrv Hmods batch st succeeded.
  rewrite (execute_enters_loop cfg args context m entity m' first rest Hrv Hmods)
    in Hrun.
  cbv zeta in Hrun. fold batch in Hrun. fold st in Hrun.
  rewrite finish_steps in Hrun.
  destruct (runBeforeSave cfg context (currentEntity st) (machine st))
    as [m1 [prepared|t]]; [| discriminate].
  exists m1, prepared. split; [reflexivity |]. cbv zeta in Hrun |- *.
  destruct (loop_counts cfg context batch m' entity) as [Hc Hx].
  fold st in Hc, Hx. fold succeeded in Hc, Hx.
  destruct (saveEntity cfg (a_entityId args) prepared context (world m1))
    as [w2 [[]|thrown]]; simpl in Hrun |- *.
  - destruct (runAfterSave cfg context prepared _) as [m3 [[]|t]];
      [| discriminate].
    injection Hrun as _ <-. rewrite Hc, Hx. split; [| split].
    + split; [eauto | reflexivity].
    + intros thrown [=].
    + intros _. repeat split.
  - injection Hrun as _ <-. split; [| split].
    + split; [discriminate | intros [u [=]]].
    + intros thrown' [= <-]. repeat split.
    + intros [u [=]].
Qed.

(** C5, as the code has it. When the closures called outside any [try]
    ([resolveEntity], [validateEntity], [beforeSave], [afterSave])
    return, [execute] returns a result for every input; a missing
    entity, a rejected entity, an empty request and a failed save are
    each an error result; what handlers, schemas and [saveEntity]
    throw never leaves [execute]. *)
Theorem execute_returns_when_unguarded_calls_return cfg args context m :
  unguardedCallsReturn cfg context →
  returned (execute cfg args context m)
  ∧ (∀ w1,
       resolveEntity cfg (a_entityId args) context (world m) = (w1, Normal None) →
       (execute cfg args context m).2
       = Normal (errorResult
                   (ErrString (domain cfg ++ str " entity with ID "
                               ++ a_entityId args ++ str " not found"))))
  ∧ (∀ w1 entity validate w2 verdict,
       resolveEntity cfg (a_entityId args) context (world m)
       = (w1, Normal (Some entity)) →
       validateEntity cfg = Some validate →
       validate entity w1 = (w2, Normal verdict) →
       verdict ≠ VerdictBoolean true →
       (execute cfg args context m).2
       = Normal (errorResult
                   (ErrString match verdict with
                              | VerdictString reason => reason
                              | VerdictBoolean _ => str "Entity validation failed"
                              end)))
  ∧ (∀ entity m',
       resolvesAndValidates cfg args context m entity m' →
       buildModifications args = [] →
       execute cfg args context m = (m', Normal noModification))
  ∧ (∀ entity m' first rest m1 prepared error,
       resolvesAndValidates cfg args context m entity m' →
       buildModifications args = first :: rest →
       let st := applyModifications cfg context (first :: rest)
                   (loopStart m' entity) in
       runBeforeSave cfg context (currentEntity st) (machine st)
       = (m1, Normal prepared) →
       (saveEntity cfg (a_entityId args) prepared context (world m1)).2
       = Abrupt error →
       (execute cfg args context m).2 = Normal (saveFailed error)).
Proof.
  intros (Hresolve & Hvalidate & Hbefore & Hafter).
  split; [| split; [| split; [| split]]].
  - assert (Hfinish : ∀ entityId entity lines m0,
               returned (finish cfg context entityId entity lines m0)).
    { intros entityId entity lines m0. rewrite finish_steps.
      assert (Hb : ∃ m1 prepared,
                 runBeforeSave cfg context entity m0 = (m1, Normal prepared)).
      { unfold runBeforeSave, call, ret.
        destruct (beforeSave cfg) as [hook|] eqn:Eb; [| eauto].
        destruct (Hbefore hook entity eq_refl (world m0)) as [prepared Hp].
        destruct (hook entity context (world m0)) as [w1 c1]. simpl in Hp.
        subst c1. eauto. }
      assert (Ha : ∀ prepared m2, ∃ m3,
                 runAfterSave cfg context prepared m2 = (m3, Normal tt)).
      { intros prepared m2. unfold runAfterSave, call, ret.
        destruct (afterSave cfg) as [hook|] eqn:Ea; [| eauto].
        destruct (Hafter hook prepared eq_refl (world m2)) as [[] Hq].
        destruct (hook prepared context (world m2)) as [w3 c3]. simpl in Hq.
        subst c3. eauto. }
      destruct Hb as (m1 & prepared & ->). cbv zeta.
      destruct ((saveEntity cfg entityId prepared context (world m1)).2)
        as [[]|e]; [| eexists; reflexivity].
      destruct (Ha prepared
                  {| world := (saveEntity cfg entityId prepared context (world m1)).1;
                     calls := calls m1 ++ [CallSaveEntity entityId prepared] |})
        as [m3 ->].
      eexists; reflexivity. }
    unfold execute, bind, call. simpl.
    destruct (Hresolve (a_entityId args) (world m)) as [resolved Hr].
    destruct (resolveEntity cfg (a_entityId args) context (world m)) as [w1 c1].
    simpl in Hr. subst c1. simpl.
    destruct resolved as [entity|]; [| eexists; reflexivity].
    destruct (validateEntity cfg) as [validate|] eqn:Ev.
    + destruct (Hvalidate validate entity eq_refl w1) as [verdict Hv].
      simpl.
      destruct (validate entity w1) as [w2 c2]. simpl in Hv. subst c2. simpl.
      destruct verdict as [[|]|reason]; try (eexists; reflexivity).
      destruct (buildModifications args); [eexists; reflexivity | apply Hfinish].
    + simpl.
      destruct (buildModifications args); [eexists; reflexivity | apply Hfinish].
  - intros w1 Hr. unfold execute, bind, call. simpl. rewrite Hr. reflexivity.
  - intros w1 entity validate w2 verdict Hr Ev Hv Hne.
    unfold execute, bind, call. simpl. rewrite Hr. simpl. rewrite Ev. simpl.
    rewrite Hv. simpl. destruct verdict as [[|]|reason]; [congruence | |];
      reflexivity.
  - intros entity m' (w1 & Hr & Hval) Hmods. cbv zeta in Hval.
    unfold execute, bind, call. simpl. rewrite Hr. simpl.
    destruct (validateEntity cfg) as [validate|].
    + destruct Hval as (w2 & Hv & ->). simpl. rewrite Hv. simpl.
      rewrite Hmods. reflexivity.
    + subst m'. simpl. rewrite Hmods. reflexivity.
  - intros entity m' first rest m1 prepared error Hrv Hmods st Hb Hs.
    rewrite (execute_enters_loop cfg args context m entity m' first rest Hrv Hmods).
    cbv zeta. fold st. rewrite finish_steps, Hb. cbv zeta. rewrite Hs.
    reflexivity.
Qed.

(** C6. With neither a non-empty batch nor an action, once the entity
    has resolved and passed validation, [execute] returns the
    no-modification error at once: no handler has been invoked,
    [saveEntity] has not been called, and the machine is the one the
    validation left. *)
Theorem empty_request_fails_before_any_change cfg args context m entity m' :
  resolvesAndValidates cfg args context m entity m' →
  a_batch args = None ∨ a_batch args = Some [] →
  a_action args = None →
  execute cfg args context m = (m', Normal noModification)
  ∧ success (noModification : ModificationResult Summary) = false
  ∧ is_Some (error (noModification : ModificationResult Summary))
  ∧ handlerCalls (calls m') = handlerCalls (calls m)
  ∧ saveCalls (calls m') = saveCalls (calls m)
  ∧ (calls m' = calls m ++ [CallResolveEntity (a_entityId args)]
     ∨ calls m' = calls m ++ [CallResolveEntity (a_entityId args);
                              CallValidateEntity entity]).
Proof.
  intros Hrv Hbatch Haction.
  assert (Hmods : buildModifications args = []).
  { unfold buildModifications. rewrite Haction.
    destruct Hbatch as [-> | ->]; reflexivity. }
  destruct (resolvesAndValidates_calls cfg args context m entity m' Hrv)
    as (Hs & Hh & Hc).
  split; [| split; [| split; [| split; [| split]]]];
    [| reflexivity | eexists; reflexivity | exact Hh | exact Hs | exact Hc].
  destruct Hrv as (w1 & Hr & Hval). cbv zeta in Hval.
  unfold execute, bind, call. simpl. rewrite Hr. simpl.
  destruct (validateEntity cfg) as [validate|].
  - destruct Hval as (w2 & Hv & ->). simpl. rewrite Hv. simpl.
    rewrite Hmods. reflexivity.
  - subst m'. simpl. rewrite Hmods. reflexivity.
Qed.


End AgenticClaims.

(** *** The engine on the sample tool *)

Ltac resolves_known := exists []; split; reflexivity.

Lemma one_outcome_line_per_item_witness :
  resolvesAndValidates WeightsTool.working WeightsTool.threeWeights tt
    WeightsTool.start [60; 80; 100] WeightsTool.afterResolve
  ∧ AgenticFramework.buildModifications WeightsTool.threeWeights
    = [WeightsTool.setWeight 0 65; WeightsTool.setWeight 1 (-5);
       WeightsTool.setWeight 2 105]
  ∧ length (AgenticFramework.results
              (AgenticFramework.applyModifications WeightsTool.working tt
                 [WeightsTool.setWeight 0 65; WeightsTool.setWeight 1 (-5);
                  WeightsTool.setWeight 2 105]
                 (loopStart WeightsTool.afterResolve [60; 80; 100])))
    = 3%nat.
Proof.
  assert (H1 : resolvesAndValidates WeightsTool.working WeightsTool.threeWeights tt
                 WeightsTool.start [60; 80; 100] WeightsTool.afterResolve)
    by resolves_known.
  assert (H2 : AgenticFramework.buildModifications WeightsTool.threeWeights
               = [WeightsTool.setWeight 0 65; WeightsTool.setWeight 1 (-5);
                  WeightsTool.setWeight 2 105])
    by reflexivity.
  split; [exact H1 | split; [exact H2 |]].
  exact (proj1 (proj2 (one_outcome_line_per_item WeightsTool.working
                         WeightsTool.threeWeights tt WeightsTool.start
                         [60; 80; 100] WeightsTool.afterResolve _ _ H1 H2))).
Defined.

Lemma item_failure_does_not_abort_witness :
  ∃ r,
    AgenticFramework.execute WeightsTool.working WeightsTool.threeWeights tt
      WeightsTool.start
    = ({| AgenticFramework.world := [(str "p1", [65; 80; 105])];
          AgenticFramework.calls :=
            AgenticFramework.calls
              (AgenticFramework.execute WeightsTool.working
                 WeightsTool.threeWeights tt WeightsTool.start).1 |},
       Normal r)
    ∧ success r = true
    ∧ updated r = Some {| AgenticFramework.s_entityId := str "p1";
                          AgenticFramework.modificationsApplied := 2;
                          AgenticFramework.errors := 1 |}
    ∧ includes (message r) (str "bad weight") = true
    ∧ saveCalls
        (AgenticFramework.calls
           (AgenticFramework.execute WeightsTool.working
              WeightsTool.threeWeights tt WeightsTool.start).1)
      = [(str "p1", [65; 80; 105])].
Proof.
  pose (s0 := loopStart WeightsTool.afterResolve [60; 80; 100]).
  pose (s1 := AgenticFramework.processItem WeightsTool.working tt s0
                (WeightsTool.setWeight 0 65)).
  pose (s2 := AgenticFramework.processItem WeightsTool.working tt s1
                (WeightsTool.setWeight 1 (-5))).
  pose (s3 := AgenticFramework.processItem WeightsTool.working tt s2
                (WeightsTool.setWeight 2 105)).
  destruct (proj2 (proj2 (proj2
              (item_failure_does_not_abort WeightsTool.working tt)))
              WeightsTool.threeWeights WeightsTool.start [60; 80; 100]
              WeightsTool.afterResolve
              (WeightsTool.setWeight 0 65) (WeightsTool.setWeight 1 (-5))
              (WeightsTool.setWeight 2 105)
              WeightsTool.badWeight
              (AgenticFramework.machine s3) (AgenticFramework.currentEntity s3)
              {| AgenticFramework.world := [(str "p1", [65; 80; 105])];
                 AgenticFramework.calls :=
                   AgenticFramework.calls
                     (AgenticFramework.execute WeightsTool.working
                        WeightsTool.threeWeights tt WeightsTool.start).1 |})
    as (r & Hrun & Hok & Hup & Hmsg & Hsave).
  - resolves_known.
  - reflexivity.
  - reflexivity.
  - right. left. split; [vm_compute; reflexivity |]. split.
    + eexists. split; vm_compute; reflexivity.
    + vm_compute; reflexivity.
  - reflexivity.
  - exists [(str "p1", [65; 80; 105])]. split; vm_compute; reflexivity.
  - exists r. split; [exact Hrun |]. split; [exact Hok |].
    split; [exact Hup |]. split; [exact Hmsg |].
    etransitivity; [| exact Hsave]. reflexivity.
Defined.

Lemma success_exactly_when_saved_witness :
  ∃ mf r,
    resolvesAndValidates WeightsTool.working WeightsTool.twoFailures tt
      WeightsTool.start [60; 80; 100] WeightsTool.afterResolve
    ∧ AgenticFramework.execute WeightsTool.working WeightsTool.twoFailures tt
        WeightsTool.start = (mf, Normal r)
    ∧ success r = true
    ∧ updated r = Some {| AgenticFramework.s_entityId := str "p1";
                          AgenticFramework.modificationsApplied := 0;
                          AgenticFramework.errors := 2 |}.
Proof.
  assert (H1 : resolvesAndValidates WeightsTool.working WeightsTool.twoFailures tt
                 WeightsTool.start [60; 80; 100] WeightsTool.afterResolve)
    by resolves_known.
  destruct (AgenticFramework.execute WeightsTool.working WeightsTool.twoFailures tt
              WeightsTool.start) as [mf [r|t]] eqn:Hrun;
    [| vm_compute in Hrun; discriminate].
  exists mf, r. split; [exact H1 |]. split; [reflexivity |].
  destruct (proj2 (success_exactly_when_saved WeightsTool.working
                     WeightsTool.twoFailures tt WeightsTool.start mf r Hrun)
              [60; 80; 100] WeightsTool.afterResolve _ _ H1 eq_refl)
    as (m1 & prepared & Hb & Hsucc & _ & Hagg).
  injection Hb as <- <-.
  destruct Hagg as (-> & _ & _); [eexists; vm_compute; reflexivity |].
  split; reflexivity.
Defined.

(** C5 as it is stated does not hold: what [resolveEntity], [beforeSave]
    or [afterSave] throws leaves [execute]; in the last case the entity
    has been saved by then. *)
Lemma execute_lets_unguarded_exceptions_escape :
  (AgenticFramework.execute WeightsTool.unreachable WeightsTool.threeWeights tt
     WeightsTool.start).2
  = Abrupt (ThrownError (str "connection lost"))
  ∧ (AgenticFramework.execute WeightsTool.brokenBefore WeightsTool.threeWeights tt
       WeightsTool.start).2
    = Abrupt (ThrownError (str "hook failed"))
  ∧ (AgenticFramework.execute WeightsTool.brokenAfter WeightsTool.threeWeights tt
       WeightsTool.start).2
    = Abrupt (ThrownError (str "notification failed"))
  ∧ AgenticFramework.world
      (AgenticFramework.execute WeightsTool.brokenAfter WeightsTool.threeWeights tt
         WeightsTool.start).1
    = [(str "p1", [65; 80; 105])]
  ∧ ¬ (∀ (cfg : AgenticFramework.AgenticToolConfig WeightsTool.Weights
                  WeightsTool.Saved unit Z) args context m,
         returned (AgenticFramework.execute cfg args context m)).
Proof.
  split; [vm_compute; reflexivity |].
  split; [vm_compute; reflexivity |].
  split; [vm_compute; reflexivity |].
  split; [vm_compute; reflexivity |].
  intros H.
  destruct (H WeightsTool.unreachable WeightsTool.threeWeights tt WeightsTool.start)
    as [r Hr].
  vm_compute in Hr. discriminate.
Qed.

Lemma execute_returns_when_unguarded_calls_return_witness :
  unguardedCallsReturn WeightsTool.readOnly tt
  ∧ returned (AgenticFramework.execute WeightsTool.readOnly
                WeightsTool.threeWeights tt WeightsTool.start)
  ∧ (AgenticFramework.execute WeightsTool.readOnly WeightsTool.threeWeights tt
       WeightsTool.start).2
    = Normal (saveFailed (ThrownError (str "disk full"))).
Proof.
  assert (H : unguardedCallsReturn WeightsTool.readOnly tt).
  { split; [| split; [| split]].
    - intros id s. eexists. reflexivity.
    - intros validate entity [=].
    - intros hook entity [=].
    - intros hook entity [=]. }
  split; [exact H |].
  destruct (execute_returns_when_unguarded_calls_return WeightsTool.readOnly
              WeightsTool.threeWeights tt WeightsTool.start H)
    as (Hret & _ & _ & _ & Hsave).
  split; [exact Hret |].
  apply (Hsave [60; 80; 100] WeightsTool.afterResolve
               (WeightsTool.setWeight 0 65)
               [WeightsTool.setWeight 1 (-5); WeightsTool.setWeight 2 105]
               (AgenticFramework.machine
                  (AgenticFramework.applyModifications WeightsTool.readOnly tt
                     (AgenticFramework.buildModifications WeightsTool.threeWeights)
                     (loopStart WeightsTool.afterResolve [60; 80; 100])))
               (AgenticFramework.currentEntity
                  (AgenticFramework.applyModifications WeightsTool.readOnly tt
                     (AgenticFramework.buildModifications WeightsTool.threeWeights)
                     (loopStart WeightsTool.afterResolve [60; 80; 100])))).
  - resolves_known.
  - reflexivity.
  - reflexivity.
  - reflexivity.
Defined.

Lemma empty_request_fails_before_any_change_witness :
  resolvesAndValidates WeightsTool.working WeightsTool.nothing tt
    WeightsTool.start [60; 80; 100] WeightsTool.afterResolve
  ∧ AgenticFramework.a_batch WeightsTool.nothing = Some []
  ∧ AgenticFramework.a_action WeightsTool.nothing = None
  ∧ AgenticFramework.execute WeightsTool.working WeightsTool.nothing tt
      WeightsTool.start
    = (WeightsTool.afterResolve, Normal noModification).
Proof.
  assert (H1 : resolvesAndValidates WeightsTool.working WeightsTool.nothing tt
                 WeightsTool.start [60; 80; 100] WeightsTool.afterResolve)
    by resolves_known.
  split; [exact H1 |]. split; [reflexivity |]. split; [reflexivity |].
  exact (proj1 (empty_request_fails_before_any_change WeightsTool.working
                  WeightsTool.nothing tt WeightsTool.start [60; 80; 100]
                  WeightsTool.afterResolve H1 (or_intror eq_refl) eq_refl)).
Defined.




(* ================================================================== *)
(** * Properties of the CRUD tool *)
(* ================================================================== *)

Section CrudFacts.

Import CrudFramework.

Context {World McpContext Value Updated : Type}.

Local Abbreviation Config := (CrudToolConfig World McpContext Value Updated).
Local Abbreviation Item := (BatchOperationItem Value).
Local Abbreviation Machine := (Machine World Value).

Implicit Types (cfg : Config) (context : McpContext) (m : Machine)
         (item : Item) (items : list Item).

(** A prefix of successes only moves the loop forward. *)
Lemma batchLoop_after_successes cfg context size before after
      (results : list jsstring) m m1 messages :
  allSucceed cfg context before m = Some (m1, messages) →
  batchLoop cfg context size (before ++ after) results m
  = batchLoop cfg context size after (results ++ messages) m1.
Proof.
  revert results m messages.
  induction before as [|item rest IH]; intros results m messages; simpl.
  - intros [= <- <-]. rewrite app_nil_r. reflexivity.
  - destruct (handlers cfg (operation item)) as [handler|]; [| discriminate].
    unfold bind at 1.
    destruct (call (operation item) (spread item) (handler (spread item) context) m)
      as [m0 [r|t]]; [| discriminate].
    destruct (success r); [| discriminate]. simpl.
    destruct (allSucceed cfg context rest m0) as [[m2 messages']|] eqn:E;
      [| discriminate].
    intros [= <- <-]. rewrite (IH _ _ _ E), <- app_assoc. reflexivity.
Qed.

Lemma allSucceed_calls cfg context items m m1 messages :
  allSucceed cfg context items m = Some (m1, messages) →
  calls m1 = calls m ++ invocations items
  ∧ length messages = length items.
Proof.
  revert m messages. induction items as [|item rest IH]; intros m messages; simpl.
  - intros [= <- <-]. rewrite app_nil_r. split; reflexivity.
  - destruct (handlers cfg (operation item)) as [handler|]; [| discriminate].
    unfold call at 1.
    destruct (handler (spread item) context (world m)) as [w [r|t]];
      [| discriminate].
    destruct (success r); [| discriminate].
    destruct (allSucceed cfg context rest _) as [[m2 messages']|] eqn:E;
      [| discriminate].
    intros [= <- <-]. destruct (IH _ _ E) as [-> Hlen]. simpl.
    rewrite <- app_assoc, Hlen. split; reflexivity.
Qed.

(** A success result comes out of the loop only when every item
    succeeded. *)
Lemma batchLoop_success cfg context size items (results : list jsstring) m mf r :
  batchLoop cfg context size items results m = (mf, Normal r) →
  success r = true →
  ∃ messages,
    allSucceed cfg context items m = Some (mf, messages)
    ∧ r = batchCompleted size (results ++ messages).
Proof.
  revert results m. induction items as [|item rest IH]; intros results m; simpl.
  - unfold ret. intros [= <- <-] _. exists []. rewrite app_nil_r.
    split; reflexivity.
  - destruct (handlers cfg (operation item)) as [handler|].
    + unfold bind at 1.
      destruct (call (operation item) (spread item)
                     (handler (spread item) context) m) as [m0 [r0|t]];
        [| discriminate].
      destruct (success r0); simpl.
      * intros Hrun Hok. destruct (IH _ _ Hrun Hok) as (messages & -> & ->).
        exists (message r0 :: messages). rewrite <- app_assoc.
        split; reflexivity.
      * unfold ret. intros [= <- <-]. discriminate.
    + unfold ret. intros [= <- <-]. discriminate.
Qed.

(** C7. With batches enabled, a batch stops at its first item that is
    unknown or whose handler reports failure: the error result names
    that operation, and the handlers invoked are those of the items
    before it (and its own, when it has one); a batch in which every
    item succeeds yields the success result that reports its length,
    and no other batch yields a success result. *)
Theorem crud_batch_fails_fast cfg (args : CrudArgs Value) context m
        before m1 messages :
  batchSupported cfg = Some true →
  allSucceed cfg context before m = Some (m1, messages) →
  calls m1 = calls m ++ invocations before
  ∧ (∀ item after,
       a_batch args = Some (before ++ item :: after) →
       handlers cfg (operation item) = None →
       execute cfg args context m = (m1, Normal (unknownInBatch item)))
  ∧ (∀ item after handler w r,
       a_batch args = Some (before ++ item :: after) →
       handlers cfg (operation item) = Some handler →
       handler (spread item) context (world m1) = (w, Normal r) →
       success r = false →
       execute cfg args context m
       = ({| world := w;
             calls := calls m ++ invocations (before ++ [item]) |},
          Normal (batchFailedAt item r)))
  ∧ (before ≠ [] →
     a_batch args = Some before →
     execute cfg args context m
     = (m1, Normal (batchCompleted (length before) messages)))
  ∧ (∀ first others mf r,
       a_batch args = Some (first :: others) →
       execute cfg args context m = (mf, Normal r) →
       success r = true →
       ∃ all, allSucceed cfg context (first :: others) m = Some (mf, all)
              ∧ r = batchCompleted (length (first :: others)) all).
Proof.
  intros Hsupported Hbefore.
  destruct (allSucceed_calls cfg context before m m1 messages Hbefore)
    as [Hcalls _].
  assert (Hexec : ∀ first others,
             a_batch args = Some (first :: others) →
             execute cfg args context m
             = batchLoop cfg context (length (first :: others))
                         (first :: others) [] m).
  { intros first others Hb. unfold execute. rewrite Hb, Hsupported.
    reflexivity. }
  split; [exact Hcalls |]. split; [| split; [| split]].
  - intros item after Hb Hnone.
    destruct (before ++ item :: after) as [|first others] eqn:E;
      [destruct before; discriminate |].
    rewrite (Hexec first others Hb), <- E.
    rewrite (batchLoop_after_successes cfg context _ before _ [] m m1 messages
                                       Hbefore).
    simpl. rewrite Hnone. reflexivity.
  - intros item after handler w r Hb Hsome Hrun Hfail.
    destruct (before ++ item :: after) as [|first others] eqn:E;
      [destruct before; discriminate |].
    rewrite (Hexec first others Hb), <- E.
    rewrite (batchLoop_after_successes cfg context _ before _ [] m m1 messages
                                       Hbefore).
    simpl. rewrite Hsome. unfold bind, call. rewrite Hrun, Hfail. simpl.
    unfold ret, invocations. rewrite Hcalls, map_app, app_assoc. reflexivity.
  - intros Hne Hb. destruct before as [|first others]; [congruence |].
    rewrite (Hexec first others Hb).
    rewrite <- (app_nil_r (first :: others)) at 2.
    rewrite (batchLoop_after_successes cfg context _ (first :: others) [] [] m m1
                                       messages Hbefore).
    reflexivity.
  - intros first others mf r Hb Hrun Hok.
    rewrite (Hexec first others Hb) in Hrun.
    destruct (batchLoop_success cfg context _ _ _ _ _ _ Hrun Hok)
      as (all & Hall & ->).
    exists all. split; [exact Hall | reflexivity].
Qed.

End CrudFacts.

Lemma crud_batch_fails_fast_witness :
  CrudFramework.batchSupported NotesTool.notes = Some true
  ∧ allSucceed NotesTool.notes tt
      [NotesTool.op CrudFramework.create; NotesTool.op CrudFramework.read]
      NotesTool.start
    = Some ({| CrudFramework.world := 1%nat;
               CrudFramework.calls :=
                 [(CrudFramework.create, ∅); (CrudFramework.read, ∅)] |},
            [str "Created"; str "Read"])
  ∧ CrudFramework.execute NotesTool.notes
      (NotesTool.batchOf
         [NotesTool.op CrudFramework.create; NotesTool.op CrudFramework.read;
          NotesTool.op CrudFramework.update; NotesTool.op CrudFramework.create])
      tt NotesTool.start
    = ({| CrudFramework.world := 1%nat;
          CrudFramework.calls :=
            [(CrudFramework.create, ∅); (CrudFramework.read, ∅);
             (CrudFramework.update, ∅)] |},
       Normal (batchFailedAt (NotesTool.op CrudFramework.update)
                 (errorResult (ErrString (str "stale"))))).
Proof.
  assert (H1 : CrudFramework.batchSupported NotesTool.notes = Some true)
    by reflexivity.
  assert (H2 : allSucceed NotesTool.notes tt
                 [NotesTool.op CrudFramework.create; NotesTool.op CrudFramework.read]
                 NotesTool.start
               = Some ({| CrudFramework.world := 1%nat;
                          CrudFramework.calls :=
                            [(CrudFramework.create, ∅); (CrudFramework.read, ∅)] |},
                       [str "Created"; str "Read"]))
    by (vm_compute; reflexivity).
  split; [exact H1 |]. split; [exact H2 |].
  destruct (crud_batch_fails_fast NotesTool.notes
              (NotesTool.batchOf
                 [NotesTool.op CrudFramework.create; NotesTool.op CrudFramework.read;
                  NotesTool.op CrudFramework.update;
                  NotesTool.op CrudFramework.create])
              tt NotesTool.start _ _ _ H1 H2) as (_ & _ & Hfail & _).
  rewrite (Hfail (NotesTool.op CrudFramework.update)
             [NotesTool.op CrudFramework.create] _ 1%nat
             (errorResult (ErrString (str "stale"))) eq_refl eq_refl eq_refl eq_refl).
  vm_compute. reflexivity.
Defined.

(* ================================================================== *)
(** * Properties of the modification service *)
(* ================================================================== *)

Section ServiceFacts.

Import ModificationService.

Context {Json : Type}.

Local Abbreviation Db := (Db Json).
Local Abbreviation Imports := (Imports Json).

Implicit Types (imp : Imports) (db : Db).

(** The transaction of [modifyNutritionDay] on a database that holds
    the plan: it commits both writes, or none: when the server refuses
    the snapshot, when the key of the snapshot is taken, and when the
    server refuses the update after the snapshot has been written. *)
Lemma plan_transaction imp planId userId createId row data db :
  nutrition_plans db !! planId = Some row →
  transaction
    (bind (createNutritionPlanVersion createId
             (planSnapshot imp planId userId row))
          (λ _, updateNutritionPlan planId data)) db
  = match refusals db (CreatedPlanVersion createId) with
    | Some refusal => (db, Abrupt refusal)
    | None =>
        match nutrition_plan_versions db !! createId with
        | Some _ =>
            (db, Abrupt (ThrownError
                           (str "Unique constraint failed on the fields: (`id`)")))
        | None =>
            match refusals db (UpdatedPlan planId) with
            | Some refusal => (db, Abrupt refusal)
            | None =>
                (planCommit imp planId userId createId row data db, Normal tt)
            end
        end
    end.
Proof.
  intros Hrow.
  unfold transaction, bind, createNutritionPlanVersion, updateNutritionPlan.
  destruct (refusals db (CreatedPlanVersion createId)); [reflexivity |].
  destruct (nutrition_plan_versions db !! createId); [reflexivity |].
  simpl. destruct (refusals db (UpdatedPlan planId)); [reflexivity |].
  simpl. rewrite Hrow. unfold planCommit. rewrite <- app_assoc. reflexivity.
Qed.

Lemma program_transaction imp programId userId createId row data db :
  workout_programs db !! programId = Some row →
  transaction
    (bind (createWorkoutProgramVersion createId
             (programSnapshot imp programId userId row))
          (λ _, updateWorkoutProgram programId data)) db
  = match refusals db (CreatedProgramVersion createId) with
    | Some refusal => (db, Abrupt refusal)
    | None =>
        match workout_program_versions db !! createId with
        | Some _ =>
            (db, Abrupt (ThrownError
                           (str "Unique constraint failed on the fields: (`id`)")))
        | None =>
            match refusals db (UpdatedProgram programId) with
            | Some refusal => (db, Abrupt refusal)
            | None =>
                (programCommit imp programId userId createId row data db,
                 Normal tt)
            end
        end
    end.
Proof.
  intros Hrow.
  unfold transaction, bind, createWorkoutProgramVersion, updateWorkoutProgram.
  destruct (refusals db (CreatedProgramVersion createId)); [reflexivity |].
  destruct (workout_program_versions db !! createId); [reflexivity |].
  simpl. destruct (refusals db (UpdatedProgram programId)); [reflexivity |].
  simpl. rewrite Hrow. unfold programCommit. rewrite <- app_assoc. reflexivity.
Qed.

End ServiceFacts.

Section ServiceClaims.

Import ModificationService.

Context {Json : Type}.

Local Abbreviation Db := (Db Json).
Local Abbreviation Imports := (Imports Json).

Implicit Types (imp : Imports) (db : Db).

Lemma bind_run {S A B} (m : Eff S A) (k : A → Eff S B) s :
  bind m k s = match m s with
               | (s', Normal a) => k a s'
               | (s', Abrupt t) => (s', Abrupt t)
               end.
Proof. reflexivity. Qed.

Ltac unchanged H :=
  unfold throwError, throw, pure, reading in H; injection H as <- <-; left;
  split; [reflexivity | eexists; reflexivity].

(** A call of [modifyNutritionDay] throws and leaves the database as
    it was, or commits; it commits only when the server carries out
    both writes. *)
Lemma modifyNutritionDay_run imp params createId now db db' r :
  modifyNutritionDay imp params createId now db = (db', r) →
  (db' = db ∧ ∃ t, r = Abrupt t)
  ∨ (planCommitted imp params createId db db'
     ∧ refusals db (CreatedPlanVersion createId) = None
     ∧ refusals db (UpdatedPlan (planId params)) = None).
Proof.
  intros H. unfold modifyNutritionDay in H. cbv zeta in H.
  rewrite bind_run in H. unfold findNutritionPlan at 1 in H.
  destruct (nutrition_plans db !! planId params) as [row|] eqn:Hrow;
    [| unchanged H].
  destruct (negb _); [unchanged H |].
  rewrite bind_run in H. unfold pure at 1 in H.
  destruct (normalizeNutritionPlan imp row) as [normalized|t]; [| unchanged H].
  destruct (_ || _); [unchanged H |].
  destruct (getNutritionPlanDay imp normalized _); [| unchanged H].
  rewrite bind_run in H. unfold pure at 1 in H.
  destruct (normalizeAgentPayload imp _ _) as [temp|t]; [| unchanged H].
  destruct (firstDay temp) as [modifiedDay|]; [| unchanged H].
  rewrite bind_run in H. unfold pure at 1 in H.
  destruct (preparePlanForPersistence imp _) as [persistenceData|t];
    [| unchanged H].
  rewrite bind_run in H.
  rewrite (plan_transaction imp _ _ _ row _ db Hrow) in H.
  destruct (refusals db (CreatedPlanVersion createId)) eqn:Hcreate;
    [unchanged H |].
  destruct (nutrition_plan_versions db !! createId) eqn:Hfresh; [unchanged H |].
  destruct (refusals db (UpdatedPlan (planId params))) eqn:Hupdate;
    [unchanged H |].
  rewrite bind_run in H. unfold findNutritionPlan in H.
  right. split; [| split; reflexivity].
  exists row, (planUpdate imp persistenceData).
  split; [exact Hrow |]. split; [exact Hfresh |].
  destruct (nutrition_plans (planCommit _ _ _ _ _ _ _) !! _);
    unfold throwError, throw, pure in H; injection H as <- _; reflexivity.
Qed.

Lemma modifyNutritionDay_outcome imp params createId now db db' r :
  modifyNutritionDay imp params createId now db = (db', r) →
  (db' = db ∧ ∃ t, r = Abrupt t) ∨ planCommitted imp params createId db db'.
Proof.
  intros H.
  destruct (modifyNutritionDay_run imp params createId now db db' r H)
    as [Hsame | [Hc _]]; [left; exact Hsame | right; exact Hc].
Qed.

Lemma modifyWorkoutWeek_run imp params createId now db db' r :
  modifyWorkoutWeek imp params createId now db = (db', r) →
  (db' = db ∧ ∃ t, r = Abrupt t)
  ∨ (programCommitted imp params createId db db'
     ∧ refusals db (CreatedProgramVersion createId) = None
     ∧ refusals db (UpdatedProgram (programId params)) = None).
Proof.
  intros H. unfold modifyWorkoutWeek in H. cbv zeta in H.
  rewrite bind_run in H. unfold findWorkoutProgram at 1 in H.
  destruct (workout_programs db !! programId params) as [row|] eqn:Hrow;
    [| unchanged H].
  destruct (negb _); [unchanged H |].
  rewrite bind_run in H. unfold pure at 1 in H.
  destruct (normalizeWorkoutProgram imp row) as [normalized|t]; [| unchanged H].
  destruct (_ || _); [unchanged H |].
  rewrite bind_run in H. unfold reading at 1 in H.
  destruct (normalizeAgentWorkoutPayload imp _ _ _) as [temp|t]; [| unchanged H].
  destruct (head (w_weeks temp)) as [modifiedWeek|]; [| unchanged H].
  destruct (_ <? 0)%Z; [unchanged H |].
  rewrite bind_run in H. unfold reading at 1 in H.
  destruct (calculateWeightsInProgram imp _ _ _) as [synced|t]; [| unchanged H].
  rewrite bind_run in H. unfold pure at 1 in H.
  destruct (prepareProgramForPersistence imp _) as [persistenceData|t];
    [| unchanged H].
  rewrite bind_run in H.
  rewrite (program_transaction imp _ _ _ row _ db Hrow) in H.
  destruct (refusals db (CreatedProgramVersion createId)) eqn:Hcreate;
    [unchanged H |].
  destruct (workout_program_versions db !! createId) eqn:Hfresh; [unchanged H |].
  destruct (refusals db (UpdatedProgram (programId params))) eqn:Hupdate;
    [unchanged H |].
  rewrite bind_run in H. unfold findWorkoutProgram in H.
  right. split; [| split; reflexivity].
  exists row, (programUpdate imp persistenceData).
  split; [exact Hrow |]. split; [exact Hfresh |].
  destruct (workout_programs (programCommit _ _ _ _ _ _ _) !! _);
    unfold throwError, throw, pure in H; injection H as <- _; reflexivity.
Qed.

Lemma modifyWorkoutWeek_outcome imp params createId now db db' r :
  modifyWorkoutWeek imp params createId now db = (db', r) →
  (db' = db ∧ ∃ t, r = Abrupt t) ∨ programCommitted imp params createId db db'.
Proof.
  intros H.
  destruct (modifyWorkoutWeek_run imp params createId now db db' r H)
    as [Hsame | [Hc _]]; [left; exact Hsame | right; exact Hc].
Qed.

(** C3. A call of [modifyNutritionDay] (of [modifyWorkoutWeek]) either
    throws with the database untouched or commits, and a call that
    returns has committed. A commit adds exactly one version row: it
    holds the columns of the live row as it was read, under that row's
    version number; it is written before the live row is updated; the
    version of the live row goes up by exactly 1; and the two writes
    take effect together: when the server refuses one of them the
    call throws with the database untouched, and when it refuses the
    update the snapshot the transaction had already written is
    gone. *)
Theorem commit_snapshots_then_increments imp :
  (∀ params createId now db db' r,
     modifyNutritionDay imp params createId now db = (db', r) →
     ((db' = db ∧ ¬ isNormal r) ∨ planCommitted imp params createId db db')
     ∧ (isNormal r → planCommitted imp params createId db db'))
  ∧ (∀ params createId db db',
       planCommitted imp params createId db db' →
       ∃ row snapshot row',
         nutrition_plans db !! planId params = Some row
         ∧ nutrition_plan_versions db !! createId = None
         ∧ nutrition_plan_versions db'
           = <[createId := snapshot]> (nutrition_plan_versions db)
         ∧ size (nutrition_plan_versions db')
           = S (size (nutrition_plan_versions db))
         ∧ npv_planId snapshot = planId params
         ∧ npv_version snapshot = np_version row
         ∧ npv_name snapshot = np_name row
         ∧ npv_description snapshot = np_description row
         ∧ npv_goals snapshot = np_goals row
         ∧ npv_durationWeeks snapshot = np_durationWeeks row
         ∧ npv_targetMacros snapshot = toPrismaJsonValue imp (np_targetMacros row)
         ∧ npv_weeks snapshot = toPrismaJsonValue imp (np_weeks row)
         ∧ npv_restrictions snapshot = np_restrictions row
         ∧ npv_preferences snapshot = np_preferences row
         ∧ npv_status snapshot = np_status row
         ∧ npv_metadata snapshot = toNullablePrismaJsonValue imp (np_metadata row)
         ∧ npv_createdBy snapshot = n_userId params
         ∧ nutrition_plans db' !! planId params = Some row'
         ∧ np_version row' = np_version row + 1
         ∧ (∀ other, other ≠ planId params →
              nutrition_plans db' !! other = nutrition_plans db !! other)
         ∧ journal db'
           = journal db ++ [CreatedPlanVersion createId;
                            UpdatedPlan (planId params)])
  ∧ (∀ params createId now db db' r,
       modifyWorkoutWeek imp params createId now db = (db', r) →
       ((db' = db ∧ ¬ isNormal r) ∨ programCommitted imp params createId db db')
       ∧ (isNormal r → programCommitted imp params createId db db'))
  ∧ (∀ params createId db db',
       programCommitted imp params createId db db' →
       ∃ row snapshot row',
         workout_programs db !! programId params = Some row
         ∧ workout_program_versions db !! createId = None
         ∧ workout_program_versions db'
           = <[createId := snapshot]> (workout_program_versions db)
         ∧ size (workout_program_versions db')
           = S (size (workout_program_versions db))
         ∧ wpv_programId snapshot = programId params
         ∧ wpv_version snapshot = wp_version row
         ∧ wpv_name snapshot = wp_name row
         ∧ wpv_description snapshot = wp_description row
         ∧ wpv_difficulty snapshot = wp_difficulty row
         ∧ wpv_durationWeeks snapshot = wp_durationWeeks row
         ∧ wpv_goals snapshot = wp_goals row
         ∧ wpv_status snapshot = wp_status row
         ∧ wpv_weeks snapshot = toPrismaJsonValue imp (wp_weeks row)
         ∧ wpv_metadata snapshot = toNullablePrismaJsonValue imp (wp_metadata row)
         ∧ wpv_createdBy snapshot = w_userId params
         ∧ workout_programs db' !! programId params = Some row'
         ∧ wp_version row' = wp_version row + 1
         ∧ (∀ other, other ≠ programId params →
              workout_programs db' !! other = workout_programs db !! other)
         ∧ journal db'
           = journal db ++ [CreatedProgramVersion createId;
                            UpdatedProgram (programId params)])
  ∧ (∀ params createId now db db' r refusal,
       refusals db (CreatedPlanVersion createId) = Some refusal
       ∨ refusals db (UpdatedPlan (planId params)) = Some refusal →
       modifyNutritionDay imp params createId now db = (db', r) →
       db' = db ∧ ¬ isNormal r)
  ∧ (∀ params createId now db db' r refusal,
       refusals db (CreatedProgramVersion createId) = Some refusal
       ∨ refusals db (UpdatedProgram (programId params)) = Some refusal →
       modifyWorkoutWeek imp params createId now db = (db', r) →
       db' = db ∧ ¬ isNormal r)
  ∧ (∀ planId userId createId row data db refusal,
       nutrition_plans db !! planId = Some row →
       refusals db (CreatedPlanVersion createId) = None →
       nutrition_plan_versions db !! createId = None →
       refusals db (UpdatedPlan planId) = Some refusal →
       ∃ db1,
         createNutritionPlanVersion createId
           (planSnapshot imp planId userId row) db = (db1, Normal tt)
         ∧ nutrition_plan_versions db1 !! createId
           = Some (planSnapshot imp planId userId row)
         ∧ updateNutritionPlan planId data db1 = (db1, Abrupt refusal)
         ∧ transaction
             (bind (createNutritionPlanVersion createId
                      (planSnapshot imp planId userId row))
                   (λ _, updateNutritionPlan planId data)) db
           = (db, Abrupt refusal))
  ∧ (∀ programId userId createId row data db refusal,
       workout_programs db !! programId = Some row →
       refusals db (CreatedProgramVersion createId) = None →
       workout_program_versions db !! createId = None →
       refusals db (UpdatedProgram programId) = Some refusal →
       ∃ db1,
         createWorkoutProgramVersion createId
           (programSnapshot imp programId userId row) db = (db1, Normal tt)
         ∧ workout_program_versions db1 !! createId
           = Some (programSnapshot imp programId userId row)
         ∧ updateWorkoutProgram programId data db1 = (db1, Abrupt refusal)
         ∧ transaction
             (bind (createWorkoutProgramVersion createId
                      (programSnapshot imp programId userId row))
                   (λ _, updateWorkoutProgram programId data)) db
           = (db, Abrupt refusal)).
Proof.
  split; [| split; [| split; [| split; [| split; [| split; [| split]]]]]].
  - intros params createId now db db' r H.
    destruct (modifyNutritionDay_outcome imp params createId now db db' r H)
      as [[-> [t ->]] | Hc].
    + split; [left; split; [reflexivity | intros [a [=]]] | intros [a [=]]].
    + split; [right; exact Hc | intros _; exact Hc].
  - intros params createId db db' (row & data & Hrow & Hfresh & ->).
    exists row, (planSnapshot imp (planId params) (n_userId params) row),
           (updatedNutritionPlanRow row data).
    unfold planCommit. simpl.
    repeat (split; [first [ reflexivity | assumption
                          | apply map_size_insert_None; assumption
                          | apply lookup_insert_eq ] |]).
    split; [| reflexivity].
    intros other Hother. apply lookup_insert_ne. congruence.
  - intros params createId now db db' r H.
    destruct (modifyWorkoutWeek_outcome imp params createId now db db' r H)
      as [[-> [t ->]] | Hc].
    + split; [left; split; [reflexivity | intros [a [=]]] | intros [a [=]]].
    + split; [right; exact Hc | intros _; exact Hc].
  - intros params createId db db' (row & data & Hrow & Hfresh & ->).
    exists row, (programSnapshot imp (programId params) (w_userId params) row),
           (updatedWorkoutProgramRow row data).
    unfold programCommit. simpl.
    repeat (split; [first [ reflexivity | assumption
                          | apply map_size_insert_None; assumption
                          | apply lookup_insert_eq ] |]).
    split; [| reflexivity].
    intros other Hother. apply lookup_insert_ne. congruence.
  - intros params createId now db db' r refusal Hrefused H.
    destruct (modifyNutritionDay_run imp params createId now db db' r H)
      as [[-> [t ->]] | (_ & Hcreate & Hupdate)].
    + split; [reflexivity | intros [a [=]]].
    + destruct Hrefused; congruence.
  - intros params createId now db db' r refusal Hrefused H.
    destruct (modifyWorkoutWeek_run imp params createId now db db' r H)
      as [[-> [t ->]] | (_ & Hcreate & Hupdate)].
    + split; [reflexivity | intros [a [=]]].
    + destruct Hrefused; congruence.
  - intros planId userId createId row data db refusal Hrow Hcreate Hfresh Hupdate.
    eexists. split; [| split; [| split]].
    + unfold createNutritionPlanVersion. rewrite Hcreate, Hfresh. reflexivity.
    + apply lookup_insert_eq.
    + unfold updateNutritionPlan. simpl. rewrite Hupdate. reflexivity.
    + rewrite (plan_transaction imp planId userId createId row data db Hrow),
        Hcreate, Hfresh, Hupdate.
      reflexivity.
  - intros programId userId createId row data db refusal Hrow Hcreate Hfresh
           Hupdate.
    eexists. split; [| split; [| split]].
    + unfold createWorkoutProgramVersion. rewrite Hcreate, Hfresh. reflexivity.
    + apply lookup_insert_eq.
    + unfold updateWorkoutProgram. simpl. rewrite Hupdate. reflexivity.
    + rewrite (program_transaction imp programId userId createId row data db
                 Hrow), Hcreate, Hfresh, Hupdate.
      reflexivity.
Qed.

End ServiceClaims.

Lemma commit_snapshots_then_increments_witness :
  (∃ db' plan snapshot row',
     ModificationService.modifyNutritionDay SampleStore.imports SampleStore.editDay
       (str "v1") (str "2026-01-01T00:00:00.000Z") SampleStore.store
     = (db', Normal plan)
     ∧ ModificationService.nutrition_plan_versions db' = {[ str "v1" := snapshot ]}
     ∧ ModificationService.npv_version snapshot = 3
     ∧ ModificationService.npv_weeks snapshot = 100
     ∧ ModificationService.nutrition_plans db' !! str "plan1" = Some row'
     ∧ ModificationService.np_version row' = 4
     ∧ ModificationService.journal db'
       = [ModificationService.CreatedPlanVersion (str "v1");
          ModificationService.UpdatedPlan (str "plan1")])
  ∧ (ModificationService.modifyNutritionDay SampleStore.imports SampleStore.editDay
       (str "v1") (str "2026-01-01T00:00:00.000Z") SampleStore.updatesRefused).1
    = SampleStore.updatesRefused
  ∧ ¬ isNormal
        (ModificationService.modifyNutritionDay SampleStore.imports
           SampleStore.editDay (str "v1") (str "2026-01-01T00:00:00.000Z")
           SampleStore.updatesRefused).2.
Proof.
  split.
  - destruct (ModificationService.modifyNutritionDay SampleStore.imports
                SampleStore.editDay (str "v1") (str "2026-01-01T00:00:00.000Z")
                SampleStore.store) as [db' [plan|t]] eqn:Hrun;
      [| vm_compute in Hrun; discriminate].
    destruct (commit_snapshots_then_increments SampleStore.imports)
      as (Hatomic & Hcommit & _).
    destruct (Hatomic _ _ _ _ _ _ Hrun) as [_ Hnormal].
    destruct (Hcommit _ _ _ _ (Hnormal (ex_intro _ plan eq_refl)))
      as (row & snapshot & row' & Hrow & _ & Hversions & _ & _ & Hv & _ & _ & _ & _
          & _ & Hw & _ & _ & _ & _ & _ & Hlive & Hinc & _ & Hjournal).
    assert (row = SampleStore.plan1) as ->
      by (vm_compute in Hrow; injection Hrow as <-; reflexivity).
    exists db', plan, snapshot, row'.
    split; [reflexivity |]. split; [exact Hversions |]. split; [exact Hv |].
    split; [exact Hw |]. split; [exact Hlive |]. split; [exact Hinc |].
    exact Hjournal.
  - destruct (commit_snapshots_then_increments SampleStore.imports)
      as (_ & _ & _ & _ & Hrefused & _).
    exact (Hrefused SampleStore.editDay (str "v1")
             (str "2026-01-01T00:00:00.000Z") SampleStore.updatesRefused _ _
             (ThrownError (str "connection lost")) (or_intror eq_refl)
             (surjective_pairing _)).
Defined.

(* ================================================================== *)
(** * Further properties of the fuzzy target resolver *)
(* ================================================================== *)

Section TrimFacts.

Lemma trimStart_whitespace (pad s : jsstring) :
  Forall (λ c, isWhiteSpace c = true) pad →
  trimStart (pad ++ s) = trimStart s.
Proof.
  induction 1 as [|c pad Hc _ IH]; simpl; [reflexivity |].
  rewrite Hc. exact IH.
Qed.

Lemma trimEnd_whitespace (s pad : jsstring) :
  Forall (λ c, isWhiteSpace c = true) pad →
  trimEnd (s ++ pad) = trimEnd s.
Proof.
  intros H. unfold trimEnd. rewrite rev_app_distr.
  rewrite trimStart_whitespace; [reflexivity |].
  apply List.Forall_rev, H.
Qed.

Lemma trimStart_app (s pad : jsstring) :
  Forall (λ c, isWhiteSpace c = true) pad →
  (trimStart s = [] ∧ trimStart (s ++ pad) = [])
  ∨ trimStart (s ++ pad) = trimStart s ++ pad.
Proof.
  intros H. induction s as [|c s IH]; simpl.
  - left. split; [reflexivity |].
    rewrite <- (app_nil_r pad). rewrite trimStart_whitespace by exact H.
    reflexivity.
  - destruct (isWhiteSpace c); [exact IH | right; reflexivity].
Qed.

(** Whitespace around a string does not survive [trim]. *)
Lemma trim_padding (before s after : jsstring) :
  Forall (λ c, isWhiteSpace c = true) before →
  Forall (λ c, isWhiteSpace c = true) after →
  trim (before ++ s ++ after) = trim s.
Proof.
  intros Hb Ha. unfold trim. rewrite trimStart_whitespace by exact Hb.
  destruct (trimStart_app s after Ha) as [[-> ->] | ->]; [reflexivity |].
  apply trimEnd_whitespace, Ha.
Qed.

Lemma lowerLatin_whitespace (pad : jsstring) :
  Forall (λ c, isWhiteSpace c = true) pad → lowerLatin pad = pad.
Proof.
  induction 1 as [|c pad Hc _ IH]; [reflexivity |].
  unfold lowerLatin in *. simpl. rewrite IH. f_equal.
  unfold lowerLatinUnit.
  destruct ((65 <=? c)%N && (c <=? 90)%N) eqn:E; [| reflexivity].
  apply andb_true_iff in E as [E1 E2].
  apply N.leb_le in E1, E2. unfold isWhiteSpace in Hc.
  repeat (apply orb_true_iff in Hc as [Hc | Hc]);
    repeat match goal with
           | H : (_ && _) = true |- _ => apply andb_true_iff in H as [? ?]
           | H : (_ <=? _)%N = true |- _ => apply N.leb_le in H
           | H : (_ =? _)%N = true |- _ => apply N.eqb_eq in H
           end; lia.
Qed.

Lemma includes_refl (s : jsstring) : includes s s = true.
Proof. apply includes_infix. exists [], []. rewrite app_nil_r. reflexivity. Qed.

Lemma startsWith_refl (s : jsstring) : startsWith s s = true.
Proof. apply startsWith_prefix. exists []. rewrite app_nil_r. reflexivity. Qed.

End TrimFacts.

Section FuzzyMatchingExtras.

Import FuzzyMatching.

Context {Number : Type}.
Variable toLowerCase : jsstring → jsstring.

Local Abbreviation fuzzyMatch := (fuzzyMatch (Number := Number) toLowerCase).
Local Abbreviation fuzzyFindIndex := (fuzzyFindIndex (Number := Number) toLowerCase).
Local Abbreviation fuzzyFind := (fuzzyFind (Number := Number) toLowerCase).
Local Abbreviation fuzzyFindAll := (fuzzyFindAll (Number := Number) toLowerCase).
Local Abbreviation fieldMatches := (fieldMatches (Number := Number) toLowerCase).
Local Abbreviation qualifies := (qualifies (Number := Number) toLowerCase).

Implicit Types (options : FuzzyMatchOptions Number) (item : Item Number)
         (items : list (Item Number)).

(** X1. Every string matches itself, whatever the options. *)
Theorem fuzzyMatch_reflexive (s : jsstring) options :
  fuzzyMatch s s options = true.
Proof.
  unfold FuzzyMatching.fuzzyMatch.
  destruct (default false (exact options)).
  - apply strictEquals_eq. reflexivity.
  - destruct (default false (startsWith options)).
    + apply startsWith_refl.
    + apply includes_refl.
Qed.

(** X2. The modes are ordered by strength: what matches under [exact]
    matches under [startsWith], and what matches under [startsWith]
    matches by default; [exact] wins when both flags are set. *)
Theorem fuzzyMatch_modes_ordered (target term : jsstring) score1 score2 score3 sw :
  (fuzzyMatch target term
     {| exact := Some true; startsWith := sw; minScore := score1 |} = true →
   fuzzyMatch target term
     {| exact := None; startsWith := Some true; minScore := score2 |} = true)
  ∧ (fuzzyMatch target term
       {| exact := None; startsWith := Some true; minScore := score2 |} = true →
     fuzzyMatch target term
       {| exact := None; startsWith := None; minScore := score3 |} = true)
  ∧ fuzzyMatch target term
      {| exact := Some true; startsWith := Some true; minScore := score1 |}
    = fuzzyMatch target term
        {| exact := Some true; startsWith := None; minScore := score1 |}.
Proof.
  unfold FuzzyMatching.fuzzyMatch. simpl. split; [| split; [| reflexivity]].
  - intros H. apply strictEquals_eq in H. rewrite H. apply startsWith_refl.
  - intros H. apply startsWith_prefix in H as [rest H].
    apply includes_infix. exists [], rest. exact H.
Qed.

(** X3. Within one mode, matching is transitive. *)
Theorem fuzzyMatch_transitive (a b c : jsstring) options :
  fuzzyMatch a b options = true →
  fuzzyMatch b c options = true →
  fuzzyMatch a c options = true.
Proof.
  unfold FuzzyMatching.fuzzyMatch.
  destruct (default false (exact options)).
  - rewrite !strictEquals_eq. congruence.
  - destruct (default false (startsWith options)).
    + rewrite !startsWith_prefix. intros [r1 ->] [r2 ->].
      exists (r2 ++ r1). rewrite <- app_assoc. reflexivity.
    + rewrite !includes_infix. intros (p1 & q1 & ->) (p2 & q2 & ->).
      exists (p1 ++ p2), (q2 ++ q1). rewrite <- !app_assoc. reflexivity.
Qed.

(** X4. On Basic Latin strings the match sees neither letter case nor
    surrounding whitespace: two targets (or two terms) with the same
    lower-case form are matched alike, and so are a string and the
    same string between runs of whitespace. *)
Theorem fuzzyMatch_ignores_case_and_padding
        (target target' term term' before after : jsstring) options :
  LowerCaseOnLatin toLowerCase →
  isBasicLatin target → isBasicLatin target' →
  isBasicLatin term → isBasicLatin term' →
  isBasicLatin before → isBasicLatin after →
  Forall (λ c, isWhiteSpace c = true) before →
  Forall (λ c, isWhiteSpace c = true) after →
  lowerLatin target = lowerLatin target' →
  lowerLatin term = lowerLatin term' →
  fuzzyMatch target term options = fuzzyMatch target' term' options
  ∧ fuzzyMatch (before ++ target ++ after) term options
    = fuzzyMatch target term options
  ∧ fuzzyMatch target (before ++ term ++ after) options
    = fuzzyMatch target term options.
Proof.
  intros Hlow Ht Ht' Hs Hs' Hb Ha Wb Wa Et Es.
  assert (Hpad : ∀ s, isBasicLatin s →
            trim (toLowerCase (before ++ s ++ after)) = trim (toLowerCase s)).
  { intros s Hl. rewrite !Hlow.
    - unfold lowerLatin. rewrite !map_app.
      fold (lowerLatin before). fold (lowerLatin after). fold (lowerLatin s).
      rewrite (lowerLatin_whitespace before Wb), (lowerLatin_whitespace after Wa).
      apply trim_padding; assumption.
    - exact Hl.
    - apply Forall_app. split; [exact Hb |].
      apply Forall_app. split; assumption. }
  unfold FuzzyMatching.fuzzyMatch. cbv zeta.
  rewrite !Hpad by assumption.
  rewrite (Hlow target Ht), (Hlow target' Ht'), (Hlow term Hs), (Hlow term' Hs').
  rewrite Et, Es. repeat split.
Qed.

(** The index [fuzzyFindIndex] returns is [-1] or a position of the
    list. *)
Lemma findIndexFrom_bounds {A} (p : A → bool) (l : list A) (base : Z) :
  findIndexFrom p l base = -1
  ∨ base ≤ findIndexFrom p l base < base + Z.of_nat (length l).
Proof.
  revert base. induction l as [|x l IH]; intros base; simpl; [left; reflexivity |].
  destruct (p x); [right; lia |].
  destruct (IH (base + 1)) as [-> | H]; [left; reflexivity | right; lia].
Qed.

Lemma findIndexFrom_filter {A} (p : A → bool) (l : list A) (base : Z) :
  0 ≤ base →
  (if 0 <=? findIndexFrom p l base
   then l !! Z.to_nat (findIndexFrom p l base - base)
   else None)
  = head (List.filter p l).
Proof.
  revert base. induction l as [|x l IH]; intros base Hbase; simpl; [reflexivity |].
  destruct (p x) eqn:Hx.
  - destruct (0 <=? base) eqn:E; [| apply Z.leb_gt in E; lia].
    rewrite Z.sub_diag. reflexivity.
  - rewrite <- (IH (base + 1)) by lia.
    destruct (findIndexFrom_bounds p l (base + 1)) as [-> | Hb]; [reflexivity |].
    destruct (0 <=? findIndexFrom p l (base + 1)) eqn:E; [| reflexivity].
    replace (Z.to_nat (findIndexFrom p l (base + 1) - base))
      with (S (Z.to_nat (findIndexFrom p l (base + 1) - (base + 1)))) by lia.
    reflexivity.
Qed.

Lemma fuzzyFind_head items (nameField term : jsstring) options :
  fuzzyFind items nameField term options
  = head (fuzzyFindAll items nameField term options).
Proof.
  pose proof (findIndexFrom_filter (fieldMatches nameField term options) items 0
                (Z.le_refl 0)) as H.
  rewrite Z.sub_0_r in H. exact H.
Qed.

Lemma fuzzyFind_none items (nameField term : jsstring) options :
  fuzzyFindIndex items nameField term options = -1
  ↔ fuzzyFind items nameField term options = None.
Proof.
  unfold FuzzyMatching.fuzzyFind.
  pose proof (findIndexFrom_bounds (fieldMatches nameField term options) items 0)
    as Hb.
  change (findIndexFrom (fieldMatches nameField term options) items 0)
    with (fuzzyFindIndex items nameField term options) in Hb.
  split.
  - intros ->. reflexivity.
  - destruct Hb as [-> | Hb]; [reflexivity |].
    destruct (0 <=? _) eqn:E; [| apply Z.leb_gt in E; lia].
    intros Hnone. apply lookup_ge_None in Hnone. lia.
Qed.

(** X5. [fuzzyFind] is the item at the index [fuzzyFindIndex] returns:
    that index is [-1] or a position of the list, it is [-1] exactly
    when [fuzzyFind] finds nothing, and what [fuzzyFind] finds is the
    first of the items [fuzzyFindAll] returns. *)
Theorem fuzzyFind_agrees_with_index_and_all items (nameField term : jsstring)
        options :
  let index := fuzzyFindIndex items nameField term options in
  (index = -1 ∨ 0 ≤ index < Z.of_nat (length items))
  ∧ (index = -1 ↔ fuzzyFind items nameField term options = None)
  ∧ (∀ item, fuzzyFind items nameField term options = Some item ↔
             0 ≤ index ∧ items !! Z.to_nat index = Some item)
  ∧ fuzzyFind items nameField term options
    = head (fuzzyFindAll items nameField term options).
Proof.
  intros index.
  pose proof (findIndexFrom_bounds (fieldMatches nameField term options) items 0)
    as Hb.
  change (findIndexFrom (fieldMatches nameField term options) items 0)
    with index in Hb.
  split; [exact Hb |].
  split; [apply fuzzyFind_none |]. split; [| apply fuzzyFind_head].
  unfold FuzzyMatching.fuzzyFind. fold index.
  intros item. destruct (0 <=? index) eqn:E.
  - apply Z.leb_le in E. split; [intros H; split; assumption | intros [_ H]; exact H].
  - apply Z.leb_gt in E. split; [discriminate | lia].
Qed.

(** X6. [fuzzyFindAll] returns exactly the qualifying items, in the
    order of the list and as often as they occur; it is empty exactly
    when [fuzzyFindIndex] is [-1]. *)
Theorem fuzzyFindAll_exactly_the_qualifying items (nameField term : jsstring)
        options :
  (∀ item, item ∈ fuzzyFindAll items nameField term options ↔
           item ∈ items ∧ qualifies nameField term options item)
  ∧ sublist (fuzzyFindAll items nameField term options) items
  ∧ (∀ before after,
       items = before ++ after →
       fuzzyFindAll items nameField term options
       = fuzzyFindAll before nameField term options
         ++ fuzzyFindAll after nameField term options)
  ∧ (fuzzyFindAll items nameField term options = [] ↔
     fuzzyFindIndex items nameField term options = -1).
Proof.
  unfold FuzzyMatching.fuzzyFindAll. split; [| split; [| split]].
  - intros item. rewrite !list_elem_of_In, filter_In.
    rewrite fieldMatches_qualifies. reflexivity.
  - induction items as [|x l IH]; simpl; [constructor |].
    destruct (fieldMatches nameField term options x);
      [apply sublist_skip | apply sublist_cons]; exact IH.
  - intros before after ->. apply List.filter_app.
  - rewrite fuzzyFind_none, fuzzyFind_head.
    unfold FuzzyMatching.fuzzyFindAll.
    destruct (List.filter _ items); split; try reflexivity; discriminate.
Qed.

End FuzzyMatchingExtras.

Lemma fuzzyMatch_modes_ordered_witness :
  FuzzyMatching.fuzzyMatch (Number := Z) lowerLatin (str "Pranzo") (str " pranzo")
    exactOnly = true
  ∧ FuzzyMatching.fuzzyMatch (Number := Z) lowerLatin (str "Pranzo") (str " pranzo")
      FuzzyMatching.noOptions = true.
Proof.
  assert (H : FuzzyMatching.fuzzyMatch (Number := Z) lowerLatin (str "Pranzo")
                (str " pranzo") exactOnly = true) by (vm_compute; reflexivity).
  split; [exact H |].
  destruct (fuzzyMatch_modes_ordered (Number := Z) lowerLatin (str "Pranzo")
              (str " pranzo") None None None None) as (H1 & H2 & _).
  exact (H2 (H1 H)).
Defined.

Lemma fuzzyMatch_transitive_witness :
  FuzzyMatching.fuzzyMatch (Number := Z) lowerLatin (str "Pranzo leggero")
    (str "PRANZO") startsWithOnly = true
  ∧ FuzzyMatching.fuzzyMatch (Number := Z) lowerLatin (str "PRANZO")
      (str " pran") startsWithOnly = true
  ∧ FuzzyMatching.fuzzyMatch (Number := Z) lowerLatin (str "Pranzo leggero")
      (str " pran") startsWithOnly = true.
Proof.
  assert (H1 : FuzzyMatching.fuzzyMatch (Number := Z) lowerLatin
                 (str "Pranzo leggero") (str "PRANZO") startsWithOnly = true)
    by (vm_compute; reflexivity).
  assert (H2 : FuzzyMatching.fuzzyMatch (Number := Z) lowerLatin (str "PRANZO")
                 (str " pran") startsWithOnly = true)
    by (vm_compute; reflexivity).
  split; [exact H1 |]. split; [exact H2 |].
  exact (fuzzyMatch_transitive lowerLatin _ _ _ _ H1 H2).
Defined.

Lemma fuzzyMatch_ignores_case_and_padding_witness :
  LowerCaseOnLatin lowerLatin
  ∧ FuzzyMatching.fuzzyMatch (Number := Z) lowerLatin (str "Pranzo") (str "RAN")
      FuzzyMatching.noOptions
    = FuzzyMatching.fuzzyMatch (Number := Z) lowerLatin (str "PRANZO") (str "ran")
        FuzzyMatching.noOptions
  ∧ FuzzyMatching.fuzzyMatch (Number := Z) lowerLatin
      (str "  " ++ str "Pranzo" ++ str " ") (str "RAN") FuzzyMatching.noOptions
    = FuzzyMatching.fuzzyMatch (Number := Z) lowerLatin (str "Pranzo") (str "RAN")
        FuzzyMatching.noOptions.
Proof.
  split; [exact lowerLatin_on_latin |].
  assert (Hb : isBasicLatin (str "  ")) by (vm_compute; basic_latin).
  assert (Ha : isBasicLatin (str " ")) by (vm_compute; basic_latin).
  assert (Ht : isBasicLatin (str "Pranzo")) by (vm_compute; basic_latin).
  assert (Ht' : isBasicLatin (str "PRANZO")) by (vm_compute; basic_latin).
  assert (Hs : isBasicLatin (str "RAN")) by (vm_compute; basic_latin).
  assert (Hs' : isBasicLatin (str "ran")) by (vm_compute; basic_latin).
  assert (Wb : Forall (λ c, isWhiteSpace c = true) (str "  "))
    by (vm_compute; repeat constructor).
  assert (Wa : Forall (λ c, isWhiteSpace c = true) (str " "))
    by (vm_compute; repeat constructor).
  assert (Et : lowerLatin (str "Pranzo") = lowerLatin (str "PRANZO"))
    by (vm_compute; reflexivity).
  assert (Es : lowerLatin (str "RAN") = lowerLatin (str "ran"))
    by (vm_compute; reflexivity).
  destruct (fuzzyMatch_ignores_case_and_padding (Number := Z) lowerLatin
              _ _ _ _ _ _ FuzzyMatching.noOptions lowerLatin_on_latin
              Ht Ht' Hs Hs' Hb Ha Wb Wa Et Es) as (H1 & H2 & _).
  split; [exact H1 | exact H2].
Defined.

Lemma fuzzyFindAll_exactly_the_qualifying_witness :
  FuzzyMatching.fuzzyFindAll (Number := Z) lowerLatin meals (str "name") (str "o")
    FuzzyMatching.noOptions
  = FuzzyMatching.fuzzyFindAll (Number := Z) lowerLatin (take 1 meals) (str "name") (str "o")
      FuzzyMatching.noOptions
    ++ FuzzyMatching.fuzzyFindAll (Number := Z) lowerLatin (drop 1 meals) (str "name") (str "o")
         FuzzyMatching.noOptions.
Proof.
  destruct (fuzzyFindAll_exactly_the_qualifying lowerLatin meals (str "name")
              (str "o") FuzzyMatching.noOptions) as (_ & _ & H & _).
  exact (H (take 1 meals) (drop 1 meals) eq_refl).
Defined.

(* ================================================================== *)
(** * Further properties of the response helpers and of the CRUD tool *)
(* ================================================================== *)

Section SafeExecuteFacts.

Context {S T : Type}.

Implicit Types (operation : Eff S (ModificationResult T)) (s : S).

(** X7. [safeExecute] never throws: it hands on what the operation
    returns, turns what the operation throws into the error result
    that carries the message, and wrapping twice changes nothing. *)
Theorem safeExecute_never_throws operation s :
  returned (safeExecute operation s)
  ∧ (∀ s' r, operation s = (s', Normal r) →
       safeExecute operation s = (s', Normal r))
  ∧ (∀ s' thrown, operation s = (s', Abrupt thrown) →
       ∃ r, safeExecute operation s = (s', Normal r)
            ∧ success r = false
            ∧ error r = Some (messageOf thrown)
            ∧ updated r = None)
  ∧ safeExecute (safeExecute operation) s = safeExecute operation s.
Proof.
  unfold safeExecute, tryCatch, ret, returned.
  destruct (operation s) as [s' [r|thrown]].
  - split; [eexists; reflexivity |]. split; [| split].
    + intros s'' r' [= <- <-]. reflexivity.
    + intros s'' thrown [=].
    + reflexivity.
  - split; [eexists; reflexivity |]. split; [| split].
    + intros s'' r [=].
    + intros s'' thrown' [= <- <-]. eexists. split; [reflexivity |].
      destruct thrown; repeat split.
    + reflexivity.
Qed.

End SafeExecuteFacts.

Section CrudExtras.

Import CrudFramework.

Context {World McpContext Value Updated : Type}.

Local Abbreviation Config := (CrudToolConfig World McpContext Value Updated).
Local Abbreviation Item := (BatchOperationItem Value).
Local Abbreviation Machine := (Machine World Value).

Implicit Types (cfg : Config) (context : McpContext) (m : Machine)
         (item : Item) (items : list Item) (args : CrudArgs Value).

(** X8. Without a batch (none, or an empty one) [execute] runs the
    single operation and never throws: an operation without handler
    gives the unknown-operation error with no handler invoked, a
    handler that throws gives the error result with its message, and a
    handler that returns has its result handed on; the handler is
    invoked at most once, with the whole argument object. *)
Theorem crud_single_operation_never_throws cfg args context m :
  a_batch args = None ∨ a_batch args = Some [] →
  returned (execute cfg args context m)
  ∧ (handlers cfg (a_operation args) = None →
     execute cfg args context m
     = (m, Normal (errorResult
                     (ErrString (str "Unknown operation: "
                                 ++ operationName (a_operation args))))))
  ∧ (∀ handler w r,
       handlers cfg (a_operation args) = Some handler →
       handler (a_all args) context (world m) = (w, Normal r) →
       execute cfg args context m
       = ({| world := w;
             calls := calls m ++ [(a_operation args, a_all args)] |},
          Normal (ofHandler r)))
  ∧ (∀ handler w thrown,
       handlers cfg (a_operation args) = Some handler →
       handler (a_all args) context (world m) = (w, Abrupt thrown) →
       ∃ r, execute cfg args context m
            = ({| world := w;
                  calls := calls m ++ [(a_operation args, a_all args)] |},
               Normal r)
            ∧ success r = false
            ∧ error r = Some (messageOf thrown)).
Proof.
  intros Hbatch.
  assert (Hexec : execute cfg args context m
                  = match handlers cfg (a_operation args) with
                    | None =>
                        (m, Normal (errorResult
                                      (ErrString (str "Unknown operation: "
                                                  ++ operationName (a_operation args)))))
                    | Some handler =>
                        match handler (a_all args) context (world m) with
                        | (w, Normal r) =>
                            ({| world := w;
                                calls := calls m ++ [(a_operation args, a_all args)] |},
                             Normal (ofHandler r))
                        | (w, Abrupt thrown) =>
                            ({| world := w;
                                calls := calls m ++ [(a_operation args, a_all args)] |},
                             Normal (errorResult (ofThrown thrown)))
                        end
                    end).
  { unfold execute. destruct Hbatch as [-> | ->];
      (destruct (handlers cfg (a_operation args)) as [handler|]; [| reflexivity];
       unfold tryCatch, bind, call, ret;
       destruct (handler (a_all args) context (world m)) as [w [r|thrown]];
       reflexivity). }
  rewrite Hexec. split; [| split; [| split]].
  - unfold returned.
    destruct (handlers cfg (a_operation args)) as [handler|];
      [| eexists; reflexivity].
    destruct (handler (a_all args) context (world m)) as [w [r|thrown]];
      eexists; reflexivity.
  - intros ->. reflexivity.
  - intros handler w r -> ->. reflexivity.
  - intros handler w thrown -> ->. eexists. split; [reflexivity |].
    destruct thrown; split; reflexivity.
Qed.

(** X9. Unless [batchSupported] is [true] (its default is [false]), a
    non-empty batch is refused before anything runs: no handler is
    invoked, not even that of [args.operation]. *)
Theorem crud_batch_refused_when_unsupported cfg args context m first others :
  batchSupported cfg ≠ Some true →
  a_batch args = Some (first :: others) →
  execute cfg args context m
  = (m, Normal (errorResult
                  (ErrString (str "Batch operations not supported for this domain")))).
Proof.
  intros Hno Hbatch. unfold execute. rewrite Hbatch.
  destruct (batchSupported cfg) as [[|]|]; [congruence | |]; reflexivity.
Qed.

(** X10. Inside a batch nothing catches a handler: after a prefix of
    successes, a handler that throws makes [execute] throw the same
    value, with the handlers of the items before it and its own
    invoked and none after. *)
Theorem crud_batch_handler_exception_escapes cfg args context m
        before m1 messages item after handler w thrown :
  batchSupported cfg = Some true →
  allSucceed cfg context before m = Some (m1, messages) →
  a_batch args = Some (before ++ item :: after) →
  handlers cfg (operation item) = Some handler →
  handler (spread item) context (world m1) = (w, Abrupt thrown) →
  execute cfg args context m
  = ({| world := w; calls := calls m ++ invocations (before ++ [item]) |},
     Abrupt thrown).
Proof.
  intros Hsupported Hbefore Hbatch Hsome Hrun.
  destruct (allSucceed_calls cfg context before m m1 messages Hbefore)
    as [Hcalls _].
  destruct (before ++ item :: after) as [|first others] eqn:E;
    [destruct before; discriminate |].
  assert (Hexec : execute cfg args context m
                  = batchLoop cfg context (length (first :: others))
                              (first :: others) [] m).
  { unfold execute. rewrite Hbatch, Hsupported. reflexivity. }
  rewrite Hexec, <- E.
  rewrite (batchLoop_after_successes cfg context _ before _ [] m m1 messages
                                     Hbefore).
  simpl. rewrite Hsome. unfold bind, call. rewrite Hrun.
  unfold invocations. rewrite Hcalls, map_app, app_assoc. reflexivity.
Qed.

End CrudExtras.

Lemma crud_single_operation_never_throws_witness :
  CrudFramework.a_batch (LogTool.single CrudFramework.delete) = None
  ∧ ∃ r, CrudFramework.execute (LogTool.log None)
           (LogTool.single CrudFramework.delete) tt LogTool.start
         = ({| CrudFramework.world := 0%nat;
               CrudFramework.calls :=
                 [(CrudFramework.delete, {[ str "id" := 7 ]})] |},
            Normal r)
         ∧ success r = false
         ∧ error r = Some (str "locked").
Proof.
  split; [reflexivity |].
  destruct (crud_single_operation_never_throws (LogTool.log None)
              (LogTool.single CrudFramework.delete) tt LogTool.start
              (or_introl eq_refl)) as (_ & _ & _ & Hthrow).
  destruct (Hthrow _ 0%nat (ThrownError (str "locked")) eq_refl eq_refl)
    as (r & Hrun & Hfail & Herr).
  exists r. split; [exact Hrun |]. split; [exact Hfail | exact Herr].
Defined.

Lemma crud_batch_refused_when_unsupported_witness :
  CrudFramework.batchSupported (LogTool.log None) ≠ Some true
  ∧ CrudFramework.execute (LogTool.log None)
      (LogTool.batchOf [LogTool.op CrudFramework.create]) tt LogTool.start
    = (LogTool.start,
       Normal (errorResult
                 (ErrString (str "Batch operations not supported for this domain")))).
Proof.
  assert (H : CrudFramework.batchSupported (LogTool.log None) ≠ Some true)
    by discriminate.
  split; [exact H |].
  exact (crud_batch_refused_when_unsupported (LogTool.log None)
           (LogTool.batchOf [LogTool.op CrudFramework.create]) tt LogTool.start
           _ _ H eq_refl).
Defined.

Lemma crud_batch_handler_exception_escapes_witness :
  allSucceed (LogTool.log (Some true)) tt [LogTool.op CrudFramework.create]
    LogTool.start
  = Some ({| CrudFramework.world := 1%nat;
             CrudFramework.calls := [(CrudFramework.create, ∅)] |},
          [str "Created"])
  ∧ CrudFramework.execute (LogTool.log (Some true))
      (LogTool.batchOf
         [LogTool.op CrudFramework.create; LogTool.op CrudFramework.delete;
          LogTool.op CrudFramework.create])
      tt LogTool.start
    = ({| CrudFramework.world := 1%nat;
          CrudFramework.calls :=
            [(CrudFramework.create, ∅); (CrudFramework.delete, ∅)] |},
       Abrupt (ThrownError (str "locked"))).
Proof.
  assert (H : allSucceed (LogTool.log (Some true)) tt
                [LogTool.op CrudFramework.create] LogTool.start
              = Some ({| CrudFramework.world := 1%nat;
                         CrudFramework.calls := [(CrudFramework.create, ∅)] |},
                      [str "Created"]))
    by (vm_compute; reflexivity).
  split; [exact H |].
  rewrite (crud_batch_handler_exception_escapes (LogTool.log (Some true))
             (LogTool.batchOf
                [LogTool.op CrudFramework.create; LogTool.op CrudFramework.delete;
                 LogTool.op CrudFramework.create])
             tt LogTool.start _ _ _ (LogTool.op CrudFramework.delete)
             [LogTool.op CrudFramework.create] _ 1%nat
             (ThrownError (str "locked")) eq_refl H eq_refl eq_refl eq_refl).
  vm_compute. reflexivity.
Defined.

Lemma safeExecute_never_throws_witness :
  ∃ r, safeExecute (T := unit) (throw (ThrownError (str "boom"))) 0%nat
       = (0%nat, Normal r)
       ∧ success r = false
       ∧ error r = Some (str "boom").
Proof.
  destruct (safeExecute_never_throws (T := unit) (throw (ThrownError (str "boom")))
              0%nat) as (_ & _ & H & _).
  destruct (H 0%nat (ThrownError (str "boom")) eq_refl) as (r & H1 & H2 & H3 & _).
  exists r. split; [exact H1 |]. split; [exact H2 | exact H3].
Defined.

(* ================================================================== *)
(** * Further properties of the agentic engine *)
(* ================================================================== *)

Section AgenticExtras.

Import AgenticFramework.

Context {Entity World McpContext Payload : Type} `{!ToBoolean Payload}.

Local Abbreviation Config := (AgenticToolConfig Entity World McpContext Payload).
Local Abbreviation Item := (ModificationItem Payload).
Local Abbreviation Machine := (Machine Entity World Payload).
Local Abbreviation LoopState := (LoopState Entity World Payload).

Implicit Types (cfg : Config) (context : McpContext) (st : LoopState)
         (item : Item) (m : Machine) (args : ToolArgs Payload).

(** [execute] reads its arguments only through the entity id and the
    list of modifications. *)
Lemma execute_by_modifications cfg args args' context m :
  a_entityId args = a_entityId args' →
  buildModifications args = buildModifications args' →
  execute cfg args context m = execute cfg args' context m.
Proof. intros Hid Hmods. unfold execute. rewrite Hid, Hmods. reflexivity. Qed.

(** X11. An entity that does not resolve, or that the validator
    rejects, ends the call at once with an error result: the only
    calls made are [resolveEntity] and, in the second case,
    [validateEntity]; no handler runs and nothing is saved. *)
Theorem missing_or_rejected_entity_stops_the_call cfg args context m :
  (∀ w1,
     resolveEntity cfg (a_entityId args) context (world m) = (w1, Normal None) →
     execute cfg args context m
     = ({| world := w1;
           calls := calls m ++ [CallResolveEntity (a_entityId args)] |},
        Normal (errorResult
                  (ErrString (domain cfg ++ str " entity with ID "
                              ++ a_entityId args ++ str " not found")))))
  ∧ (∀ w1 entity validate w2 verdict,
       resolveEntity cfg (a_entityId args) context (world m)
       = (w1, Normal (Some entity)) →
       validateEntity cfg = Some validate →
       validate entity w1 = (w2, Normal verdict) →
       verdict ≠ VerdictBoolean true →
       execute cfg args context m
       = ({| world := w2;
             calls := calls m ++ [CallResolveEntity (a_entityId args);
                                  CallValidateEntity entity] |},
          Normal (errorResult
                    (ErrString match verdict with
                               | VerdictString reason => reason
                               | VerdictBoolean _ => str "Entity validation failed"
                               end)))).
Proof.
  split.
  - intros w1 Hr. unfold execute, bind, call. simpl. rewrite Hr. reflexivity.
  - intros w1 entity validate w2 verdict Hr Ev Hv Hne.
    unfold execute, bind, call. simpl. rewrite Hr. simpl. rewrite Ev. simpl.
    rewrite Hv. simpl. rewrite <- app_assoc.
    destruct verdict as [[|]|reason]; [congruence | |]; reflexivity.
Qed.

(** X12. A non-empty batch makes [execute] ignore [action], [target],
    [changes] and [newData]; without one, a non-empty [action] is the
    batch of that one item, and an empty [action] string counts as no
    action at all. *)
Theorem batch_takes_precedence_over_single_action cfg context m :
  (∀ args args' first rest,
     a_entityId args = a_entityId args' →
     a_batch args = Some (first :: rest) →
     a_batch args' = Some (first :: rest) →
     execute cfg args context m = execute cfg args' context m)
  ∧ (∀ args c a,
       a_batch args = None ∨ a_batch args = Some [] →
       a_action args = Some (c :: a) →
       execute cfg args context m = execute cfg (asBatch args (c :: a)) context m)
  ∧ (∀ args entity m',
       a_batch args = None ∨ a_batch args = Some [] →
       a_action args = Some [] →
       resolvesAndValidates cfg args context m entity m' →
       execute cfg args context m = (m', Normal noModification)).
Proof.
  split; [| split].
  - intros args args' first rest Hid Hb Hb'.
    apply execute_by_modifications; [exact Hid |].
    unfold buildModifications. rewrite Hb, Hb'. reflexivity.
  - intros args c a Hb Ha.
    apply execute_by_modifications; [reflexivity |].
    unfold buildModifications. rewrite Ha.
    destruct Hb as [-> | ->]; reflexivity.
  - intros args entity m' Hb Ha (w1 & Hr & Hval). cbv zeta in Hval.
    assert (Hmods : buildModifications args = []).
    { unfold buildModifications. rewrite Ha.
      destruct Hb as [-> | ->]; reflexivity. }
    unfold execute, bind, call. simpl. rewrite Hr. simpl.
    destruct (validateEntity cfg) as [validate|].
    + destruct Hval as (w2 & Hv & ->). simpl. rewrite Hv. simpl.
      rewrite Hmods. reflexivity.
    + subst m'. simpl. rewrite Hmods. reflexivity.
Qed.

Lemma processItem_handlerCalls cfg context st item :
  handlerCalls (calls (machine (processItem cfg context st item)))
  = handlerCalls (calls (machine st))
    ++ match handlerRun cfg context st item with
       | Some _ => [action item]
       | None => []
       end.
Proof.
  destruct (handlerRun cfg context st item) as [run|] eqn:E.
  - destruct (processItem_invoked cfg context st item run E) as [params ->].
    simpl. rewrite handlerCalls_app. reflexivity.
  - destruct (processItem_not_invoked cfg context st item E) as [-> _].
    rewrite app_nil_r. reflexivity.
Qed.

Lemma applyModifications_handlerCalls cfg context modifications st :
  handlerCalls (calls (machine (applyModifications cfg context modifications st)))
  = handlerCalls (calls (machine st))
    ++ invokedActions cfg context modifications st.
Proof.
  revert st. induction modifications as [|item rest IH]; intros st.
  - simpl. rewrite app_nil_r. reflexivity.
  - rewrite applyModifications_cons, IH, processItem_handlerCalls.
    simpl. rewrite <- app_assoc. reflexivity.
Qed.

Lemma invokedActions_bounds cfg context modifications st :
  sublist (invokedActions cfg context modifications st)
          (map action modifications)
  ∧ (successes cfg context modifications st
     ≤ length (invokedActions cfg context modifications st))%nat.
Proof.
  revert st. induction modifications as [|item rest IH]; intros st; simpl.
  - split; [constructor | lia].
  - destruct (IH (processItem cfg context st item)) as [Hsub Hle].
    unfold succeedsb.
    destruct (handlerRun cfg context st item) as [run|]; simpl.
    + split; [apply sublist_skip, Hsub |].
      destruct (completion run); lia.
    + split; [apply sublist_cons, Hsub | lia].
Qed.

Lemma finish_handlerCalls cfg context entityId entity (lines : list jsstring) m :
  handlerCalls (calls (finish cfg context entityId entity lines m).1)
  = handlerCalls (calls m).
Proof.
  assert (Hb : ∀ m0, handlerCalls (calls (runBeforeSave cfg context entity m0).1)
                     = handlerCalls (calls m0)).
  { intros m0. unfold runBeforeSave, call, ret.
    destruct (beforeSave cfg) as [hook|]; [| reflexivity].
    destruct (hook entity context (world m0)) as [w c]. simpl.
    rewrite handlerCalls_app. apply app_nil_r. }
  assert (Ha : ∀ prepared m0,
             handlerCalls (calls (runAfterSave cfg context prepared m0).1)
             = handlerCalls (calls m0)).
  { intros prepared m0. unfold runAfterSave, call, ret.
    destruct (afterSave cfg) as [hook|]; [| reflexivity].
    destruct (hook prepared context (world m0)) as [w c]. simpl.
    rewrite handlerCalls_app. apply app_nil_r. }
  rewrite finish_steps. specialize (Hb m).
  destruct (runBeforeSave cfg context entity m) as [m1 [prepared|t]];
    simpl in Hb; [| exact Hb].
  cbv zeta.
  destruct ((saveEntity cfg entityId prepared context (world m1)).2) as [[]|thrown].
  - match goal with
    | |- context [runAfterSave cfg context prepared ?m2] =>
        specialize (Ha prepared m2);
        destruct (runAfterSave cfg context prepared m2) as [m3 [[]|t]]
    end; simpl in Ha |- *; rewrite Ha; simpl;
      rewrite handlerCalls_app, Hb; apply app_nil_r.
  - simpl. rewrite handlerCalls_app, Hb. apply app_nil_r.
Qed.

(** X13. The handlers a call invokes are those of the items that pass
    the lookup and both validations, each once and in batch order:
    the invoked actions are a subsequence of the actions of the batch,
    at least as many as there are successes, and the hooks and the
    save add none. An item reaches its handler exactly when its
    action is registered, its target parses and, should the handler
    have a [changesSchema] and the changes be truthy, the changes
    parse; changes that are not truthy reach the handler as they came,
    whatever the schema. *)
Theorem handlers_are_invoked_in_batch_order cfg args context m entity m'
        first rest :
  resolvesAndValidates cfg args context m entity m' →
  buildModifications args = first :: rest →
  let batch := first :: rest in
  let invoked := invokedActions cfg context batch (loopStart m' entity) in
  handlerCalls (calls (execute cfg args context m).1)
  = handlerCalls (calls m) ++ invoked
  ∧ sublist invoked (map action batch)
  ∧ (successes cfg context batch (loopStart m' entity) ≤ length invoked
     ≤ length batch)%nat
  ∧ (∀ st item,
       is_Some (handlerRun cfg context st item) ↔
       ∃ handler targetData,
         actions cfg !! action item = Some handler
         ∧ targetSchema handler (target item) = Normal (ParseSuccess targetData)
         ∧ (∀ schema,
              changesSchema handler = Some schema →
              truthyValue (changes item) = true →
              ∃ data, schema (changes item) = Normal (ParseSuccess data)))
  ∧ (∀ st item handler targetData,
       actions cfg !! action item = Some handler →
       targetSchema handler (target item) = Normal (ParseSuccess targetData) →
       truthyValue (changes item) = false →
       handlerRun cfg context st item
       = Some (h_execute handler (currentEntity st)
                 {| p_target := targetData;
                    p_changes := changes item;
                    p_newData := newData item |}
                 context (world (machine st)))).
Proof.
  intros Hrv Hmods batch invoked.
  destruct (invokedActions_bounds cfg context batch (loopStart m' entity))
    as [Hsub Hle].
  fold invoked in Hsub, Hle.
  split; [| split; [exact Hsub | split; [| split]]].
  - rewrite (execute_enters_loop cfg args context m entity m' first rest Hrv Hmods).
    cbv zeta. rewrite finish_handlerCalls, applyModifications_handlerCalls.
    simpl.
    destruct (resolvesAndValidates_calls cfg args context m entity m' Hrv)
      as (_ & -> & _).
    reflexivity.
  - split; [exact Hle |].
    apply sublist_length in Hsub. rewrite length_map in Hsub. exact Hsub.
  - intros st item. unfold handlerRun, lookupAction, parseChanges. split.
    + destruct (actions cfg !! action item) as [handler|];
        [| destruct (bool_decide _); intros [run Hrun]; discriminate Hrun].
      destruct (targetSchema handler (target item)) as [[targetData|msg]|t]
        eqn:Htarget;
        [| intros [run Hrun]; discriminate Hrun
         | intros [run Hrun]; discriminate Hrun].
      intros Hrun. exists handler, targetData.
      split; [reflexivity |]. split; [exact Htarget |].
      intros schema Hschema Htruthy. rewrite Hschema, Htruthy in Hrun.
      destruct (schema (changes item)) as [[data|msg]|t];
        [exists data; reflexivity | |];
        destruct Hrun as [run Hrun]; discriminate Hrun.
    + intros (handler & targetData & -> & -> & Hchanges).
      destruct (changesSchema handler) as [schema|]; [| eexists; reflexivity].
      destruct (truthyValue (changes item)); [| eexists; reflexivity].
      destruct (Hchanges schema eq_refl eq_refl) as [data ->].
      eexists. reflexivity.
  - intros st item handler targetData Hh Ht Hfalsy.
    unfold handlerRun, lookupAction, parseChanges. rewrite Hh, Ht, Hfalsy.
    destruct (changesSchema handler); reflexivity.
Qed.

Lemma processItem_withNewDataSchemas f cfg context st item :
  processItem (withNewDataSchemas f cfg) context st item
  = processItem cfg context st item.
Proof.
  unfold processItem, lookupAction. simpl actions. rewrite lookup_fmap.
  destruct (actions cfg !! action item) as [handler|]; reflexivity.
Qed.

(** X14. The [newDataSchema] of an action is never consulted: whatever
    it is replaced by, [execute] behaves the same, so [newData]
    reaches the handler unvalidated. *)
Theorem newDataSchema_is_never_consulted f cfg args context m :
  execute (withNewDataSchemas f cfg) args context m
  = execute cfg args context m.
Proof.
  assert (Hloop : ∀ modifications st,
             applyModifications (withNewDataSchemas f cfg) context modifications st
             = applyModifications cfg context modifications st).
  { induction modifications as [|item rest IH]; intros st; [reflexivity |].
    rewrite !applyModifications_cons, processItem_withNewDataSchemas. apply IH. }
  assert (Hfinish : ∀ entityId entity lines m0,
             finish (withNewDataSchemas f cfg) context entityId entity lines m0
             = finish cfg context entityId entity lines m0)
    by reflexivity.
  unfold execute, bind. simpl.
  destruct (call _ _ m) as [m0 [[entity|]|t]]; try reflexivity.
  destruct (validateEntity cfg) as [validate|].
  - destruct (call _ _ m0) as [m1 [[[|]|reason]|t]]; try reflexivity.
    destruct (buildModifications args) as [|first rest]; [reflexivity |].
    rewrite ?Hloop, ?processItem_withNewDataSchemas. apply Hfinish.
  - unfold ret. destruct (buildModifications args) as [|first rest];
      [reflexivity |].
    rewrite ?Hloop, ?processItem_withNewDataSchemas. apply Hfinish.
Qed.

(** X15. When [saveEntity] throws, the [afterSave] hook is not run:
    the save is the last call and the result is the save error. When
    it returns, the hook runs next and is given the entity that was
    saved. *)
Theorem afterSave_runs_only_after_a_successful_save
        cfg args context m entity m' first rest m1 prepared :
  resolvesAndValidates cfg args context m entity m' →
  buildModifications args = first :: rest →
  let st := applyModifications cfg context (first :: rest)
              (loopStart m' entity) in
  runBeforeSave cfg context (currentEntity st) (machine st)
  = (m1, Normal prepared) →
  (∀ w2 thrown,
     saveEntity cfg (a_entityId args) prepared context (world m1)
     = (w2, Abrupt thrown) →
     execute cfg args context m
     = ({| world := w2;
           calls := calls m1 ++ [CallSaveEntity (a_entityId args) prepared] |},
        Normal (saveFailed thrown)))
  ∧ (∀ w2 hook w3 c,
       saveEntity cfg (a_entityId args) prepared context (world m1)
       = (w2, Normal tt) →
       afterSave cfg = Some hook →
       hook prepared context w2 = (w3, c) →
       (execute cfg args context m).1
       = {| world := w3;
            calls := calls m1 ++ [CallSaveEntity (a_entityId args) prepared;
                                 CallAfterSave prepared] |}).
Proof.
  intros Hrv Hmods st Hb.
  rewrite (execute_enters_loop cfg args context m entity m' first rest Hrv Hmods).
  cbv zeta. fold st. rewrite finish_steps, Hb. cbv zeta. split.
  - intros w2 thrown Hs. rewrite Hs. reflexivity.
  - intros w2 hook w3 c Hs Ha Hh. rewrite Hs. simpl.
    unfold runAfterSave, call. rewrite Ha. simpl. rewrite Hh.
    rewrite <- app_assoc. destruct c as [[]|t]; reflexivity.
Qed.

End AgenticExtras.

Lemma handlers_are_invoked_in_batch_order_witness :
  resolvesAndValidates WeightsTool.working WeightsRequests.mixed tt
    WeightsTool.start [60; 80; 100] WeightsTool.afterResolve
  ∧ handlerCalls
      (AgenticFramework.calls
         (AgenticFramework.execute WeightsTool.working WeightsRequests.mixed tt
            WeightsTool.start).1)
    = [str "set_weight"; str "set_weight"]
  ∧ resolvesAndValidates StrictWeights.tool StrictWeights.zeroAndNegative tt
      WeightsTool.start [60; 80; 100] WeightsTool.afterResolve
  ∧ handlerCalls
      (AgenticFramework.calls
         (AgenticFramework.execute StrictWeights.tool StrictWeights.zeroAndNegative
            tt WeightsTool.start).1)
    = [str "set_weight"]
  ∧ AgenticFramework.completion
      <$> handlerRun StrictWeights.tool tt (loopStart WeightsTool.afterResolve
                                              [60; 80; 100])
            (WeightsTool.setWeight 0 0)
    = Some (Normal None).
Proof.
  assert (H1 : resolvesAndValidates WeightsTool.working WeightsRequests.mixed tt
                 WeightsTool.start [60; 80; 100] WeightsTool.afterResolve)
    by resolves_known.
  assert (H2 : resolvesAndValidates StrictWeights.tool
                 StrictWeights.zeroAndNegative tt
                 WeightsTool.start [60; 80; 100] WeightsTool.afterResolve)
    by resolves_known.
  split; [exact H1 |]. split; [| split; [exact H2 | split]].
  - rewrite (proj1 (handlers_are_invoked_in_batch_order WeightsTool.working
                      WeightsRequests.mixed tt WeightsTool.start [60; 80; 100]
                      WeightsTool.afterResolve _ _ H1 eq_refl)).
    vm_compute. reflexivity.
  - rewrite (proj1 (handlers_are_invoked_in_batch_order StrictWeights.tool
                      StrictWeights.zeroAndNegative tt WeightsTool.start
                      [60; 80; 100] WeightsTool.afterResolve _ _ H2 eq_refl)).
    vm_compute. reflexivity.
  - destruct (handlers_are_invoked_in_batch_order StrictWeights.tool
                StrictWeights.zeroAndNegative tt WeightsTool.start
                [60; 80; 100] WeightsTool.afterResolve _ _ H2 eq_refl)
      as (_ & _ & _ & _ & Hfalsy).
    rewrite (Hfalsy (loopStart WeightsTool.afterResolve [60; 80; 100])
               (WeightsTool.setWeight 0 0) StrictWeights.set_weight (Some 0)
               ltac:(vm_compute; reflexivity) eq_refl eq_refl).
    reflexivity.
Defined.

Lemma afterSave_runs_only_after_a_successful_save_witness :
  resolvesAndValidates WeightsRequests.notifying WeightsTool.threeWeights tt
    WeightsTool.start [60; 80; 100] WeightsTool.afterResolve
  ∧ AgenticFramework.afterSave WeightsRequests.notifying
    = Some WeightsTool.afterBroken
  ∧ (AgenticFramework.execute WeightsRequests.notifying WeightsTool.threeWeights tt
       WeightsTool.start).2
    = Normal (saveFailed (ThrownError (str "disk full")))
  ∧ last (AgenticFramework.calls
            (AgenticFramework.execute WeightsRequests.notifying
               WeightsTool.threeWeights tt WeightsTool.start).1)
    = Some (AgenticFramework.CallSaveEntity (str "p1") [65; 80; 105]).
Proof.
  assert (H1 : resolvesAndValidates WeightsRequests.notifying
                 WeightsTool.threeWeights tt
                 WeightsTool.start [60; 80; 100] WeightsTool.afterResolve)
    by resolves_known.
  split; [exact H1 |]. split; [reflexivity |].
  pose proof (proj1 (afterSave_runs_only_after_a_successful_save
                       WeightsRequests.notifying WeightsTool.threeWeights tt
                       WeightsTool.start [60; 80; 100] WeightsTool.afterResolve
                       _ _ _ _ H1 eq_refl eq_refl)
                _ (ThrownError (str "disk full")) eq_refl) as Hrun.
  rewrite Hrun. split; [reflexivity |]. vm_compute. reflexivity.
Defined.

Lemma missing_or_rejected_entity_stops_the_call_witness :
  AgenticFramework.execute WeightsTool.working WeightsRequests.missing tt
    WeightsTool.start
  = ({| AgenticFramework.world := [];
        AgenticFramework.calls := [AgenticFramework.CallResolveEntity (str "p9")] |},
     Normal (errorResult (ErrString (str "workout entity with ID p9 not found")))).
Proof.
  rewrite (proj1 (missing_or_rejected_entity_stops_the_call WeightsTool.working
                    WeightsRequests.missing tt WeightsTool.start)
             [] eq_refl).
  vm_compute. reflexivity.
Defined.

Lemma batch_takes_precedence_over_single_action_witness :
  AgenticFramework.execute WeightsTool.working WeightsRequests.strayAction tt
    WeightsTool.start
  = AgenticFramework.execute WeightsTool.working WeightsTool.threeWeights tt
      WeightsTool.start
  ∧ AgenticFramework.execute WeightsTool.working WeightsRequests.oneWeight tt
      WeightsTool.start
    = AgenticFramework.execute WeightsTool.working
        (asBatch WeightsRequests.oneWeight (str "set_weight")) tt WeightsTool.start.
Proof.
  destruct (batch_takes_precedence_over_single_action WeightsTool.working tt
              WeightsTool.start) as (H1 & H2 & _).
  split.
  - exact (H1 WeightsRequests.strayAction WeightsTool.threeWeights _ _
              eq_refl eq_refl eq_refl).
  - assert (Hstr : str "set_weight" = 115%N :: str "et_weight")
      by (vm_compute; reflexivity).
    rewrite Hstr.
    exact (H2 WeightsRequests.oneWeight 115%N (str "et_weight") (or_introl eq_refl)
              (f_equal Some Hstr)).
Defined.

(* ================================================================== *)
(** * Further properties of the modification service *)
(* ================================================================== *)

Ltac thrown_at_once :=
  unfold ModificationService.throwError, throw; reflexivity.

Section ServiceExtras.

Import ModificationService.

Context {Json : Type}.

Local Abbreviation Db := (Db Json).
Local Abbreviation Imports := (Imports Json).

Implicit Types (imp : Imports) (db : Db).

(** X16. The guards of both operations come before any write: a
    missing row, a row of another user, and a day or week number out
    of range each throw their own error and leave the database as it
    was. *)
Theorem service_guards_leave_the_database_untouched imp createId now db :
  (∀ params,
     nutrition_plans db !! planId params = None →
     modifyNutritionDay imp params createId now db
     = (db, Abrupt (ThrownError (str "Plan not found"))))
  ∧ (∀ params row,
       nutrition_plans db !! planId params = Some row →
       np_userId row ≠ Some (n_userId params) →
       modifyNutritionDay imp params createId now db
       = (db, Abrupt (ThrownError
                        (str "Unauthorized: Plan does not belong to user"))))
  ∧ (∀ params row plan,
       nutrition_plans db !! planId params = Some row →
       np_userId row = Some (n_userId params) →
       normalizeNutritionPlan imp row = Normal plan →
       p_dayNumber params < 1
       ∨ getNutritionPlanTotalDays imp plan < p_dayNumber params →
       modifyNutritionDay imp params createId now db
       = (db, Abrupt (ThrownError
                        (str "Invalid day number: " ++ ofZ (p_dayNumber params)
                         ++ str ". Plan has "
                         ++ ofZ (getNutritionPlanTotalDays imp plan)
                         ++ str " day(s)"))))
  ∧ (∀ params,
       workout_programs db !! programId params = None →
       modifyWorkoutWeek imp params createId now db
       = (db, Abrupt (ThrownError (str "Program not found"))))
  ∧ (∀ params row,
       workout_programs db !! programId params = Some row →
       wp_userId row ≠ Some (w_userId params) →
       modifyWorkoutWeek imp params createId now db
       = (db, Abrupt (ThrownError
                        (str "Unauthorized: Program does not belong to user"))))
  ∧ (∀ params row program,
       workout_programs db !! programId params = Some row →
       wp_userId row = Some (w_userId params) →
       normalizeWorkoutProgram imp row = Normal program →
       p_weekNumber params < 1
       ∨ Z.of_nat (length (w_weeks program)) < p_weekNumber params →
       modifyWorkoutWeek imp params createId now db
       = (db, Abrupt (ThrownError
                        (str "Invalid week number: " ++ ofZ (p_weekNumber params)
                         ++ str ". Program has "
                         ++ ofZ (Z.of_nat (length (w_weeks program)))
                         ++ str " week(s)")))).
Proof.
  split; [| split; [| split; [| split; [| split]]]].
  - intros params Hrow. unfold modifyNutritionDay. cbv zeta.
    rewrite bind_run. unfold findNutritionPlan. rewrite Hrow. thrown_at_once.
  - intros params row Hrow Howner. unfold modifyNutritionDay. cbv zeta.
    rewrite bind_run. unfold findNutritionPlan at 1. rewrite Hrow.
    rewrite bool_decide_eq_false_2 by exact Howner. thrown_at_once.
  - intros params row plan Hrow Howner Hnorm Hrange.
    unfold modifyNutritionDay. cbv zeta.
    rewrite bind_run. unfold findNutritionPlan at 1. rewrite Hrow.
    rewrite bool_decide_eq_true_2 by exact Howner. change (negb true) with false. cbv iota.
    rewrite bind_run. unfold pure at 1. rewrite Hnorm.
    replace ((p_dayNumber params <? 1)
             || (getNutritionPlanTotalDays imp plan <? p_dayNumber params))
      with true; [thrown_at_once |].
    symmetry. apply orb_true_iff.
    destruct Hrange as [H | H]; [left | right]; apply Z.ltb_lt; exact H.
  - intros params Hrow. unfold modifyWorkoutWeek. cbv zeta.
    rewrite bind_run. unfold findWorkoutProgram. rewrite Hrow. thrown_at_once.
  - intros params row Hrow Howner. unfold modifyWorkoutWeek. cbv zeta.
    rewrite bind_run. unfold findWorkoutProgram at 1. rewrite Hrow.
    rewrite bool_decide_eq_false_2 by exact Howner. thrown_at_once.
  - intros params row program Hrow Howner Hnorm Hrange.
    unfold modifyWorkoutWeek. cbv zeta.
    rewrite bind_run. unfold findWorkoutProgram at 1. rewrite Hrow.
    rewrite bool_decide_eq_true_2 by exact Howner. change (negb true) with false. cbv iota.
    rewrite bind_run. unfold pure at 1. rewrite Hnorm.
    replace ((p_weekNumber params <? 1)
             || (Z.of_nat (length (w_weeks program)) <? p_weekNumber params))
      with true; [thrown_at_once |].
    symmetry. apply orb_true_iff.
    destruct Hrange as [H | H]; [left | right]; apply Z.ltb_lt; exact H.
Qed.

(** X17. History is append-only and an edit stays in its lane: a call
    of [modifyNutritionDay], however it ends, keeps every version row
    that was there, every other plan, and both workout tables, and
    only adds to the journal; likewise [modifyWorkoutWeek]. *)
Theorem service_calls_never_touch_history_or_other_rows imp createId now :
  (∀ params db db' r,
     modifyNutritionDay imp params createId now db = (db', r) →
     (∀ key version, nutrition_plan_versions db !! key = Some version →
                     nutrition_plan_versions db' !! key = Some version)
     ∧ (∀ other, other ≠ planId params →
                 nutrition_plans db' !! other = nutrition_plans db !! other)
     ∧ workout_programs db' = workout_programs db
     ∧ workout_program_versions db' = workout_program_versions db
     ∧ ∃ added, journal db' = journal db ++ added)
  ∧ (∀ params db db' r,
       modifyWorkoutWeek imp params createId now db = (db', r) →
       (∀ key version, workout_program_versions db !! key = Some version →
                       workout_program_versions db' !! key = Some version)
       ∧ (∀ other, other ≠ programId params →
                   workout_programs db' !! other = workout_programs db !! other)
       ∧ nutrition_plans db' = nutrition_plans db
       ∧ nutrition_plan_versions db' = nutrition_plan_versions db
       ∧ ∃ added, journal db' = journal db ++ added).
Proof.
  split.
  - intros params db db' r H.
    destruct (modifyNutritionDay_outcome imp params createId now db db' r H)
      as [[-> _] | (row & data & Hrow & Hfresh & ->)].
    + repeat split; try reflexivity; auto.
      exists []. rewrite app_nil_r. reflexivity.
    + unfold planCommit. simpl. repeat split.
      * intros key version Hk. rewrite lookup_insert_ne; [exact Hk | congruence].
      * intros other Hother. apply lookup_insert_ne. congruence.
      * eexists. reflexivity.
  - intros params db db' r H.
    destruct (modifyWorkoutWeek_outcome imp params createId now db db' r H)
      as [[-> _] | (row & data & Hrow & Hfresh & ->)].
    + repeat split; try reflexivity; auto.
      exists []. rewrite app_nil_r. reflexivity.
    + unfold programCommit. simpl. repeat split.
      * intros key version Hk. rewrite lookup_insert_ne; [exact Hk | congruence].
      * intros other Hother. apply lookup_insert_ne. congruence.
      * eexists. reflexivity.
Qed.

(** X18. Two commits on the same plan chain: the second snapshot holds
    what the first commit wrote, under the version the first commit
    left; both snapshots are kept, and the live version ends two above
    where it started. *)
Theorem successive_commits_chain imp params1 params2 create1 create2
        (db db1 db2 : Db) :
  planCommitted imp params1 create1 db db1 →
  planCommitted imp params2 create2 db1 db2 →
  planId params1 = planId params2 →
  ∃ row written snapshot1 snapshot2 final,
    nutrition_plans db !! planId params1 = Some row
    ∧ nutrition_plans db1 !! planId params1 = Some written
    ∧ create1 ≠ create2
    ∧ nutrition_plan_versions db2 !! create1 = Some snapshot1
    ∧ nutrition_plan_versions db2 !! create2 = Some snapshot2
    ∧ npv_version snapshot1 = np_version row
    ∧ npv_version snapshot2 = np_version row + 1
    ∧ npv_name snapshot2 = np_name written
    ∧ npv_description snapshot2 = np_description written
    ∧ npv_goals snapshot2 = np_goals written
    ∧ npv_status snapshot2 = np_status written
    ∧ npv_weeks snapshot2 = toPrismaJsonValue imp (np_weeks written)
    ∧ nutrition_plans db2 !! planId params1 = Some final
    ∧ np_version final = np_version row + 2
    ∧ size (nutrition_plan_versions db2)
      = S (S (size (nutrition_plan_versions db))).
Proof.
  intros (row & data1 & Hrow & Hfresh1 & ->) (row1 & data2 & Hrow1 & Hfresh2 & ->)
         Hid.
  unfold planCommit in Hrow1, Hfresh2. simpl in Hrow1, Hfresh2.
  rewrite <- Hid in Hrow1. rewrite lookup_insert_eq in Hrow1.
  injection Hrow1 as <-.
  assert (Hne : create1 ≠ create2).
  { intros <-. rewrite lookup_insert_eq in Hfresh2. discriminate. }
  exists row, (updatedNutritionPlanRow row data1),
         (planSnapshot imp (planId params1) (n_userId params1) row),
         (planSnapshot imp (planId params2) (n_userId params2)
                       (updatedNutritionPlanRow row data1)),
         (updatedNutritionPlanRow (updatedNutritionPlanRow row data1) data2).
  unfold planCommit. simpl.
  split; [exact Hrow |]. split; [apply lookup_insert_eq |].
  split; [exact Hne |].
  split; [rewrite lookup_insert_ne by congruence; apply lookup_insert_eq |].
  split; [apply lookup_insert_eq |].
  repeat (split; [reflexivity |]).
  split; [rewrite <- Hid; apply lookup_insert_eq |].
  split; [lia |].
  rewrite map_size_insert_None by exact Hfresh2.
  rewrite map_size_insert_None by exact Hfresh1. reflexivity.
Qed.

(** X19. A snapshot key that is already taken makes the whole call
    fail without a trace: whatever [createId] yields, the call never
    returns and the database is as it was. *)
Theorem taken_snapshot_key_rolls_everything_back imp createId now :
  (∀ params db db' r version,
     nutrition_plan_versions db !! createId = Some version →
     modifyNutritionDay imp params createId now db = (db', r) →
     db' = db ∧ ∃ thrown, r = Abrupt thrown)
  ∧ (∀ params db db' r version,
       workout_program_versions db !! createId = Some version →
       modifyWorkoutWeek imp params createId now db = (db', r) →
       db' = db ∧ ∃ thrown, r = Abrupt thrown).
Proof.
  split.
  - intros params db db' r version Htaken H.
    destruct (modifyNutritionDay_outcome imp params createId now db db' r H)
      as [Hsame | (row & data & _ & Hfresh & _)]; [exact Hsame | congruence].
  - intros params db db' r version Htaken H.
    destruct (modifyWorkoutWeek_outcome imp params createId now db db' r H)
      as [Hsame | (row & data & _ & Hfresh & _)]; [exact Hsame | congruence].
Qed.

Ltac thrown H :=
  unfold throwError, throw, pure, reading in H; discriminate H.


(** X21. What a successful [modifyWorkoutWeek] stores and returns: the
    first week of what [normalizeAgentWorkoutPayload] makes of the
    caller's week takes the place of the first week that carries the
    requested number, the other weeks stay; every column of the live
    row then holds what [prepareProgramForPersistence] made of the
    program after [calculateWeightsInProgram] (the JSON columns
    through [toPrismaJsonValue]), the owner stays and the version is
    one more; and the value returned is the normalisation of that
    row. *)
Theorem modifyWorkoutWeek_stores_and_returns_the_edit
        imp params createId now db db' returned :
  modifyWorkoutWeek imp params createId now db = (db', Normal returned) →
  ∃ row program tempData temp modifiedWeek (index : nat) replaced synced
    persistenceData stored,
    workout_programs db !! programId params = Some row
    ∧ normalizeWorkoutProgram imp row = Normal program
    ∧ tp_week tempData = modifiedWeekData params
    ∧ normalizeAgentWorkoutPayload imp tempData (withUpdatedAt program now) db
      = Normal temp
    ∧ head (w_weeks temp) = Some modifiedWeek
    ∧ w_weeks program !! index = Some replaced
    ∧ weekNumber replaced = p_weekNumber params
    ∧ (∀ (earlier : nat) week,
         (earlier < index)%nat → w_weeks program !! earlier = Some week →
         weekNumber week ≠ p_weekNumber params)
    ∧ calculateWeightsInProgram imp (w_userId params)
        (withWeeks program (<[index := modifiedWeek]> (w_weeks program))) db
      = Normal synced
    ∧ prepareProgramForPersistence imp synced = Normal persistenceData
    ∧ workout_programs db' !! programId params = Some stored
    ∧ wp_userId stored = wp_userId row
    ∧ wp_version stored = wp_version row + 1
    ∧ wp_name stored = wpp_name persistenceData
    ∧ wp_description stored = wpp_description persistenceData
    ∧ wp_difficulty stored = wpp_difficulty persistenceData
    ∧ wp_durationWeeks stored = wpp_durationWeeks persistenceData
    ∧ wp_goals stored = wpp_goals persistenceData
    ∧ wp_weeks stored = toPrismaJsonValue imp (wpp_weeks persistenceData)
    ∧ wp_status stored = wpp_status persistenceData
    ∧ wp_metadata stored
      = toNullablePrismaJsonValue imp (wpp_metadata persistenceData)
    ∧ normalizeWorkoutProgram imp stored = Normal returned.
Proof.
  intros H. unfold modifyWorkoutWeek in H. cbv zeta in H.
  rewrite bind_run in H. unfold findWorkoutProgram at 1 in H.
  destruct (workout_programs db !! programId params) as [row|] eqn:Hrow;
    [| thrown H].
  destruct (negb _); [thrown H |].
  rewrite bind_run in H. unfold pure at 1 in H.
  destruct (normalizeWorkoutProgram imp row) as [program|t] eqn:Hnorm;
    [| thrown H].
  destruct (_ || _); [thrown H |].
  rewrite bind_run in H. unfold reading at 1 in H.
  match type of H with
  | context [normalizeAgentWorkoutPayload imp ?d ?p db] =>
      destruct (normalizeAgentWorkoutPayload imp d p db) as [temp|t] eqn:Htemp;
        [exists row, program, d, temp | thrown H]
  end.
  destruct (head (w_weeks temp)) as [modifiedWeek|] eqn:Hhead; [| thrown H].
  unfold JsArray.findIndex in H.
  destruct (findIndexFrom_spec
              (λ w, bool_decide (weekNumber w = p_weekNumber params))
              (w_weeks program) 0)
    as [[Hnone _] | (index & replaced & Hindex & Hat & Hhit & Hfirst)].
  { rewrite Hnone in H. change (-1 <? 0) with true in H. cbv iota in H.
    thrown H. }
  rewrite Hindex in H.
  replace (0 + Z.of_nat index <? 0) with false in H
    by (symmetry; apply Z.ltb_ge; lia).
  replace (Z.to_nat (0 + Z.of_nat index)) with index in H by lia.
  rewrite bind_run in H. unfold reading at 1 in H.
  destruct (calculateWeightsInProgram imp _ _ _) as [synced|t] eqn:Hsync;
    [| thrown H].
  rewrite bind_run in H. unfold pure at 1 in H.
  destruct (prepareProgramForPersistence imp _) as [persistenceData|t] eqn:Hprep;
    [| thrown H].
  rewrite bind_run in H.
  rewrite (program_transaction imp _ _ _ row _ db Hrow) in H.
  destruct (refusals db (CreatedProgramVersion createId)); [thrown H |].
  destruct (workout_program_versions db !! createId); [thrown H |].
  destruct (refusals db (UpdatedProgram (programId params))); [thrown H |].
  rewrite bind_run in H. unfold findWorkoutProgram in H.
  exists modifiedWeek, index, replaced, synced, persistenceData,
         (updatedWorkoutProgramRow row (programUpdate imp persistenceData)).
  assert (Hstored :
            workout_programs
              (programCommit imp (programId params) (w_userId params) createId row
                             (programUpdate imp persistenceData) db)
            !! programId params
            = Some (updatedWorkoutProgramRow row
                      (programUpdate imp persistenceData)))
    by apply lookup_insert_eq.
  rewrite Hstored in H. unfold pure in H. injection H as <- Hret.
  do 5 (split; [first [reflexivity | assumption] |]). split; [exact Hat |].
  split; [apply bool_decide_eq_true in Hhit; exact Hhit |].
  split.
  { intros earlier week Hlt Hweek Heq.
    pose proof (Hfirst earlier week Hlt Hweek) as Hmiss.
    apply bool_decide_eq_false in Hmiss. contradiction. }
  split; [exact Hsync |]. split; [exact Hprep |].
  split; [exact Hstored |].
  do 10 (split; [reflexivity |]). exact Hret.
Qed.

(** X22. The range check of [modifyWorkoutWeek] counts the weeks while
    the lookup reads their [weekNumber]: a number within the count that
    no week carries passes the check and is refused later, with
    "Week n not found in program", before anything is written. *)
Theorem week_number_carried_by_no_week_is_refused
        imp params createId now db row program temp modifiedWeek :
  workout_programs db !! programId params = Some row →
  wp_userId row = Some (w_userId params) →
  normalizeWorkoutProgram imp row = Normal program →
  1 ≤ p_weekNumber params ≤ Z.of_nat (length (w_weeks program)) →
  (∀ week, week ∈ w_weeks program → weekNumber week ≠ p_weekNumber params) →
  normalizeAgentWorkoutPayload imp
    {| tp_name := w_name program;
       tp_description := w_description program;
       tp_difficulty := w_difficulty program;
       tp_durationWeeks := w_durationWeeks program;
       tp_goals := default (emptyArray imp) (w_goals program);
       tp_week := modifiedWeekData params;
       tp_status := w_status program |}
    (withUpdatedAt program now) db = Normal temp →
  head (w_weeks temp) = Some modifiedWeek →
  modifyWorkoutWeek imp params createId now db
  = (db, Abrupt (ThrownError (str "Week " ++ ofZ (p_weekNumber params)
                              ++ str " not found in program"))).
Proof.
  intros Hrow Howner Hnorm Hrange Hmiss Htemp Hhead.
  unfold modifyWorkoutWeek. cbv zeta.
  rewrite bind_run. unfold findWorkoutProgram at 1. rewrite Hrow.
  rewrite bool_decide_eq_true_2 by exact Howner.
  change (negb true) with false. cbv iota.
  rewrite bind_run. unfold pure at 1. rewrite Hnorm.
  replace ((p_weekNumber params <? 1)
           || (Z.of_nat (length (w_weeks program)) <? p_weekNumber params))
    with false
    by (symmetry; apply orb_false_iff; split; apply Z.ltb_ge; lia).
  rewrite bind_run. unfold reading at 1. rewrite Htemp, Hhead.
  unfold JsArray.findIndex.
  destruct (findIndexFrom_spec
              (λ w, bool_decide (weekNumber w = p_weekNumber params))
              (w_weeks program) 0)
    as [[-> _] | (index & found & _ & Hat & Hhit & _)].
  - reflexivity.
  - apply bool_decide_eq_true in Hhit.
    exfalso. apply (Hmiss found); [| exact Hhit].
    apply list_elem_of_lookup. exists index. exact Hat.
Qed.

(** *** The week search and the day replacement *)

Lemma dayCount_nonneg (week : NutritionWeek Json) : 0 ≤ dayCount week.
Proof. unfold dayCount. destruct (nw_days week); lia. Qed.

Lemma daysIn_nonneg (weeks : list (NutritionWeek Json)) : 0 ≤ daysIn weeks.
Proof.
  induction weeks as [|week weeks IH]; simpl; [lia |].
  pose proof (dayCount_nonneg week). lia.
Qed.

Lemma findWeekNumber_step (week : NutritionWeek Json) rest dayNum weekNum counter :
  findWeekNumber (week :: rest) dayNum weekNum counter
  = if dayNum <=? counter + dayCount week
    then nw_weekNumber week
    else findWeekNumber rest dayNum (weekNum + 1) (counter + dayCount week).
Proof. reflexivity. Qed.

Lemma findWeekNumber_skip (before rest : list (NutritionWeek Json))
      dayNum weekNum counter :
  counter + daysIn before < dayNum →
  findWeekNumber (before ++ rest) dayNum weekNum counter
  = findWeekNumber rest dayNum (weekNum + Z.of_nat (length before))
                   (counter + daysIn before).
Proof.
  revert weekNum counter.
  induction before as [|week before IH]; intros weekNum counter Hlt.
  - simpl. rewrite !Z.add_0_r. reflexivity.
  - simpl app. rewrite findWeekNumber_step.
    simpl in Hlt. pose proof (daysIn_nonneg before) as Hnn.
    destruct (dayNum <=? counter + dayCount week) eqn:E;
      [apply Z.leb_le in E; lia |].
    rewrite IH by lia. f_equal; simpl; lia.
Qed.

Lemma replaceDay_dayCount (weeks : list (NutritionWeek Json))
      weekNum dayNum modifiedDay :
  map dayCount (replaceDay weeks weekNum dayNum modifiedDay) = map dayCount weeks
  ∧ map nw_weekNumber (replaceDay weeks weekNum dayNum modifiedDay)
    = map nw_weekNumber weeks.
Proof.
  unfold replaceDay. induction weeks as [|week weeks [IH1 IH2]]; [split; reflexivity |].
  simpl. rewrite IH1, IH2. split; f_equal.
  - destruct (bool_decide _); [| reflexivity].
    unfold dayCount. simpl. destruct (nw_days week); [| reflexivity].
    rewrite length_map. reflexivity.
  - destruct (bool_decide _); reflexivity.
Qed.

Lemma findWeekNumber_by_counts (weeks weeks' : list (NutritionWeek Json))
      dayNum weekNum counter :
  map dayCount weeks' = map dayCount weeks →
  map nw_weekNumber weeks' = map nw_weekNumber weeks →
  findWeekNumber weeks' dayNum weekNum counter
  = findWeekNumber weeks dayNum weekNum counter.
Proof.
  revert weeks' weekNum counter.
  induction weeks as [|week weeks IH]; intros [|week' weeks'] weekNum counter Hc Hn;
    try discriminate; [reflexivity |].
  simpl in Hc, Hn. injection Hc as Hc1 Hc. injection Hn as Hn1 Hn.
  rewrite !findWeekNumber_step, Hc1, Hn1, (IH weeks' _ _ Hc Hn). reflexivity.
Qed.

(** X23. The week [modifyNutritionDay] files a day under: days are
    counted through the weeks in order, a week without days counting
    none, and the answer is the [weekNumber] of the week in which the
    count reaches the day; past the last day, it is one more than the
    number of weeks. *)
Theorem findWeekNumber_is_the_week_holding_the_day :
  (∀ (before : list (NutritionWeek Json)) week after dayNum,
     daysIn before < dayNum ≤ daysIn before + dayCount week →
     findWeekNumber (before ++ week :: after) dayNum 1 0 = nw_weekNumber week)
  ∧ (∀ (weeks : list (NutritionWeek Json)) dayNum,
       daysIn weeks < dayNum →
       findWeekNumber weeks dayNum 1 0 = 1 + Z.of_nat (length weeks)).
Proof.
  split.
  - intros before week after dayNum [Hlo Hhi].
    rewrite findWeekNumber_skip by lia. rewrite findWeekNumber_step.
    destruct (dayNum <=? _) eqn:E; [reflexivity | apply Z.leb_gt in E; lia].
  - intros weeks dayNum Hlt.
    rewrite <- (app_nil_r weeks) at 1.
    rewrite findWeekNumber_skip by lia. reflexivity.
Qed.

(** X24. Replacing a day keeps the shape of the plan: as many weeks
    with the same numbers and as many days in each, the weeks of
    another number untouched, so every day number still falls in the
    week it fell in; and replacing again changes nothing more. *)
Theorem replaceDay_keeps_the_shape_of_the_plan
        (weeks : list (NutritionWeek Json)) weekNum dayNum modifiedDay :
  let replaced := replaceDay weeks weekNum dayNum modifiedDay in
  length replaced = length weeks
  ∧ map nw_weekNumber replaced = map nw_weekNumber weeks
  ∧ map dayCount replaced = map dayCount weeks
  ∧ (∀ (i : nat) week, weeks !! i = Some week → nw_weekNumber week ≠ weekNum →
                       replaced !! i = Some week)
  ∧ (∀ day first counter,
       findWeekNumber replaced day first counter
       = findWeekNumber weeks day first counter)
  ∧ replaceDay replaced weekNum dayNum modifiedDay = replaced.
Proof.
  intros replaced.
  destruct (replaceDay_dayCount weeks weekNum dayNum modifiedDay) as [Hc Hn].
  split; [apply length_map |]. split; [exact Hn |]. split; [exact Hc |].
  split; [| split].
  - intros i week Hi Hne. unfold replaced, replaceDay.
    rewrite list_lookup_fmap, Hi. simpl.
    rewrite bool_decide_eq_false_2 by exact Hne. reflexivity.
  - intros day first counter. apply findWeekNumber_by_counts; assumption.
  - unfold replaced, replaceDay. rewrite <- list_fmap_compose.
    apply list_fmap_ext. intros i week _. simpl.
    destruct (bool_decide (nw_weekNumber week = weekNum)) eqn:E; simpl;
      rewrite E; [| reflexivity].
    f_equal. f_equal. destruct (nw_days week) as [ds|]; [| reflexivity].
    rewrite <- list_fmap_compose. apply list_fmap_ext. intros j d _. simpl.
    destruct (bool_decide (dayNumber d = dayNum)) eqn:Ed; [| rewrite Ed; reflexivity].
    destruct (bool_decide (dayNumber modifiedDay = dayNum)); reflexivity.
Qed.

(** X25. No call creates or deletes a plan or a program or changes
    its owner, and a version number never goes down: after a call,
    every live row is a row that was there, with the same [userId]
    and the same version or the next one, and the history has grown
    by at most one row. *)
Theorem service_calls_preserve_identity_and_ownership imp createId now :
  (∀ params db db' r,
     modifyNutritionDay imp params createId now db = (db', r) →
     (∀ id, nutrition_plans db' !! id = None ↔ nutrition_plans db !! id = None)
     ∧ (∀ id row', nutrition_plans db' !! id = Some row' →
          ∃ row, nutrition_plans db !! id = Some row
                 ∧ np_userId row' = np_userId row
                 ∧ (np_version row' = np_version row
                    ∨ np_version row' = np_version row + 1))
     ∧ (size (nutrition_plan_versions db') = size (nutrition_plan_versions db)
        ∨ size (nutrition_plan_versions db')
          = S (size (nutrition_plan_versions db))))
  ∧ (∀ params db db' r,
       modifyWorkoutWeek imp params createId now db = (db', r) →
       (∀ id, workout_programs db' !! id = None ↔ workout_programs db !! id = None)
       ∧ (∀ id row', workout_programs db' !! id = Some row' →
            ∃ row, workout_programs db !! id = Some row
                   ∧ wp_userId row' = wp_userId row
                   ∧ (wp_version row' = wp_version row
                      ∨ wp_version row' = wp_version row + 1))
       ∧ (size (workout_program_versions db')
          = size (workout_program_versions db)
          ∨ size (workout_program_versions db')
            = S (size (workout_program_versions db)))).
Proof.
  split.
  - intros params db db' r H.
    destruct (modifyNutritionDay_outcome imp params createId now db db' r H)
      as [[-> _] | (row & data & Hrow & Hfresh & ->)].
    + split; [reflexivity |]. split; [| left; reflexivity].
      intros id row' Hid. exists row'. auto.
    + unfold planCommit. simpl. split; [| split].
      * intros id. destruct (decide (id = planId params)) as [-> | Hne].
        -- rewrite lookup_insert_eq, Hrow. split; discriminate.
        -- rewrite lookup_insert_ne by congruence. reflexivity.
      * intros id row'. destruct (decide (id = planId params)) as [-> | Hne].
        -- rewrite lookup_insert_eq. intros [= <-]. exists row.
           split; [exact Hrow |]. split; [reflexivity | right; reflexivity].
        -- rewrite lookup_insert_ne by congruence. intros Hid.
           exists row'. auto.
      * right. apply map_size_insert_None. exact Hfresh.
  - intros params db db' r H.
    destruct (modifyWorkoutWeek_outcome imp params createId now db db' r H)
      as [[-> _] | (row & data & Hrow & Hfresh & ->)].
    + split; [reflexivity |]. split; [| left; reflexivity].
      intros id row' Hid. exists row'. auto.
    + unfold programCommit. simpl. split; [| split].
      * intros id. destruct (decide (id = programId params)) as [-> | Hne].
        -- rewrite lookup_insert_eq, Hrow. split; discriminate.
        -- rewrite lookup_insert_ne by congruence. reflexivity.
      * intros id row'. destruct (decide (id = programId params)) as [-> | Hne].
        -- rewrite lookup_insert_eq. intros [= <-]. exists row.
           split; [exact Hrow |]. split; [reflexivity | right; reflexivity].
        -- rewrite lookup_insert_ne by congruence. intros Hid.
           exists row'. auto.
      * right. apply map_size_insert_None. exact Hfresh.
Qed.

End ServiceExtras.

Lemma service_guards_leave_the_database_untouched_witness :
  ModificationService.modifyNutritionDay SampleStore.imports StoreEdits.missingPlan
    (str "v1") StoreEdits.timestamp SampleStore.store
  = (SampleStore.store, Abrupt (ThrownError (str "Plan not found")))
  ∧ ModificationService.modifyNutritionDay SampleStore.imports
      StoreEdits.strangerDay (str "v1") StoreEdits.timestamp SampleStore.store
    = (SampleStore.store,
       Abrupt (ThrownError (str "Unauthorized: Plan does not belong to user")))
  ∧ ∃ message,
      ModificationService.modifyNutritionDay SampleStore.imports
        StoreEdits.dayOutOfRange (str "v1") StoreEdits.timestamp SampleStore.store
      = (SampleStore.store, Abrupt (ThrownError message)).
Proof.
  destruct (service_guards_leave_the_database_untouched SampleStore.imports
              (str "v1") StoreEdits.timestamp SampleStore.store)
    as (H1 & H2 & H3 & _).
  split; [apply H1; vm_compute; reflexivity |].
  split.
  - apply (H2 StoreEdits.strangerDay SampleStore.plan1); [vm_compute; reflexivity |].
    intros E. vm_compute in E. discriminate E.
  - eexists.
    apply (H3 StoreEdits.dayOutOfRange SampleStore.plan1 _ eq_refl eq_refl eq_refl).
    right. vm_compute. reflexivity.
Defined.

Lemma service_calls_never_touch_history_or_other_rows_witness :
  ModificationService.workout_programs StoreEdits.afterFirstEdit
  = ModificationService.workout_programs SampleStore.store
  ∧ ∃ added,
      ModificationService.journal StoreEdits.afterFirstEdit
      = ModificationService.journal SampleStore.store ++ added.
Proof.
  destruct (proj1 (service_calls_never_touch_history_or_other_rows
                     SampleStore.imports (str "v1") StoreEdits.timestamp)
              SampleStore.editDay SampleStore.store _ _
              (surjective_pairing _))
    as (_ & _ & H3 & _ & H5).
  split; [exact H3 | exact H5].
Defined.

Lemma successive_commits_chain_witness :
  planCommitted SampleStore.imports SampleStore.editDay (str "v1")
    SampleStore.store StoreEdits.afterFirstEdit
  ∧ planCommitted SampleStore.imports StoreEdits.editDayAgain (str "v2")
      StoreEdits.afterFirstEdit StoreEdits.afterSecondEdit
  ∧ ∃ snapshot1 snapshot2 final,
      ModificationService.nutrition_plan_versions StoreEdits.afterSecondEdit
      !! str "v1" = Some snapshot1
      ∧ ModificationService.nutrition_plan_versions StoreEdits.afterSecondEdit
        !! str "v2" = Some snapshot2
      ∧ ModificationService.npv_version snapshot1 = 3
      ∧ ModificationService.npv_version snapshot2 = 4
      ∧ ModificationService.nutrition_plans StoreEdits.afterSecondEdit
        !! str "plan1" = Some final
      ∧ ModificationService.np_version final = 5.
Proof.
  assert (H1 : planCommitted SampleStore.imports SampleStore.editDay (str "v1")
                 SampleStore.store StoreEdits.afterFirstEdit).
  { exists SampleStore.plan1. eexists.
    split; [vm_compute; reflexivity |]. split; [vm_compute; reflexivity |].
    reflexivity. }
  assert (H2 : planCommitted SampleStore.imports StoreEdits.editDayAgain (str "v2")
                 StoreEdits.afterFirstEdit StoreEdits.afterSecondEdit).
  { eexists. eexists.
    split; [vm_compute; reflexivity |]. split; [vm_compute; reflexivity |].
    reflexivity. }
  split; [exact H1 |]. split; [exact H2 |].
  destruct (successive_commits_chain SampleStore.imports SampleStore.editDay
              StoreEdits.editDayAgain (str "v1") (str "v2") _ _ _ H1 H2 eq_refl)
    as (row & written & snapshot1 & snapshot2 & final & Hrow & _ & _ & Hs1 & Hs2
        & Hv1 & Hv2 & _ & _ & _ & _ & _ & Hfinal & Hvf & _).
  assert (row = SampleStore.plan1) as ->
    by (vm_compute in Hrow; injection Hrow as <-; reflexivity).
  exists snapshot1, snapshot2, final.
  split; [exact Hs1 |]. split; [exact Hs2 |]. split; [exact Hv1 |].
  split; [exact Hv2 |]. split; [exact Hfinal |]. exact Hvf.
Defined.

Lemma taken_snapshot_key_rolls_everything_back_witness :
  (ModificationService.modifyNutritionDay SampleStore.imports SampleStore.editDay
     (str "v1") StoreEdits.timestamp StoreEdits.keyTaken).1
  = StoreEdits.keyTaken.
Proof.
  destruct (proj1 (taken_snapshot_key_rolls_everything_back SampleStore.imports
                     (str "v1") StoreEdits.timestamp)
              SampleStore.editDay StoreEdits.keyTaken _ _
              (ModificationService.planSnapshot SampleStore.imports (str "plan1")
                 (str "u0") SampleStore.plan1)
              eq_refl (surjective_pairing _))
    as [H _].
  exact H.
Defined.


Lemma modifyWorkoutWeek_stores_and_returns_the_edit_witness :
  ∃ db' returned stored,
    ModificationService.modifyWorkoutWeek SampleStore.imports SampleStore.editWeek
      (str "v1") StoreEdits.timestamp SampleStore.store
    = (db', Normal returned)
    ∧ ModificationService.workout_programs db' !! str "prog1" = Some stored
    ∧ ModificationService.wp_userId stored = Some (str "u1")
    ∧ ModificationService.wp_version stored = 8
    ∧ ModificationService.wp_name stored = 20
    ∧ ModificationService.wp_weeks stored = 250
    ∧ ModificationService.normalizeWorkoutProgram SampleStore.imports stored
      = Normal returned
    ∧ ModificationService.w_weeks returned
      = [ {| ModificationService.weekNumber := 1;
             ModificationService.weekBody := 250 |} ].
Proof.
  destruct (ModificationService.modifyWorkoutWeek SampleStore.imports
              SampleStore.editWeek (str "v1") StoreEdits.timestamp
              SampleStore.store) as [db' [returned|t]] eqn:Hrun;
    [| vm_compute in Hrun; discriminate].
  destruct (modifyWorkoutWeek_stores_and_returns_the_edit _ _ _ _ _ _ _ Hrun)
    as (row & program & tempData & temp & modifiedWeek & index & replaced & synced
        & persistenceData & stored
        & _ & _ & _ & _ & _ & _ & _ & _ & _ & _ & Hstored & _).
  exists db', returned, stored.
  split; [reflexivity |]. split; [exact Hstored |].
  vm_compute in Hrun. injection Hrun as <- <-.
  vm_compute in Hstored. injection Hstored as <-.
  split; [vm_compute; reflexivity |]. split; [reflexivity |].
  split; [reflexivity |]. split; [reflexivity |].
  split; vm_compute; reflexivity.
Defined.

Lemma week_number_carried_by_no_week_is_refused_witness :
  ∃ message,
    ModificationService.modifyWorkoutWeek StoreEdits.renumbering SampleStore.editWeek
      (str "v1") StoreEdits.timestamp SampleStore.store
    = (SampleStore.store, Abrupt (ThrownError message)).
Proof.
  eexists.
  eapply (week_number_carried_by_no_week_is_refused StoreEdits.renumbering
            SampleStore.editWeek (str "v1") StoreEdits.timestamp SampleStore.store
            SampleStore.prog1).
  - vm_compute. reflexivity.
  - reflexivity.
  - reflexivity.
  - vm_compute. split; discriminate.
  - intros week Hin. apply list_elem_of_singleton in Hin. subst week.
    vm_compute. discriminate.
  - reflexivity.
  - reflexivity.
Defined.

Lemma findWeekNumber_is_the_week_holding_the_day_witness :
  ModificationService.findWeekNumber [StoreEdits.emptyWeek; StoreEdits.fullWeek] 2 1 0
  = 5
  ∧ ModificationService.findWeekNumber [StoreEdits.emptyWeek; StoreEdits.fullWeek]
      4 1 0 = 3.
Proof.
  destruct (findWeekNumber_is_the_week_holding_the_day (Json := Z)) as [H1 H2].
  split.
  - apply (H1 [StoreEdits.emptyWeek] StoreEdits.fullWeek [] 2).
    vm_compute. split; [reflexivity | discriminate].
  - apply (H2 [StoreEdits.emptyWeek; StoreEdits.fullWeek] 4).
    vm_compute. reflexivity.
Defined.

Lemma replaceDay_keeps_the_shape_of_the_plan_witness :
  ModificationService.replaceDay [StoreEdits.emptyWeek; StoreEdits.fullWeek] 5 2
    (StoreEdits.day 2 25) !! 0%nat
  = Some StoreEdits.emptyWeek.
Proof.
  destruct (replaceDay_keeps_the_shape_of_the_plan
              [StoreEdits.emptyWeek; StoreEdits.fullWeek] 5 2 (StoreEdits.day 2 25))
    as (_ & _ & _ & H & _).
  apply (H 0%nat StoreEdits.emptyWeek eq_refl). vm_compute. discriminate.
Defined.

Lemma service_calls_preserve_identity_and_ownership_witness :
  ∃ row,
    ModificationService.nutrition_plans SampleStore.store !! str "plan1" = Some row
    ∧ ModificationService.np_userId row = Some (str "u1").
Proof.
  destruct (proj1 (service_calls_preserve_identity_and_ownership
                     SampleStore.imports (str "v1") StoreEdits.timestamp)
              SampleStore.editDay SampleStore.store _ _ (surjective_pairing _))
    as (_ & H & _).
  destruct (H (str "plan1")
              (ModificationService.updatedNutritionPlanRow SampleStore.plan1
                 (ModificationService.planUpdate SampleStore.imports
                    {| ModificationService.pp_name := 10;
                       ModificationService.pp_description := 11;
                       ModificationService.pp_goals := 12;
                       ModificationService.pp_durationWeeks := 1;
                       ModificationService.pp_targetMacros := 13;
                       ModificationService.pp_weeks := 150;
                       ModificationService.pp_restrictions := 14;
                       ModificationService.pp_preferences := 0;
                       ModificationService.pp_status := 16;
                       ModificationService.pp_metadata := 0 |}))
              ltac:(vm_compute; reflexivity))
    as (row & Hrow & Howner & _).
  exists row. split; [exact Hrow |]. rewrite <- Howner. reflexivity.
Defined.

(* ================================================================== *)
(** * Properties of the schema builders *)
(* ================================================================== *)

Section SchemaBuilderExtras.

Import SchemaBuilders.

Context {Given : Type}.

Implicit Types (options : TargetSchemaOptions Given) (key : jsstring).

(** The shape before the custom fields are assigned. *)
Lemma createTargetSchema_union options :
  ∃ shape : gmap jsstring (ZodSchema Given),
    createTargetSchema options = customOf options ∪ shape
    ∧ (∀ key, is_Some (shape !! key) ↔ key ∈ builtInFields options)
    ∧ map_Forall (λ _ schema, describedOptional schema) shape.
Proof.
  unfold createTargetSchema, builtInFields, customOf. cbv zeta.
  eexists. split.
  - destruct (customFields options) as [custom|]; simpl;
      [reflexivity | rewrite (left_id_L ∅ (∪)); reflexivity].
  - split.
    + intros key.
      destruct (default false (week options)),
               (default false (day options)),
               (whenNonEmpty (itemField options)) as [item|],
               (whenNonEmpty (subItemField options)) as [sub|];
        simpl;
        rewrite ?lookup_insert_is_Some', ?lookup_empty, ?is_Some_alt,
                ?elem_of_cons, ?elem_of_nil;
        intuition (subst; auto).
    + destruct (default false (week options)),
               (default false (day options)),
               (whenNonEmpty (itemField options)) as [item|],
               (whenNonEmpty (subItemField options)) as [sub|];
        repeat (apply map_Forall_insert_2;
                [eexists; eexists; reflexivity |]);
        apply map_Forall_empty.
Qed.

(** X26. The fields of a target schema: a custom field always wins
    over a made-up field of the same name; the field names are the
    made-up ones and the custom ones and no other, an empty
    [itemField] or [subItemField] making up none; and every field that
    is not custom is optional. *)
Theorem createTargetSchema_fields options :
  (∀ key schema, customOf options !! key = Some schema →
                 createTargetSchema options !! key = Some schema)
  ∧ (∀ key, is_Some (createTargetSchema options !! key) ↔
            key ∈ builtInFields options ∨ is_Some (customOf options !! key))
  ∧ (∀ key schema, createTargetSchema options !! key = Some schema →
                   customOf options !! key = None →
                   key ∈ builtInFields options ∧ describedOptional schema)
  ∧ (itemField options = Some [] → subItemField options = Some [] →
     builtInFields options
     = (if default false (week options) then [str "weekIndex"] else [])
       ++ (if default false (day options) then [str "dayIndex"] else [])).
Proof.
  destruct (createTargetSchema_union options) as (shape & -> & Hkeys & Hopt).
  split; [| split; [| split]].
  - intros key schema Hc. apply lookup_union_Some_l. exact Hc.
  - intros key. rewrite <- Hkeys. unfold is_Some.
    setoid_rewrite lookup_union_Some_raw. split.
    + intros (schema & [Hc | [_ Hs]]); [right | left]; exists schema; assumption.
    + intros [[schema Hs] | [schema Hc]].
      * destruct (customOf options !! key) as [given|] eqn:Hc;
          [exists given; left; reflexivity | exists schema; right; auto].
      * exists schema. left. exact Hc.
  - intros key schema Hl Hc. apply lookup_union_Some_raw in Hl.
    destruct Hl as [Hl | [_ Hs]]; [congruence |].
    split; [apply Hkeys; exists schema; exact Hs | exact (Hopt key schema Hs)].
  - intros Hi Hs. unfold builtInFields. rewrite Hi, Hs. simpl.
    rewrite !app_nil_r. reflexivity.
Qed.

End SchemaBuilderExtras.

Lemma createTargetSchema_fields_witness :
  SchemaBuilders.createTargetSchema WorkoutTarget.options !! str "weekIndex"
  = Some (SchemaBuilders.ZInt SchemaBuilders.ZNumber)
  ∧ (str "exerciseName" ∈ builtInFields WorkoutTarget.options
     ∧ describedOptional (Given := unit)
         (SchemaBuilders.nameSchema (str "exercise name for fuzzy matching"))).
Proof.
  destruct (createTargetSchema_fields WorkoutTarget.options) as (H1 & _ & H3 & _).
  split.
  - apply H1. vm_compute. reflexivity.
  - apply (H3 (str "exerciseName")); vm_compute; reflexivity.
Defined.
